(** * The scanner orchestration layer of gimmemotifs

    A shallow embedding of [gimmemotifs/scanner/__init__.py]: motif-source
    resolution ([check_motifs]), the background-size estimate and the table
    of [scan_regionfile_to_table], the streaming [scan_to_file] with its
    three generators and [_format_line], and [scan_to_best_match].

    The scanning engine ([Scanner]), [as_fasta], [read_motifs], the motif
    configuration, numpy's random source and the file system are outside
    this file of the repository; they enter the model through the record
    [Externals].  Floating-point numbers are represented by the rational
    they denote (finite values only). *)

From Stdlib Require Import String Ascii ZArith QArith Qabs Qround DecimalString.
From stdpp Require Import base strings list gmap sorting.

Open Scope string_scope.

(** ** Text helpers *)

Definition tab : string := String "009"%char EmptyString.
Definition dquote : string := String "034"%char EmptyString.

(** [sep.join(parts)] *)
Definition join (sep : string) (parts : list string) : string :=
  String.concat sep parts.

(** [str(n)] for a Python [int]. *)
Definition str_int (z : Z) : string := NilZero.string_of_int (Z.to_int z).

Definition is_digit (c : ascii) : bool :=
  let n := nat_of_ascii c in (48 <=? n)%nat && (n <=? 57)%nat.

(** [\s] on the ASCII range: tab, newline, vertical tab, form feed, carriage
    return, the four separators 28 to 31 and the space. *)
Definition is_space (c : ascii) : bool :=
  let n := nat_of_ascii c in
  ((9 <=? n)%nat && (n <=? 13)%nat) || ((28 <=? n)%nat && (n <=? 32)%nat).

Definition is_colon (c : ascii) : bool := Ascii.eqb c ":"%char.

(** The class [[^\s:]]. *)
Definition not_space_colon (c : ascii) : bool := negb (is_space c || is_colon c).

(** [int(s)] for a string of ASCII decimal digits. *)
Fixpoint int_of_digits_from (acc : Z) (s : string) : Z :=
  match s with
  | EmptyString => acc
  | String c s' =>
      int_of_digits_from (10 * acc + Z.of_nat (nat_of_ascii c - 48)) s'
  end.

Definition int_of_digits (s : string) : Z := int_of_digits_from 0 s.

(** Index adjustment of a slice bound [i] on a sequence of length [len]
    (step 1): a negative bound counts from the end, and both are clamped. *)
Definition slice_index (len i : Z) : Z :=
  if (i <? 0)%Z then Z.max 0 (i + len) else Z.min i len.

(** [s[a:b]] on a [str]. *)
Definition py_slice (s : string) (a b : Z) : string :=
  let n := Z.of_nat (String.length s) in
  let a' := slice_index n a in
  let b' := slice_index n b in
  substring (Z.to_nat a') (Z.to_nat (b' - a')) s.

(** ** A backtracking matcher for the regular expressions the source uses *)

Inductive regex :=
| RChar (c : ascii)               (* a literal character *)
| RPlus (cls : ascii -> bool)     (* [cls+]: one or more of a class, greedy *)
| RGroup (r : regex)              (* a capturing group (never nested here) *)
| RSeq (r1 r2 : regex).

(** The text consumed between [s] and its suffix [rest]. *)
Definition consumed (s rest : string) : string :=
  substring 0 (String.length s - String.length rest) s.

(** [cls*] followed by the continuation [k], longest run first. *)
Fixpoint star_cls {R} (cls : ascii -> bool) (s : string)
    (k : string -> option R) : option R :=
  match s with
  | EmptyString => k s
  | String c s' =>
      if cls c then
        match star_cls cls s' k with
        | Some r => Some r
        | None => k s
        end
      else k s
  end.

(** Match [r] at the start of [s]; [caps] are the groups closed so far. *)
Fixpoint rmatch {R} (r : regex) (s : string) (caps : list string)
    (k : string -> list string -> option R) : option R :=
  match r with
  | RChar c =>
      match s with
      | String c' s' => if Ascii.eqb c c' then k s' caps else None
      | EmptyString => None
      end
  | RPlus cls =>
      match s with
      | String c s' =>
          if cls c then star_cls cls s' (fun rest => k rest caps) else None
      | EmptyString => None
      end
  | RGroup r1 =>
      rmatch r1 s caps (fun rest caps' => k rest (caps' ++ [consumed s rest])%list)
  | RSeq r1 r2 =>
      rmatch r1 s caps (fun rest caps' => rmatch r2 rest caps' k)
  end.

(** [pattern.search(s)]: the groups of the leftmost match, if any. *)
Fixpoint re_search (r : regex) (s : string) : option (list string) :=
  match rmatch r s [] (fun _ caps => Some caps) with
  | Some caps => Some caps
  | None =>
      match s with
      | EmptyString => None
      | String _ s' => re_search r s'
      end
  end.

(** [re.compile(r"([^\s:]+):(\d+)-(\d+)")] *)
Definition seq_p : regex :=
  RSeq (RGroup (RPlus not_space_colon))
    (RSeq (RChar ":")
       (RSeq (RGroup (RPlus is_digit))
          (RSeq (RChar "-") (RGroup (RPlus is_digit))))).

(** ** Python values, exceptions and results *)

Inductive exn :=
| ValueError (msg : string)
| FileNotFoundError (path : string)
| IndexError (msg : string)
| KeyError (key : Z)
| AttributeError (name : string)
| OSError (msg : string)
| ExternalError (msg : string).   (* raised by a collaborator *)

Inductive result (A : Type) :=
| Ok (a : A)
| Raise (e : exn).
Arguments Ok {A} a.
Arguments Raise {A} e.

Definition is_Ok {A} (r : result A) : bool :=
  match r with Ok _ => true | Raise _ => false end.

(** A motif, as this layer reads it: [m.id] and [len(m)]. *)
Record Motif := {
  motif_id : string;
  motif_len : nat
}.

(** The values [check_motifs] tells apart.  [PyMotif m] is a [Motif]
    instance; [PyObject attrs] is any other object, with the names of its
    attributes. *)
#[warnings="-register-all"]
Inductive pyobj :=
| PyNone
| PyStr (s : string)
| PyList (items : list pyobj)
| PyMotif (m : Motif)
| PyObject (attrs : list string).

(** [hasattr(o, name)] for the two names the source asks for, [to_ppm] and
    [write]: a motif has [to_ppm] only, and [None], [str] and [list] have
    neither. *)
Definition hasattr (o : pyobj) (name : string) : bool :=
  match o with
  | PyMotif _ => String.eqb name "to_ppm"
  | PyObject attrs => bool_decide (name ∈ attrs)
  | _ => false
  end.

(** [MotifConfig()]: the default parameters and the motif directory. *)
Record MotifConfig := {
  get_default_params : gmap string string;
  get_motif_dir : string
}.

(** [os.path.join(a, b)] (posixpath). *)
Definition starts_with_sep (s : string) : bool :=
  match s with String "/"%char _ => true | _ => false end.

Fixpoint ends_with_sep (s : string) : bool :=
  match s with
  | EmptyString => false
  | String c EmptyString => Ascii.eqb c "/"%char
  | String _ s' => ends_with_sep s'
  end.

Definition path_join (a b : string) : string :=
  if starts_with_sep b then b
  else if (String.length a =? 0)%nat || ends_with_sep a then a +:+ b
  else a +:+ "/" +:+ b.

Definition msg_not_motifs : string :=
  "The input list does not contain Motif instances. " +:+
  "Please provide a pfmfile as a string, a list of Motif instances, " +:+
  "or None.".

Definition msg_no_default : string :=
  "No pfmfile given and no default database specified".

Definition msg_bad_type : string :=
  "Please provide a pfmfile as a string, a list of Motif instances, " +:+
  "or None.".

(** [check_motifs] (lines 136-167).  [config] is [MotifConfig()] and
    [path_exists] is [os.path.exists]. *)
Definition check_motifs (config : MotifConfig) (path_exists : string -> bool)
    (pfmfile_or_motifs : pyobj) : result pyobj :=
  match pfmfile_or_motifs with
  | PyList motifs =>
      match motifs with
      | [] => Raise (IndexError "list index out of range")
      | m0 :: _ =>
          if negb (hasattr m0 "to_ppm") then Raise (ValueError msg_not_motifs)
          else Ok (PyList motifs)
      end
  | _ =>
      let resolved :=
        match pfmfile_or_motifs with
        | PyStr s => Ok s
        | PyNone =>
            match get_default_params config !! "motif_db" with
            | None => Raise (ValueError msg_no_default)
            | Some pfmfile => Ok (path_join (get_motif_dir config) pfmfile)
            end
        | _ => Raise (ValueError msg_bad_type)
        end in
      match resolved with
      | Raise e => Raise e
      | Ok pfmfile =>
          if negb (path_exists pfmfile) then Raise (FileNotFoundError pfmfile)
          else Ok (PyStr pfmfile)
      end
  end.

(** The error classes of the specification, as [check_motifs] raises them. *)
Definition input_validation_error (e : exn) : Prop :=
  e = ValueError msg_not_motifs \/ e = ValueError msg_bad_type.

Definition configuration_error (e : exn) : Prop :=
  e = ValueError msg_no_default.

Definition not_found_error (path : string) (e : exn) : Prop :=
  e = FileNotFoundError path.

(** Any type other than list, string or [None]. *)
Definition other_type (x : pyobj) : Prop :=
  match x with
  | PyMotif _ | PyObject _ => True
  | PyNone | PyStr _ | PyList _ => False
  end.

(** ** Number formatting *)

(** Rounding of a rational to the nearest integer, ties to the even one: the
    rounding of Python's float formatting, which works on the exact value. *)
Definition round_half_even (q : Q) : Z :=
  let f := Qfloor q in
  match Qcompare (q - inject_Z f) (1 # 2) with
  | Lt => f
  | Gt => (f + 1)%Z
  | Eq => if Z.even f then f else (f + 1)%Z
  end.

Fixpoint repeat_char (c : ascii) (n : nat) : string :=
  match n with
  | O => EmptyString
  | S n' => String c (repeat_char c n')
  end.

(** [s.rjust(width, c)] *)
Definition pad_left (c : ascii) (width : nat) (s : string) : string :=
  repeat_char c (width - String.length s) +:+ s.

(** The digits after the point: [frac] on exactly [prec] digits. *)
Definition frac_digits (prec : nat) (frac : Z) : string :=
  pad_left "0" prec (str_int frac).

(** Presentation type [f] with [prec] digits after the point. *)
Definition fixed_point (prec : nat) (q : Q) : string :=
  let scale := (10 ^ Z.of_nat prec)%Z in
  let n := round_half_even (Qabs q * inject_Z scale) in
  let sign := match Qcompare q 0 with Lt => "-" | _ => EmptyString end in
  let point :=
    match prec with
    | O => EmptyString
    | S _ => "." +:+ frac_digits prec (n mod scale)
    end in
  sign +:+ str_int (n / scale) +:+ point.

(** A format specification of the shape [[width][.precision][type]]. *)
Record format_spec := {
  fs_width : option nat;
  fs_precision : option nat;
  fs_type : option ascii
}.

Fixpoint span_digits (s : string) : string * string :=
  match s with
  | EmptyString => (EmptyString, EmptyString)
  | String c s' =>
      if is_digit c then
        let '(ds, rest) := span_digits s' in (String c ds, rest)
      else (EmptyString, s)
  end.

Definition digits_value (ds : string) : option nat :=
  match ds with
  | EmptyString => None
  | _ => Some (Z.to_nat (int_of_digits ds))
  end.

Definition parse_format_spec (spec : string) : format_spec :=
  let '(w, r1) := span_digits spec in
  let '(p, r2) :=
    match r1 with
    | String "."%char r => let '(ds, r') := span_digits r in (digits_value ds, r')
    | _ => (None, r1)
    end in
  {| fs_width := digits_value w;
     fs_precision := p;
     fs_type := match r2 with String c _ => Some c | EmptyString => None end |}.

(** [format(x, spec)] for a float and presentation type [f]: six digits after
    the point unless a precision is given, right-aligned in the width. *)
Definition format_float (spec : string) (x : Q) : string :=
  let fs := parse_format_spec spec in
  pad_left " " (default 0%nat (fs_width fs))
    (fixed_point (default 6%nat (fs_precision fs)) x).

(** ** The data of a scan *)

(** A match [(score, pos, strand)]. *)
Definition Match : Type := Q * Z * Z.

(** A [Fasta] object through the members the source reads: [.ids], [.seqs],
    [fa[seq_id]] and [.median_length()]. *)
Record Fasta := {
  fa_ids : list string;
  fa_seqs : list string;
  fa_getitem : string -> result string;
  fa_median_length : Q
}.

(** What is handed to the engine or to [as_fasta] as sequences. *)
Inductive seqsrc :=
| SrcRegions (regions : list string)
| SrcFile (fname : string)
| SrcFasta (fa : Fasta).

(** The state of a random source, encoded as an integer. *)
Definition rng : Type := Z.

(** The calls on the scanning engine; [None] is an argument left out. *)
Inductive call :=
| Scanner_new (ncpus : option Z) (random_state : option rng)
    (progress : option bool)
| set_motifs (pfmfile : pyobj)
| set_genome (genome : option string)
| set_background (fname genome : option string) (size : Q) (gc : bool)
| set_threshold (fpr threshold : option Q)
| count (seqs : seqsrc) (nreport : option Z) (scan_rc : option bool)
| best_score (seqs : seqsrc) (scan_rc : option bool) (zscore gc : bool)
| best_match (seqs : seqsrc) (zscore gc : bool)
| scan (seqs : seqsrc) (nreport : Z) (scan_rc zscore gc : bool).

(** Where the output goes. *)
Inductive sink :=
| Stdout
| Stream (handle : nat)            (* an object with a [write] attribute *)
| OpenedFile (file_name : string). (* opened by [scan_to_file] itself *)

(** What a run does to the world, in order. *)
Inductive event :=
| EvMakedirs (dir : string)
| EvOpen (file_name : string)
| EvPrint (fo : sink) (line : string)
| EvClose (fo : sink)
| EvCall (c : call).

(** The rows an engine iterator yields, and the exception that ends it. *)
Definition stream (A : Type) : Type := list A * option exn.

(** ** Everything outside this file of the repository

    Imported constants, Python built-ins that are not modelled, the
    operating system, numpy, and the collaborators of the package.  The
    operations that act on the world answer from the events so far; those of
    the engine answer from the calls made on it so far, the current call
    last. *)
Record Externals := {
  version : string;                       (* [__version__] *)
  FPR : Q;                                (* [gimmemotifs.scanner.base.FPR] *)
  py_str_float : Q -> string;             (* [str(x)] of a float *)
  py_repr : pyobj -> string;              (* [str(x)] of another object *)
  np_float16 : Q -> Q;                    (* rounding to a 16-bit float *)
  MotifConfig_new : MotifConfig;          (* [MotifConfig()] *)
  os_path_exists : string -> bool;
  os_path_expanduser : string -> string;
  os_path_dirname : string -> string;
  os_makedirs : list event -> string -> option exn;
  io_open : list event -> string -> option exn;
  io_print : list event -> sink -> string -> option exn;
  io_close : list event -> sink -> option exn;
  np_permutation : rng -> nat -> list nat * rng;
  pd_read_feather : string -> result (list string);  (* first column *)
  pd_read_table : string -> result (list string);    (* the index *)
  as_fasta : seqsrc -> option string -> result Fasta;
  read_motifs : pyobj -> result (list Motif);
  eng_setup : list call -> option exn;
  eng_count : list call -> stream (list Z);
  eng_best_score : list call -> stream (list Q);
  eng_best_match : list call -> stream (list Match);
  eng_scan : list call -> stream (list (list Match));
  eng_motif_ids : list call -> list string
}.

(** ** Computations: the events so far in, a result and the new events out *)

Definition M (A : Type) : Type := list event -> result A * list event.

Definition ret {A} (a : A) : M A := fun _ => (Ok a, []).

Definition raise {A} (e : exn) : M A := fun _ => (Raise e, []).

Definition bind {A B} (m : M A) (f : A -> M B) : M B :=
  fun h =>
    match m h with
    | (Ok a, e1) =>
        match f a (h ++ e1)%list with
        | (r, e2) => (r, (e1 ++ e2)%list)
        end
    | (Raise e, e1) => (Raise e, e1)
    end.

Notation "'let*' x ':=' m 'in' k" := (bind m (fun x => k))
  (at level 10, x name, m at level 100, k at level 200, only parsing).
Notation "m '>>' k" := (bind m (fun _ => k))
  (at level 100, k at level 200, right associativity, only parsing).

(** A pure step that may raise. *)
Definition lift {A} (r : result A) : M A := fun _ => (r, []).

(** [try: m  except Exception: pass] *)
Definition try_pass (m : M unit) : M unit :=
  fun h => match m h with (_, e1) => (Ok tt, e1) end.

(** An action on the world: it happens, or it raises and leaves no event. *)
Definition act (outcome : list event -> option exn) (ev : event) : M unit :=
  fun h =>
    match outcome h with
    | Some e => (Raise e, [])
    | None => (Ok tt, [ev])
    end.

Definition calls_of (h : list event) : list call :=
  omap (fun ev => match ev with EvCall c => Some c | _ => None end) h.

(** A call on the engine is recorded, then it returns or raises. *)
Definition engine_call (ext : Externals) (c : call) : M unit :=
  fun h =>
    match eng_setup ext (calls_of h ++ [c])%list with
    | Some e => (Raise e, [EvCall c])
    | None => (Ok tt, [EvCall c])
    end.

(** A result-producing call: recorded, and its iterator handed back. *)
Definition engine_iter {A} (answer : list call -> stream A) (c : call)
    : M (stream A) :=
  fun h => (Ok (answer (calls_of h ++ [c])%list), [EvCall c]).

(** [for i, x in enumerate(it): body], then the exception that ends [it]. *)
Fixpoint for_rows {A} (body : nat -> A -> M unit) (i : nat) (rows : list A)
    : M unit :=
  match rows with
  | [] => ret tt
  | x :: rows' => body i x >> for_rows body (S i) rows'
  end.

Definition enumerate {A} (it : stream A) (body : nat -> A -> M unit) : M unit :=
  for_rows body 0 (fst it) >>
  match snd it with
  | Some e => raise e
  | None => ret tt
  end.

(** [print(line, file=fo)] *)
Definition print (ext : Externals) (line : string) (fo : sink) : M unit :=
  act (fun h => io_print ext h fo line) (EvPrint fo line).

(** [xs[i]] on a list. *)
Definition list_getitem {A} (xs : list A) (i : nat) : M A :=
  match xs !! i with
  | Some x => ret x
  | None => raise (IndexError "list index out of range")
  end.

(** ** Formatting one match (lines 369-405) *)

(** [strandmap[strand]] with [strandmap = {-1: "-", 1: "+"}]. *)
Definition strandmap (strand : Z) : result string :=
  if (strand =? -1)%Z then Ok "-"
  else if (strand =? 1)%Z then Ok "+"
  else Raise (KeyError strand).

(** [m.group(k)] for [k] from 1. *)
Definition group (m : list string) (k : nat) : string :=
  nth (k - 1) m EmptyString.

Definition _format_line (ext : Externals) (seq seq_id : string)
    (motif : Motif) (score : Q) (pos strand : Z) (bed : bool)
    : result string :=
  let len_motif := Z.of_nat (motif_len motif) in
  if bed then
    match re_search seq_p seq_id with
    | Some m =>
        let chrom := group m 1 in
        let start := int_of_digits (group m 2) in
        match strandmap strand with
        | Raise e => Raise e
        | Ok sym =>
            Ok (join tab
                  [chrom; str_int (start + pos);
                   str_int (start + pos + len_motif);
                   motif_id motif; py_str_float ext score; sym])
        end
    | None =>
        match strandmap strand with
        | Raise e => Raise e
        | Ok sym =>
            Ok (join tab
                  [seq_id; str_int pos; str_int (pos + len_motif);
                   motif_id motif; py_str_float ext score; sym])
        end
    end
  else
    match strandmap strand with
    | Raise e => Raise e
    | Ok sym =>
        Ok (join tab
              [seq_id; "pfmscan"; "misc_feature";
               str_int (pos + 1);  (* GFF is 1-based *)
               str_int (pos + len_motif);
               py_str_float ext score; sym; ".";
               "motif_name " +:+ dquote +:+ motif_id motif +:+ dquote +:+
               " ; motif_instance " +:+ dquote +:+
               py_slice seq pos (pos + len_motif) +:+ dquote])
    end.

(** ** The three generators (lines 324-366)

    A generator is modelled with the loop that consumes it: [yield_ line] is
    what the consumer does with each line, at the moment it is yielded. *)

Definition _scan_table (ext : Externals) (fa : Fasta) (motifs : list Motif)
    (nreport : Z) (scan_rc : bool) (yield_ : string -> M unit) : M unit :=
  (* header *)
  yield_ (tab +:+ join tab (map motif_id motifs)) >>
  (* get iterator *)
  let* result_it :=
    engine_iter (eng_count ext)
      (count (SrcFasta fa) (Some nreport) (Some scan_rc)) in
  (* counts table *)
  enumerate result_it (fun i counts =>
    let* id := list_getitem (fa_ids fa) i in
    yield_ (id +:+ tab +:+ join tab (map str_int counts))).

Definition _scan_score_table (ext : Externals) (fa : Fasta)
    (motifs : list Motif) (scan_rc zscore gcnorm : bool)
    (yield_ : string -> M unit) : M unit :=
  (* header *)
  yield_ (tab +:+ join tab (map motif_id motifs)) >>
  (* get iterator *)
  let* result_it :=
    engine_iter (eng_best_score ext)
      (best_score (SrcFasta fa) (Some scan_rc) zscore gcnorm) in
  (* score table *)
  enumerate result_it (fun i scores =>
    let* id := list_getitem (fa_ids fa) i in
    yield_ (id +:+ tab +:+ join tab (map (format_float "4f") scores))).

(** [for x in xs: body] *)
Definition for_each {A} (xs : list A) (body : A -> M unit) : M unit :=
  for_rows (fun _ => body) 0 xs.

Definition _scan_normal (ext : Externals) (fa : Fasta) (motifs : list Motif)
    (nreport : Z) (scan_rc bed zscore gcnorm : bool)
    (yield_ : string -> M unit) : M unit :=
  let* result_it :=
    engine_iter (eng_scan ext)
      (scan (SrcFasta fa) nreport scan_rc zscore gcnorm) in
  enumerate result_it (fun i result =>
    let* seq_id := list_getitem (fa_ids fa) i in
    let* seq := lift (fa_getitem fa seq_id) in
    for_each (zip motifs result) (fun mm =>
      for_each (snd mm) (fun hit =>
        let* line :=
          lift (_format_line ext seq seq_id (fst mm)
                  (fst (fst hit)) (snd (fst hit)) (snd hit) bed) in
        yield_ line))).

(** ** [scan_to_file] (lines 170-321) *)

(** The [filepath_or_buffer] argument: [None], an object with a [write]
    attribute, or anything else, which is taken as a path. *)
Inductive dest :=
| DestNone
| DestBuffer (handle : nat)
| DestPath (path : string).

(** Truth value of an optional float and of an optional string. *)
Definition truthy_float (x : option Q) : bool :=
  match x with
  | Some q => negb (Qeq_bool q 0)
  | None => false
  end.

Definition truthy_str (x : option string) : bool :=
  match x with
  | Some s => negb (String.eqb s EmptyString)
  | None => false
  end.

(** [str(x)] of an optional float, of an optional string, of a motif source. *)
Definition str_opt_float (ext : Externals) (x : option Q) : string :=
  match x with
  | Some q => py_str_float ext q
  | None => "None"
  end.

Definition str_opt (x : option string) : string :=
  match x with
  | Some s => s
  | None => "None"
  end.

Definition str_obj (ext : Externals) (o : pyobj) : string :=
  match o with
  | PyStr s => s
  | _ => py_repr ext o
  end.

(** Lines 248-260: the sink and whether this function opened it. *)
Definition scan_to_file_sink (ext : Externals) (filepath_or_buffer : dest)
    : M (sink * bool) :=
  match filepath_or_buffer with
  | DestNone => ret (Stdout, false)              (* write to stdout *)
  | DestBuffer handle => ret (Stream handle, false)  (* write to buffer *)
  | DestPath path =>                             (* write to file *)
      let file_name := os_path_expanduser ext path in
      let dir := os_path_dirname ext file_name in
      act (fun h => os_makedirs ext h dir) (EvMakedirs dir) >>
      act (fun h => io_open ext h file_name) (EvOpen file_name) >>
      ret (OpenedFile file_name, true)
  end.

(** Lines 262-263. *)
Definition default_fpr (ext : Externals) (fpr cutoff : option Q) : option Q :=
  match fpr, cutoff with
  | None, None => Some (FPR ext)
  | _, _ => fpr
  end.

(** Lines 265-281: the header comment block. *)
Definition scan_to_file_header (ext : Externals) (inputfile : string)
    (pfmfile : pyobj) (fpr cutoff : option Q) (score_table : bool)
    (bgfile genome : option string) (zscore gcnorm : bool) (fo : sink)
    : M unit :=
  print ext ("# GimmeMotifs version " +:+ version ext) fo >>
  print ext ("# Input: " +:+ inputfile) fo >>
  print ext ("# Motifs: " +:+ str_obj ext pfmfile) fo >>
  (if truthy_float fpr && negb score_table then
     match genome with
     | Some g =>
         print ext
           ("# FPR: " +:+ str_opt_float ext fpr +:+ " (" +:+ g +:+ ")") fo
     | None =>
         if truthy_str bgfile then
           print ext
             ("# FPR: " +:+ str_opt_float ext fpr +:+
              " (" +:+ str_opt bgfile +:+ ")") fo
         else ret tt
     end
   else ret tt) >>
  (match cutoff with
   | Some c => print ext ("# Threshold: " +:+ py_str_float ext c) fo
   | None => ret tt
   end) >>
  (if zscore then
     if gcnorm then print ext "# Scoring: GC frequency normalized z-score" fo
     else print ext "# Scoring: normalized z-score" fo
   else print ext "# Scoring: logodds score" fo).

(** Lines 283-296: the scanner, the background sequences, the threshold. *)
Definition scan_to_file_scanner (ext : Externals) (inputfile : string)
    (pfmfile : pyobj) (fpr cutoff : option Q) (score_table : bool)
    (bgfile genome : option string) (ncpus : option Z) (gcnorm : bool)
    (random_state : option rng) (progress : option bool) : M Fasta :=
  (* initialize scanner *)
  engine_call ext (Scanner_new ncpus random_state progress) >>
  engine_call ext (set_motifs pfmfile) >>
  engine_call ext (set_genome genome) >>
  (* background sequences *)
  let* fa := lift (as_fasta ext (SrcFile inputfile) genome) in
  (if truthy_str genome then
     engine_call ext (set_background None genome (fa_median_length fa) gcnorm)
   else if truthy_str bgfile then
     engine_call ext (set_background bgfile None (fa_median_length fa) false)
   else ret tt) >>
  (if negb score_table then
     (* score_table sets a threshold internally *)
     engine_call ext (set_threshold fpr cutoff)
   else ret tt) >>
  ret fa.

(** Lines 298-315: the generator by mode, each line printed as it comes. *)
Definition scan_to_file_lines (ext : Externals) (pfmfile : pyobj)
    (fa : Fasta) (nreport : Z) (bed scan_rc table score_table : bool)
    (zscore gcnorm : bool) (fo : sink) : M unit :=
  let* motifs := lift (read_motifs ext pfmfile) in
  let yield_ line := print ext line fo in
  if table then _scan_table ext fa motifs nreport scan_rc yield_
  else if score_table then
    _scan_score_table ext fa motifs scan_rc zscore gcnorm yield_
  else _scan_normal ext fa motifs nreport scan_rc bed zscore gcnorm yield_.

(** [fo.close()]: the call is recorded, then it returns or raises. *)
Definition close (ext : Externals) (fo : sink) : M unit :=
  fun h =>
    match io_close ext h fo with
    | Some e => (Raise e, [EvClose fo])
    | None => (Ok tt, [EvClose fo])
    end.

(** Lines 317-321. *)
Definition scan_to_file_close (ext : Externals) (fo : sink)
    (should_close : bool) : M unit :=
  if should_close then try_pass (close ext fo) else ret tt.

Definition scan_to_file (ext : Externals) (inputfile : string)
    (pfmfile : pyobj) (filepath_or_buffer : dest) (nreport : Z)
    (fpr cutoff : option Q) (bed scan_rc table score_table : bool)
    (bgfile genome : option string) (ncpus : option Z)
    (zscore gcnorm : bool) (random_state : option rng)
    (progress : option bool) : M unit :=
  let* pfmfile :=
    lift (check_motifs (MotifConfig_new ext) (os_path_exists ext) pfmfile) in
  let* opened := scan_to_file_sink ext filepath_or_buffer in
  let fo := fst opened in
  let should_close := snd opened in
  let fpr := default_fpr ext fpr cutoff in
  scan_to_file_header ext inputfile pfmfile fpr cutoff score_table
    bgfile genome zscore gcnorm fo >>
  let* fa :=
    scan_to_file_scanner ext inputfile pfmfile fpr cutoff score_table
      bgfile genome ncpus gcnorm random_state progress in
  scan_to_file_lines ext pfmfile fa nreport bed scan_rc table score_table
    zscore gcnorm fo >>
  scan_to_file_close ext fo should_close.

(** ** [scan_regionfile_to_table] (lines 28-133) *)

(** [random.choice(a, size=size, replace=False)] of numpy's [RandomState]:
    the first [size] entries of a permutation of the positions of [a]. *)
Definition random_choice {A} (ext : Externals) (st : rng) (a : list A)
    (size : nat) : result (list A) * rng :=
  if (length a <? size)%nat then
    (Raise (ValueError "Cannot take a larger sample than population"), st)
  else
    let '(perm, st') := np_permutation ext st (length a) in
    (Ok (omap (fun i => a !! i) (take size perm)), st').

(** Lines 91-95.  [np_random] is the state of the module-level generator;
    the result carries both states as the draw leaves them. *)
Definition check_regions (ext : Externals) (np_random : rng)
    (random_state : option rng) (regions : list string)
    : result (list string) * rng * option rng :=
  if (1000 <=? length regions)%nat then
    match random_state with
    | None =>
        let '(sample, st') := random_choice ext np_random regions 1000 in
        (sample, st', None)
    | Some st =>
        let '(sample, st') := random_choice ext st regions 1000 in
        (sample, np_random, Some st')
    end
  else (Ok regions, np_random, random_state).

(** [np.median(xs)]: the middle of the sorted values, the mean of the two
    middle ones for an even count, and no number (nan) for none. *)
Definition np_median (xs : list nat) : option Q :=
  let sorted := merge_sort le xs in
  let n := length xs in
  if (n =? 0)%nat then None
  else if Nat.odd n then
    (fun x => inject_Z (Z.of_nat x)) <$> sorted !! (n / 2)%nat
  else
    match sorted !! (n / 2 - 1)%nat, sorted !! (n / 2)%nat with
    | Some a, Some b => Some ((Z.of_nat a + Z.of_nat b) # 2)
    | _, _ => None
    end.

(** [int(x)] of a float: truncation towards zero. *)
Definition int_of_float (q : Q) : Z := Z.quot (Qnum q) (Zpos (Qden q)).

(** Lines 96-98. *)
Definition median_size (seqs : list string) : result Z :=
  match np_median (map String.length seqs) with
  | Some m => Ok (int_of_float m)
  | None => Raise (ValueError "cannot convert float NaN to integer")
  end.

Inductive dtype :=
| dtype_int
| dtype_float16.

Inductive cell :=
| CInt (z : Z)
| CFloat (q : Q).

Record DataFrame := {
  df_index : list string;
  df_columns : list string;
  df_dtype : dtype;
  df_values : list (list cell)
}.

(** Conversion of a cell to the frame's value type; counts are integers
    already. *)
Definition astype (ext : Externals) (dt : dtype) (c : cell) : cell :=
  match dt, c with
  | dtype_float16, CFloat q => CFloat (np_float16 ext q)
  | _, _ => c
  end.

(** [pd.DataFrame(data, index=index, columns=columns, dtype=dt)] for rows of
    data: the shape of the data has to be the one the labels imply. *)
Definition pd_DataFrame (ext : Externals) (data : list (list cell))
    (index columns : list string) (dt : dtype) : result DataFrame :=
  if (length data =? length index)%nat
     && forallb (fun row => (length row =? length columns)%nat) data
  then
    Ok {| df_index := index; df_columns := columns; df_dtype := dt;
          df_values := map (map (astype ext dt)) data |}
  else Raise (ValueError "Shape of passed values does not fit the indices").

(** [for row in it: scores.append(row)] *)
Definition collect {A B} (it : stream A) (f : A -> B) : M (list B) :=
  match snd it with
  | Some e => raise e
  | None => ret (map f (fst it))
  end.

(** [s.motif_ids] *)
Definition motif_ids (ext : Externals) : M (list string) :=
  fun h => (Ok (eng_motif_ids ext (calls_of h)), []).

Fixpoint ends_with (s suffix : string) : bool :=
  String.eqb s suffix ||
  match s with
  | EmptyString => false
  | String _ s' => ends_with s' suffix
  end.

(** Lines 83-90: the regions, in the order of the file. *)
Definition read_regions (ext : Externals) (input_table : string)
    : result (list string) :=
  if ends_with input_table "feather" then pd_read_feather ext input_table
  else pd_read_table ext input_table.

(** Lines 91-98: the size of the background sequences. *)
Definition background_size (ext : Externals) (np_random : rng)
    (random_state : option rng) (regions : list string)
    (genome : option string) : result Z :=
  match fst (fst (check_regions ext np_random random_state regions)) with
  | Raise e => Raise e
  | Ok sample =>
      match as_fasta ext (SrcRegions sample) genome with
      | Raise e => Raise e
      | Ok fa => median_size (fa_seqs fa)
      end
  end.

Definition scan_regionfile_to_table (ext : Externals) (np_random : rng)
    (input_table : string) (genome : option string) (scoring : string)
    (pfmfile : pyobj) (ncpus : option Z) (zscore gc : bool)
    (random_state : option rng) (progress : option bool) : M DataFrame :=
  let* pfmfile :=
    lift (check_motifs (MotifConfig_new ext) (os_path_exists ext) pfmfile) in
  let* idx := lift (read_regions ext input_table) in
  let regions := idx in
  let* size :=
    lift (background_size ext np_random random_state regions genome) in
  let random_state :=
    snd (check_regions ext np_random random_state regions) in
  engine_call ext (Scanner_new ncpus random_state progress) >>
  engine_call ext (set_motifs pfmfile) >>
  engine_call ext (set_genome genome) >>
  engine_call ext (set_background None None (inject_Z size) gc) >>
  let* scores :=
    if String.eqb scoring "count" then
      engine_call ext (set_threshold (Some (FPR ext)) None) >>
      let* it :=
        engine_iter (eng_count ext) (count (SrcRegions regions) None None) in
      collect it (map CInt)
    else
      let* it :=
        engine_iter (eng_best_score ext)
          (best_score (SrcRegions regions) None zscore gc) in
      collect it (map CFloat) in
  let* motif_names := motif_ids ext in
  let dt := if String.eqb scoring "count" then dtype_int else dtype_float16 in
  lift (pd_DataFrame ext scores idx motif_names dt).

(** ** [scan_to_best_match] (lines 408-476) *)

Inductive best :=
| BestScore (score : Q)
| BestMatch (m : Match).

(** [m.id] for each element of a list handed in as motifs. *)
Fixpoint motifs_of (items : list pyobj) : result (list Motif) :=
  match items with
  | [] => Ok []
  | PyMotif m :: items' =>
      match motifs_of items' with
      | Ok ms => Ok (m :: ms)
      | Raise e => Raise e
      end
  | _ :: _ => Raise (AttributeError "id")
  end.

(** [result[motif.id].append(score)] for the motifs and scores zipped. *)
Definition append_row (result : gmap string (list best))
    (motifs : list Motif) (scores : list best) : gmap string (list best) :=
  foldl (fun acc ms => alter (fun l => l ++ [snd ms])%list (motif_id (fst ms)) acc)
    result (zip motifs scores).

Definition scan_to_best_match (ext : Externals) (fname : seqsrc)
    (pfmfile : pyobj) (ncpus : option Z) (genome : option string)
    (score zscore gc : bool) (random_state : option rng)
    (progress : option bool) : M (gmap string (list best)) :=
  let* pfmfile :=
    lift (check_motifs (MotifConfig_new ext) (os_path_exists ext) pfmfile) in
  (* Initialize scanner *)
  engine_call ext (Scanner_new ncpus random_state progress) >>
  engine_call ext (set_genome genome) >>
  engine_call ext (set_motifs pfmfile) >>
  engine_call ext (set_threshold None (Some 0%Q)) >>
  let* motifs :=
    lift (match pfmfile with
          | PyStr _ => read_motifs ext pfmfile
          | PyList items => motifs_of items
          | _ => Raise (AttributeError "id")
          end) in
  let result : gmap string (list best) :=
    list_to_map (map (fun m => (motif_id m, [])) motifs) in
  let* it :=
    if score then
      let* it :=
        engine_iter (eng_best_score ext) (best_score fname None zscore gc) in
      ret (map (map BestScore) (fst it), snd it)
    else
      let* it :=
        engine_iter (eng_best_match ext) (best_match fname zscore gc) in
      ret (map (map BestMatch) (fst it), snd it) in
  let* rows := collect it id in
  ret (foldl (fun acc scores => append_row acc motifs scores) result rows).

(** ** What the specification says of a run, as predicates *)

(** The configuration phase a call belongs to: the constructor, the motifs,
    the genome and background, the threshold, and the calls that scan. *)
Definition phase (c : call) : nat :=
  match c with
  | Scanner_new _ _ _ => 0
  | set_motifs _ => 1
  | set_genome _ => 2
  | set_background _ _ _ _ => 2
  | set_threshold _ _ => 3
  | count _ _ _ => 4
  | best_score _ _ _ _ => 4
  | best_match _ _ _ => 4
  | scan _ _ _ _ _ => 4
  end.

Definition is_new (c : call) : bool :=
  match c with Scanner_new _ _ _ => true | _ => false end.

(** One engine, and the phases in the order motifs, genome and background,
    threshold, scanning. *)
Definition in_fixed_order (cs : list call) : Prop :=
  length (filter (fun c => is_new c = true) cs) = 1%nat /\
  Sorted le (map phase cs).

(** At most one engine so far, and the phases in order: what a run that is
    cut short by an exception still satisfies. *)
Definition in_fixed_order_so_far (cs : list call) : Prop :=
  (length (filter (fun c => is_new c = true) cs) <= 1)%nat /\
  Sorted le (map phase cs).

Definition is_close (ev : event) : Prop :=
  match ev with EvClose _ => True | _ => False end.

Definition is_call (ev : event) : Prop :=
  match ev with EvCall _ => True | _ => False end.

(** The calls [scan_to_file] makes to set the engine up, given the resolved
    motif source [pf] and the input sequences [fa]. *)
Definition scan_to_file_setup_calls (ext : Externals) (pf : pyobj)
    (fa : Fasta) (fpr cutoff : option Q) (score_table : bool)
    (bgfile genome : option string) (ncpus : option Z) (gcnorm : bool)
    (random_state : option rng) (progress : option bool) : list call :=
  [Scanner_new ncpus random_state progress; set_motifs pf; set_genome genome]
  ++ (if truthy_str genome then
        [set_background None genome (fa_median_length fa) gcnorm]
      else if truthy_str bgfile then
        [set_background bgfile None (fa_median_length fa) false]
      else [])
  ++ (if score_table then []
      else [set_threshold (default_fpr ext fpr cutoff) cutoff]).

(** The call that produces the results, by mode. *)
Definition scan_to_file_result_call (fa : Fasta) (nreport : Z)
    (scan_rc table score_table zscore gcnorm : bool) : call :=
  if table then count (SrcFasta fa) (Some nreport) (Some scan_rc)
  else if score_table then
    best_score (SrcFasta fa) (Some scan_rc) zscore gcnorm
  else scan (SrcFasta fa) nreport scan_rc zscore gcnorm.

(** All the calls [scan_to_file] makes on the engine in a run that
    completes. *)
Definition scan_to_file_calls (ext : Externals) (pf : pyobj) (fa : Fasta)
    (nreport : Z) (fpr cutoff : option Q) (scan_rc table score_table : bool)
    (bgfile genome : option string) (ncpus : option Z)
    (zscore gcnorm : bool) (random_state : option rng)
    (progress : option bool) : list call :=
  scan_to_file_setup_calls ext pf fa fpr cutoff score_table bgfile genome
    ncpus gcnorm random_state progress
  ++ [scan_to_file_result_call fa nreport scan_rc table score_table
        zscore gcnorm].

(** The same for [scan_regionfile_to_table], given the regions read, the
    state the random source is left in and the estimated size. *)
Definition scan_regionfile_to_table_calls (ext : Externals) (pf : pyobj)
    (regions : list string) (size : Z) (genome : option string)
    (scoring : string) (ncpus : option Z) (zscore gc : bool)
    (random_state : option rng) (progress : option bool) : list call :=
  [Scanner_new ncpus random_state progress; set_motifs pf; set_genome genome;
   set_background None None (inject_Z size) gc]
  ++ (if String.eqb scoring "count" then
        [set_threshold (Some (FPR ext)) None;
         count (SrcRegions regions) None None]
      else [best_score (SrcRegions regions) None zscore gc]).

(** The same for [scan_to_best_match]. *)
Definition scan_to_best_match_calls (pf : pyobj) (fname : seqsrc)
    (ncpus : option Z) (genome : option string) (score zscore gc : bool)
    (random_state : option rng) (progress : option bool) : list call :=
  [Scanner_new ncpus random_state progress; set_genome genome; set_motifs pf;
   set_threshold None (Some 0%Q);
   if score then best_score fname None zscore gc
   else best_match fname zscore gc].

(** The lines printed, in order. *)
Definition lines_of (h : list event) : list string :=
  omap (fun ev => match ev with EvPrint _ line => Some line | _ => None end) h.

(** ** A small world to run the functions in *)

(** A stand-in for [str] of a float: six digits after the point, the zeros
    at the end dropped but for the first. *)
Fixpoint drop_zeros (rev_digits : list ascii) : list ascii :=
  match rev_digits with
  | "0"%char :: ("."%char :: _) as rest => "0"%char :: rest
  | "0"%char :: rest => drop_zeros rest
  | _ => rev_digits
  end.

Definition demo_str_float (q : Q) : string :=
  string_of_list_ascii
    (rev (drop_zeros (rev (list_ascii_of_string (fixed_point 6 q))))).

Definition motif_a : Motif := {| motif_id := "MA0001"; motif_len := 8 |}.
Definition motif_b : Motif := {| motif_id := "MA0002"; motif_len := 4 |}.

Definition demo_fasta : Fasta :=
  {| fa_ids := ["chr1:1000-2000"; "seq42"];
     fa_seqs := ["ACGTACGTACGTACGTACGT"; "TTTTGGGGCCCCAAAA"];
     fa_getitem := fun id =>
       if String.eqb id "chr1:1000-2000" then Ok "ACGTACGTACGTACGTACGT"
       else if String.eqb id "seq42" then Ok "TTTTGGGGCCCCAAAA"
       else Raise (KeyError 0);
     fa_median_length := 18 |}.

Definition demo_config : MotifConfig :=
  {| get_default_params := {[ "motif_db" := "default.pfm" ]};
     get_motif_dir := "/motifs" |}.

(** Sequences of eight bases for every region handed to [as_fasta]. *)
Definition demo_as_fasta (src : seqsrc) (genome : option string)
    : result Fasta :=
  match src with
  | SrcRegions regions =>
      Ok {| fa_ids := regions;
            fa_seqs := map (fun _ => "ACGTACGT") regions;
            fa_getitem := fun _ => Ok "ACGTACGT";
            fa_median_length := 8 |}
  | SrcFile _ => Ok demo_fasta
  | SrcFasta fa => Ok fa
  end.

(** The demo world: every action succeeds except those [setup] and [closing]
    make fail. *)
Definition demo_world (setup : list call -> option exn)
    (closing : option exn) : Externals :=
  {| version := "0.18.0";
     FPR := 1 # 100;
     py_str_float := demo_str_float;
     py_repr := fun _ => "[motifs]";
     np_float16 := fun q => q;
     MotifConfig_new := demo_config;
     os_path_exists := fun p => String.eqb p "/motifs/default.pfm";
     os_path_expanduser := fun p => p;
     os_path_dirname := fun _ => "out";
     os_makedirs := fun _ _ => None;
     io_open := fun _ _ => None;
     io_print := fun _ _ _ => None;
     io_close := fun _ _ => closing;
     np_permutation := fun st n => (rev (seq 0 n), (st + 1)%Z);
     pd_read_feather := fun _ => Ok ["chr1:0-8"; "chr1:20-28"];
     pd_read_table := fun _ => Ok ["chr1:0-8"; "chr1:20-28"];
     as_fasta := demo_as_fasta;
     read_motifs := fun _ => Ok [motif_a; motif_b];
     eng_setup := setup;
     eng_count := fun _ => ([[1; 0]; [0; 2]]%Z, None);
     eng_best_score := fun _ => ([[3 # 2; 1 # 4]; [2 # 1; (-1) # 8]], None);
     eng_best_match := fun _ => ([[(3 # 2, 5, 1)%Z; (1 # 4, 0, -1)%Z]], None);
     eng_scan := fun _ =>
       ([[[(3 # 2, 5, 1)%Z]; []]; [[]; [(1 # 4, 2, -1)%Z]]], None);
     eng_motif_ids := fun _ => ["MA0001"; "MA0002"] |}.

Definition demo_ext : Externals := demo_world (fun _ => None) None.

(** The engine refuses a threshold. *)
Definition refuse_threshold (cs : list call) : option exn :=
  match last cs with
  | Some (set_threshold _ _) => Some (ValueError "Need either fpr or threshold.")
  | _ => None
  end.

(** ** Predicates and helpers the properties are stated with *)

Fixpoint all_chars (cls : ascii -> bool) (s : string) : bool :=
  match s with
  | EmptyString => true
  | String c s' => cls c && all_chars cls s'
  end.

Definition starts_in (cls : ascii -> bool) (s : string) : bool :=
  match s with
  | EmptyString => false
  | String c _ => cls c
  end.

(** An identifier [contig:start-end]: a contig without blank or colon and
    two runs of digits, none of them empty. *)
Definition locus_shaped (contig start end_ : string) : Prop :=
  contig <> EmptyString /\ all_chars not_space_colon contig = true /\
  start <> EmptyString /\ all_chars is_digit start = true /\
  end_ <> EmptyString /\ all_chars is_digit end_ = true.

(** The strand symbol of a valid strand. *)
Definition strand_symbol (strand : Z) : string :=
  if (strand =? 1)%Z then "+" else "-".

(** Every event a computation emits satisfies [P], however it ends. *)
Definition emits {A} (P : event -> Prop) (m : M A) : Prop :=
  forall h, Forall P (snd (m h)).

(** The calls a computation makes on the engine are the first ones of [E],
    and all of [E] when it returns. *)
Definition calls_in {A} (m : M A) (E : list call) : Prop :=
  forall h,
    calls_of (snd (m h)) `prefix_of` E /\
    (is_Ok (fst (m h)) = true -> calls_of (snd (m h)) = E).

(** A computation that returns has called [fo.close()] last and only then;
    one that raises has not called it. *)
Definition closes_last {A} (fo : sink) (m : M A) : Prop :=
  forall h,
    match fst (m h) with
    | Ok _ =>
        exists evs, snd (m h) = (evs ++ [EvClose fo])%list
                    /\ Forall (fun ev => ~ is_close ev) evs
    | Raise _ => Forall (fun ev => ~ is_close ev) (snd (m h))
    end.

(** The sequences [as_fasta] gave, or [fa0] when it raised. *)
Definition fasta_or (fa0 : Fasta) (r : result Fasta) : Fasta :=
  match r with
  | Ok fa => fa
  | Raise _ => fa0
  end.

(** What a computation returns, when it returns, satisfies [Q]. *)
Definition returns_only {A} (m : M A) (Q : A -> Prop) : Prop :=
  forall h a, fst (m h) = Ok a -> Q a.

Definition no_fasta : Fasta :=
  {| fa_ids := []; fa_seqs := [];
     fa_getitem := fun _ => Raise (KeyError 0);
     fa_median_length := 0 |}.

(** The claim C7 makes of a run: a file the run opened is closed by it. *)
Definition closes_what_it_opened (evs : list event) : Prop :=
  forall file_name,
    EvOpen file_name ∈ evs -> EvClose (OpenedFile file_name) ∈ evs.

(** The claim C5 makes of the calls of a run of [scan_to_file] in table
    mode: a threshold is set from a false-positive rate, never from a
    cutoff. *)
Definition threshold_from_fpr_only (cs : list call) : Prop :=
  forall fpr threshold,
    set_threshold fpr threshold ∈ cs -> threshold = None.

(** A line that reports a false-positive rate or an explicit threshold. *)
Definition is_fpr_line (line : string) : bool := String.prefix "# FPR:" line.

Definition is_threshold_line (line : string) : bool :=
  String.prefix "# Threshold:" line.

Definition no_fpr_line (ev : event) : Prop :=
  match ev with
  | EvPrint _ line => is_fpr_line line = false
  | _ => True
  end.

(** numpy's contract for [permutation(n)]: the positions 0 to [n - 1], each
    once. *)
Definition permutes (ext : Externals) : Prop :=
  forall st n, fst (np_permutation ext st n) ≡ₚ seq 0 n.

(** The generator a draw is taken from. *)
Definition drawn_from (np_random : rng) (random_state : option rng) : rng :=
  default np_random random_state.

(** 1200 regions to draw from. *)
Definition many_regions : list string := replicate 1200 "chr1:0-8".

(** What a computation returns from the events [h], when it returns,
    satisfies [Q] together with the events up to then. *)
Definition returns_at {A} (m : M A) (h : list event)
    (Q : list event -> A -> Prop) : Prop :=
  forall a, fst (m h) = Ok a -> Q (h ++ snd (m h))%list a.

(** The engine's side of the contract for a table over the regions [idx]:
    its iterator ends without an exception after one row per region, each
    with one value per motif the engine has resolved. *)
Definition answers_shaped {A} (ext : Externals) (idx : list string)
    (answer : list call -> stream (list A)) : Prop :=
  forall cs,
    snd (answer cs) = None
    /\ length (fst (answer cs)) = length idx
    /\ Forall (fun row => length row = length (eng_motif_ids ext cs))
         (fst (answer cs)).

(** The value type by scoring mode. *)
Definition table_dtype (scoring : string) : dtype :=
  if String.eqb scoring "count" then dtype_int else dtype_float16.

(** ** Predicates and fixtures for the further properties *)

(** A sink that takes every line. *)
Definition prints_always (ext : Externals) : Prop :=
  forall h fo line, io_print ext h fo line = None.

(** A row of a table: the identifier and the cells, tab-separated. *)
Definition table_line (id : string) (cells : list string) : string :=
  id +:+ tab +:+ join tab cells.

(** The first row of a table. *)
Definition table_header (motifs : list Motif) : string :=
  tab +:+ join tab (map motif_id motifs).

(** How a loop over the rows of an engine iterator ends when every line
    can be printed: with an index error when there are more rows than
    identifiers, else as the iterator ends. *)
Definition rows_outcome {A} (ids : list string) (it : stream A) : result unit :=
  if (length ids <? length (fst it))%nat
  then Raise (IndexError "list index out of range")
  else match snd it with
       | Some e => Raise e
       | None => Ok tt
       end.

(** One sequence only. *)
Definition one_seq_fasta : Fasta :=
  {| fa_ids := ["seq42"];
     fa_seqs := ["TTTTGGGGCCCCAAAA"];
     fa_getitem := fun _ => Ok "TTTTGGGGCCCCAAAA";
     fa_median_length := 16 |}.

(** The sink [scan_to_file] writes to, by destination. *)
Definition sink_of (ext : Externals) (filepath_or_buffer : dest) : sink :=
  match filepath_or_buffer with
  | DestNone => Stdout
  | DestBuffer handle => Stream handle
  | DestPath path => OpenedFile (os_path_expanduser ext path)
  end.

(** What [scan_to_file] may do to the world for a destination: print to
    the sink of the destination, call the engine and, for a path only, make
    the directory of the file, open the file and close it. *)
Definition within_destination (ext : Externals) (filepath_or_buffer : dest)
    (ev : event) : Prop :=
  match ev with
  | EvPrint fo _ => fo = sink_of ext filepath_or_buffer
  | EvCall _ => True
  | EvMakedirs dir =>
      exists path,
        filepath_or_buffer = DestPath path
        /\ dir = os_path_dirname ext (os_path_expanduser ext path)
  | EvOpen file_name =>
      exists path,
        filepath_or_buffer = DestPath path
        /\ file_name = os_path_expanduser ext path
  | EvClose fo =>
      exists path,
        filepath_or_buffer = DestPath path
        /\ fo = OpenedFile (os_path_expanduser ext path)
  end.

(** The world [ext] with a region file that lists [regions]. *)
Definition with_regions (ext : Externals) (regions : list string)
    : Externals :=
  {| version := version ext;
     FPR := FPR ext;
     py_str_float := py_str_float ext;
     py_repr := py_repr ext;
     np_float16 := np_float16 ext;
     MotifConfig_new := MotifConfig_new ext;
     os_path_exists := os_path_exists ext;
     os_path_expanduser := os_path_expanduser ext;
     os_path_dirname := os_path_dirname ext;
     os_makedirs := os_makedirs ext;
     io_open := io_open ext;
     io_print := io_print ext;
     io_close := io_close ext;
     np_permutation := np_permutation ext;
     pd_read_feather := fun _ => Ok regions;
     pd_read_table := fun _ => Ok regions;
     as_fasta := as_fasta ext;
     read_motifs := read_motifs ext;
     eng_setup := eng_setup ext;
     eng_count := eng_count ext;
     eng_best_score := eng_best_score ext;
     eng_best_match := eng_best_match ext;
     eng_scan := eng_scan ext;
     eng_motif_ids := eng_motif_ids ext |}.

(** The motifs [scan_to_best_match] pairs the scores with (line 466). *)
Definition loaded_motifs (ext : Externals) (pf : pyobj) : result (list Motif) :=
  match pf with
  | PyStr _ => read_motifs ext pf
  | PyList items => motifs_of items
  | _ => Raise (AttributeError "id")
  end.

(** The rows the engine answers with after the calls [cs]. *)
Definition best_rows (ext : Externals) (cs : list call) (score : bool)
    : list (list best) :=
  if score then map (map BestScore) (fst (eng_best_score ext cs))
  else map (map BestMatch) (fst (eng_best_match ext cs)).

(** Column [j] of rows of any width: the rows too short for it are left
    out, as [zip] leaves them out. *)
Definition column {A} (j : nat) (rows : list (list A)) : list A :=
  omap (fun row => row !! j) rows.

(** The lines [_scan_normal] has for row [i] of the engine, each as
    [_format_line] gives it; a row without an identifier or a sequence is the
    exception of looking it up. *)
Definition normal_lines (ext : Externals) (fa : Fasta) (motifs : list Motif)
    (bed : bool) (i : nat) (row : list (list Match))
    : list (result string) :=
  match fa_ids fa !! i with
  | None => [Raise (IndexError "list index out of range")]
  | Some seq_id =>
      match fa_getitem fa seq_id with
      | Raise e => [Raise e]
      | Ok seq =>
          flat_map (fun mm : Motif * list Match =>
                      map (fun hit : Match =>
                             _format_line ext seq seq_id (fst mm)
                               (fst (fst hit)) (snd (fst hit)) (snd hit) bed)
                        (snd mm))
            (zip motifs row)
      end
  end.

(** * Properties *)

(** ** Motif-source resolution *)

Lemma msg_no_default_not_validation : ~ input_validation_error (ValueError msg_no_default).
Proof. intros [H | H]; vm_compute in H; discriminate H. Qed.

Lemma check_motifs_list_ok config path_exists m0 rest :
  hasattr m0 "to_ppm" = true ->
  check_motifs config path_exists (PyList (m0 :: rest)) = Ok (PyList (m0 :: rest)).
Proof. intros H. simpl. rewrite H. reflexivity. Qed.

Lemma check_motifs_list_bad config path_exists m0 rest :
  hasattr m0 "to_ppm" = false ->
  check_motifs config path_exists (PyList (m0 :: rest))
  = Raise (ValueError msg_not_motifs).
Proof. intros H. simpl. rewrite H. reflexivity. Qed.

Lemma check_motifs_validation_iff config path_exists x :
  (exists e, check_motifs config path_exists x = Raise e /\ input_validation_error e)
  <-> ((exists m0 rest, x = PyList (m0 :: rest) /\ hasattr m0 "to_ppm" = false)
       \/ other_type x).
Proof.
  split.
  - intros (e & Hrun & Hval). destruct x as [ | s | items | m | attrs]; simpl in *.
    + destruct (get_default_params config !! "motif_db") as [db | ].
      * destruct (path_exists _); simpl in Hrun; simplify_eq.
        destruct Hval as [H | H]; discriminate H.
      * simplify_eq. destruct (msg_no_default_not_validation Hval).
    + destruct (path_exists s); simpl in Hrun; simplify_eq.
      destruct Hval as [H | H]; discriminate H.
    + destruct items as [ | m0 rest].
      * simplify_eq. destruct Hval as [H | H]; discriminate H.
      * left. exists m0, rest. split; [reflexivity | ].
        destruct (hasattr m0 "to_ppm"); [ | reflexivity]. simpl in Hrun. discriminate Hrun.
    + right. exact I.
    + right. exact I.
  - intros [(m0 & rest & -> & Hno) | Hother].
    + exists (ValueError msg_not_motifs). split.
      * apply check_motifs_list_bad, Hno.
      * left. reflexivity.
    + exists (ValueError msg_bad_type).
      destruct x; simpl in Hother; try contradiction; (split; [reflexivity | right; reflexivity]).
Qed.

(** C2.  [check_motifs] fails with an input-validation error exactly for a
    non-empty list whose first element has no [to_ppm] attribute and for an
    input that is no list, string or [None]; it returns a list whose first
    element has the attribute as it is; for [None] it fails with a
    configuration error when no default database is registered, and with a
    not-found error carrying the joined path when that file is absent; a
    string naming an absent file fails with a not-found error carrying it. *)
Theorem check_motifs_resolution (config : MotifConfig) (path_exists : string -> bool) :
  (forall x,
      (exists e, check_motifs config path_exists x = Raise e
                 /\ input_validation_error e)
      <-> ((exists m0 rest, x = PyList (m0 :: rest)
                            /\ hasattr m0 "to_ppm" = false)
           \/ other_type x))
  /\ (forall m0 rest,
         hasattr m0 "to_ppm" = true ->
         check_motifs config path_exists (PyList (m0 :: rest))
         = Ok (PyList (m0 :: rest)))
  /\ (get_default_params config !! "motif_db" = None ->
      exists e, check_motifs config path_exists PyNone = Raise e
                /\ configuration_error e)
  /\ (forall db,
         get_default_params config !! "motif_db" = Some db ->
         path_exists (path_join (get_motif_dir config) db) = false ->
         exists e, check_motifs config path_exists PyNone = Raise e
                   /\ not_found_error (path_join (get_motif_dir config) db) e)
  /\ (forall s,
         path_exists s = false ->
         exists e, check_motifs config path_exists (PyStr s) = Raise e
                   /\ not_found_error s e).
Proof.
  split; [ | split; [ | split; [ | split]]].
  - apply check_motifs_validation_iff.
  - apply check_motifs_list_ok.
  - intros Hnone. exists (ValueError msg_no_default). simpl. rewrite Hnone.
    split; reflexivity.
  - intros db Hdb Habsent. eexists. simpl. rewrite Hdb, Habsent.
    split; reflexivity.
  - intros s Habsent. eexists. simpl. rewrite Habsent. split; reflexivity.
Qed.

(** A run of C2 in the demo world: the default database is found, an absent
    file and a list of strings are refused, an empty list has no first
    element. *)
Example check_motifs_examples :
  check_motifs demo_config (fun p => String.eqb p "/motifs/default.pfm") PyNone
  = Ok (PyStr "/motifs/default.pfm")
  /\ check_motifs demo_config (fun _ => false) PyNone
     = Raise (FileNotFoundError "/motifs/default.pfm")
  /\ check_motifs demo_config (fun _ => true) (PyList [PyStr "a"])
     = Raise (ValueError msg_not_motifs)
  /\ check_motifs demo_config (fun _ => true) (PyList [PyMotif motif_a; PyStr "a"])
     = Ok (PyList [PyMotif motif_a; PyStr "a"])
  /\ check_motifs demo_config (fun _ => true) (PyList [])
     = Raise (IndexError "list index out of range").
Proof. repeat split; vm_compute; reflexivity. Qed.

(** ** Strings, slices and the locus pattern *)

Lemma substring_beyond s : forall a m,
  (String.length s <= a)%nat -> substring a m s = EmptyString.
Proof.
  induction s as [ | c s IH]; intros a m Hle.
  - destruct a, m; reflexivity.
  - destruct a as [ | a]; simpl in Hle; [lia | ]. simpl. apply IH. lia.
Qed.

Lemma substring_clip s : forall a m,
  substring a m s = substring a (Nat.min m (String.length s - a)) s.
Proof.
  induction s as [ | c s IH]; intros a m.
  - destruct a, m; reflexivity.
  - destruct a as [ | a].
    + destruct m as [ | m]; [reflexivity | ]. simpl. f_equal.
      rewrite (IH 0%nat m). rewrite Nat.sub_0_r. reflexivity.
    + simpl. apply IH.
Qed.

(** A slice from a position that is not negative is the text of the
    sequence from there, at most [len] characters of it. *)
Lemma py_slice_from_pos (s : string) (pos : Z) (len : nat) :
  (0 <= pos)%Z ->
  py_slice s pos (pos + Z.of_nat len) = substring (Z.to_nat pos) len s.
Proof.
  intros Hpos. unfold py_slice, slice_index.
  destruct (Z.ltb_spec pos 0) as [ | _]; [lia | ].
  destruct (Z.ltb_spec (pos + Z.of_nat len) 0) as [ | _]; [lia | ].
  destruct (Z.le_gt_cases pos (Z.of_nat (String.length s))) as [Hin | Hout].
  - rewrite (Z.min_l pos) by lia.
    rewrite (substring_clip s (Z.to_nat pos) len). f_equal. lia.
  - rewrite (Z.min_r pos) by lia. rewrite Z.min_r by lia.
    rewrite Z.sub_diag. rewrite !substring_beyond by lia. reflexivity.
Qed.

Lemma string_app_cons (c : ascii) (a b : string) :
  String c a +:+ b = String c (a +:+ b).
Proof. reflexivity. Qed.

Lemma string_app_nil (b : string) : EmptyString +:+ b = b.
Proof. reflexivity. Qed.

Lemma length_app_string (a b : string) :
  String.length (a +:+ b) = (String.length a + String.length b)%nat.
Proof. induction a as [ | c a IH]; simpl; [reflexivity | rewrite IH; reflexivity]. Qed.

Lemma substring_prefix (a b : string) :
  substring 0 (String.length a) (a +:+ b) = a.
Proof.
  induction a as [ | c a IH]; simpl.
  - destruct b; reflexivity.
  - rewrite IH. reflexivity.
Qed.

Lemma consumed_app (run rest : string) : consumed (run +:+ rest) rest = run.
Proof.
  unfold consumed. rewrite length_app_string.
  replace (String.length run + String.length rest - String.length rest)%nat
    with (String.length run) by lia.
  apply substring_prefix.
Qed.

(** The greedy run stops where the class stops, when what follows matches. *)
Lemma star_cls_run {R} (cls : ascii -> bool) (run rest : string)
    (k : string -> option R) (r : R) :
  all_chars cls run = true -> starts_in cls rest = false ->
  k rest = Some r -> star_cls cls (run +:+ rest) k = Some r.
Proof.
  intros Hrun Hrest Hk. induction run as [ | c run IH]; simpl in *.
  - destruct rest as [ | c rest]; simpl in *; [exact Hk | ].
    rewrite Hrest. exact Hk.
  - apply andb_prop in Hrun as [Hc Hrun]. rewrite Hc, (IH Hrun). reflexivity.
Qed.

Lemma rmatch_group_plus {R} (cls : ascii -> bool) (run rest : string)
    (caps : list string) (k : string -> list string -> option R) (r : R) :
  run <> EmptyString -> all_chars cls run = true ->
  starts_in cls rest = false ->
  k rest (caps ++ [run])%list = Some r ->
  rmatch (RGroup (RPlus cls)) (run +:+ rest) caps k = Some r.
Proof.
  intros Hne Hrun Hrest Hk. destruct run as [ | c run]; [congruence | ].
  simpl in Hrun. apply andb_prop in Hrun as [Hc Hrun].
  rewrite string_app_cons. cbn [rmatch]. rewrite Hc.
  apply star_cls_run; [exact Hrun | exact Hrest | ].
  rewrite <- string_app_cons, consumed_app. exact Hk.
Qed.

Lemma string_app_nil_r (a : string) : a +:+ EmptyString = a.
Proof. induction a as [ | c a IH]; [reflexivity | ]. rewrite string_app_cons, IH. reflexivity. Qed.

Lemma rmatch_seq {R} r1 r2 s caps (k : string -> list string -> option R) :
  rmatch (RSeq r1 r2) s caps k
  = rmatch r1 s caps (fun rest caps' => rmatch r2 rest caps' k).
Proof. reflexivity. Qed.

Lemma rmatch_char_hit {R} c s caps (k : string -> list string -> option R) :
  rmatch (RChar c) (String c s) caps k = k s caps.
Proof. simpl. rewrite Ascii.eqb_refl. reflexivity. Qed.

Lemma rmatch_group_plus_end {R} (cls : ascii -> bool) (run : string)
    (caps : list string) (k : string -> list string -> option R) (r : R) :
  run <> EmptyString -> all_chars cls run = true ->
  k EmptyString (caps ++ [run])%list = Some r ->
  rmatch (RGroup (RPlus cls)) run caps k = Some r.
Proof.
  intros Hne Hrun Hk. rewrite <- (string_app_nil_r run) at 1.
  apply rmatch_group_plus; [exact Hne | exact Hrun | reflexivity | exact Hk].
Qed.

Lemma rmatch_seq_p_locus (contig start end_ : string) :
  locus_shaped contig start end_ ->
  rmatch seq_p (contig +:+ ":" +:+ start +:+ "-" +:+ end_) []
    (fun _ caps => Some caps)
  = Some [contig; start; end_].
Proof.
  intros (Hc & Hcs & Hs & Hss & He & Hes).
  unfold seq_p. rewrite rmatch_seq.
  apply rmatch_group_plus; [exact Hc | exact Hcs | reflexivity | ].
  rewrite string_app_cons, string_app_nil, rmatch_seq, rmatch_char_hit.
  rewrite rmatch_seq.
  apply rmatch_group_plus; [exact Hs | exact Hss | reflexivity | ].
  rewrite string_app_cons, string_app_nil, rmatch_seq, rmatch_char_hit.
  apply rmatch_group_plus_end; [exact He | exact Hes | reflexivity].
Qed.

(** The pattern finds the three parts of an identifier [contig:start-end]. *)
Lemma seq_p_search_locus (contig start end_ : string) :
  locus_shaped contig start end_ ->
  re_search seq_p (contig +:+ ":" +:+ start +:+ "-" +:+ end_)
  = Some [contig; start; end_].
Proof.
  intros Hshape. pose proof (rmatch_seq_p_locus _ _ _ Hshape) as Hm.
  destruct (contig +:+ ":" +:+ start +:+ "-" +:+ end_);
    cbn [re_search]; rewrite Hm; reflexivity.
Qed.

Lemma strandmap_valid (strand : Z) :
  strand = 1%Z \/ strand = (-1)%Z ->
  strandmap strand = Ok (if (strand =? 1)%Z then "+" else "-").
Proof. intros [-> | ->]; reflexivity. Qed.

(** C4.  For a match with strand +1 or -1: in BED mode, an identifier in
    which the locus pattern is found gives the contig, [start + pos],
    [start + pos + len(motif)], the motif id, the score and the strand
    symbol, and an identifier [contig:start-end] is such an identifier, with
    these parts; an identifier without the pattern gives the identifier,
    [pos] and [pos + len(motif)]; otherwise the nine fields of the annotation
    format, with [pos + 1], [pos + len(motif)] and the instance
    [seq[pos : pos + len(motif)]], which for a position that is not negative
    is the text of the sequence from [pos], [len(motif)] long; and the
    worked examples of the specification. *)
Theorem format_line_fields (ext : Externals) (seq seq_id : string)
    (motif : Motif) (score : Q) (pos strand : Z) :
  strand = 1%Z \/ strand = (-1)%Z ->
  let len := Z.of_nat (motif_len motif) in
  (forall m,
      re_search seq_p seq_id = Some m ->
      _format_line ext seq seq_id motif score pos strand true
      = Ok (join tab
              [group m 1;
               str_int (int_of_digits (group m 2) + pos);
               str_int (int_of_digits (group m 2) + pos + len);
               motif_id motif; py_str_float ext score; strand_symbol strand]))
  /\ (forall contig start end_,
         locus_shaped contig start end_ ->
         _format_line ext seq (contig +:+ ":" +:+ start +:+ "-" +:+ end_)
           motif score pos strand true
         = Ok (join tab
                 [contig;
                  str_int (int_of_digits start + pos);
                  str_int (int_of_digits start + pos + len);
                  motif_id motif; py_str_float ext score;
                  strand_symbol strand]))
  /\ (re_search seq_p seq_id = None ->
      _format_line ext seq seq_id motif score pos strand true
      = Ok (join tab
              [seq_id; str_int pos; str_int (pos + len);
               motif_id motif; py_str_float ext score; strand_symbol strand]))
  /\ _format_line ext seq seq_id motif score pos strand false
     = Ok (join tab
             [seq_id; "pfmscan"; "misc_feature";
              str_int (pos + 1); str_int (pos + len);
              py_str_float ext score; strand_symbol strand; ".";
              "motif_name " +:+ dquote +:+ motif_id motif +:+ dquote +:+
              " ; motif_instance " +:+ dquote +:+
              py_slice seq pos (pos + len) +:+ dquote])
  /\ ((0 <= pos)%Z ->
      py_slice seq pos (pos + len)
      = substring (Z.to_nat pos) (motif_len motif) seq)
  /\ (forall id,
         _format_line ext seq "chr1:1000-2000"
           {| motif_id := id; motif_len := 8 |} score 5 1 true
         = Ok (join tab
                 ["chr1"; "1005"; "1013"; id; py_str_float ext score; "+"])
         /\ _format_line ext seq "seq42"
              {| motif_id := id; motif_len := 8 |} score 5 1 true
            = Ok (join tab
                    ["seq42"; "5"; "13"; id; py_str_float ext score; "+"])
         /\ exists instance,
              _format_line ext seq "seq42"
                {| motif_id := id; motif_len := 8 |} score 5 1 false
              = Ok (join tab
                      ["seq42"; "pfmscan"; "misc_feature"; "6"; "13";
                       py_str_float ext score; "+"; "."; instance])).
Proof.
  intros Hstrand len.
  pose proof (strandmap_valid strand Hstrand) as Hsym.
  fold (strand_symbol strand) in Hsym.
  split; [ | split; [ | split; [ | split; [ | split]]]].
  - intros m Hm. unfold _format_line. rewrite Hm, Hsym. reflexivity.
  - intros contig start end_ Hshape. unfold _format_line.
    rewrite (seq_p_search_locus _ _ _ Hshape), Hsym. reflexivity.
  - intros Hm. unfold _format_line. rewrite Hm, Hsym. reflexivity.
  - unfold _format_line. rewrite Hsym. reflexivity.
  - apply py_slice_from_pos.
  - intros id. split; [reflexivity | split; [reflexivity | ]].
    eexists. reflexivity.
Qed.

(** C4 on a match on the forward strand in the demo world. *)
Lemma format_line_fields_witness :
  _format_line demo_ext "ACGTACGTACGTACGTACGT" "chr1:1000-2000" motif_a
    (3 # 2) 5 1 false
  = Ok (join tab
          ["chr1:1000-2000"; "pfmscan"; "misc_feature"; "6"; "13"; "1.5";
           "+"; ".";
           "motif_name " +:+ dquote +:+ "MA0001" +:+ dquote +:+
           " ; motif_instance " +:+ dquote +:+ "CGTACGTA" +:+ dquote])
  /\ py_slice "ACGTACGTACGTACGTACGT" 5 13 = "CGTACGTA".
Proof.
  destruct (format_line_fields demo_ext "ACGTACGTACGTACGTACGT"
              "chr1:1000-2000" motif_a (3 # 2) 5 1 (or_introl eq_refl))
    as (_ & _ & _ & Hgff & Hslice & _).
  split.
  - rewrite Hgff. vm_compute. reflexivity.
  - change (py_slice "ACGTACGTACGTACGTACGT" 5
              (5 + Z.of_nat (motif_len motif_a)) = "CGTACGTA").
    rewrite Hslice by lia. reflexivity.
Defined.

(** ** The score table of the streaming scan *)

(** The specification [4f] is a width of four and no precision, so a score
    is written with the six digits of the default precision. *)
Lemma format_4f_precision (x : Q) :
  parse_format_spec "4f"
  = {| fs_width := Some 4%nat; fs_precision := None; fs_type := Some "f"%char |}
  /\ format_float "4f" x = pad_left " " 4 (fixed_point 6 x).
Proof. split; reflexivity. Qed.

(** C8.  The rows [_scan_score_table] yields for the two sequences of the
    demo world, with best scores 1.5, 0.25, 2 and -0.125: the identifier and
    one score per motif in motif order, each with six digits after the
    point, where four digits would be [1.5000]. *)
Theorem score_table_rows_six_digits :
  lines_of (snd (_scan_score_table demo_ext demo_fasta [motif_a; motif_b]
                   true true true (fun line => print demo_ext line Stdout) []))
  = [tab +:+ "MA0001" +:+ tab +:+ "MA0002";
     "chr1:1000-2000" +:+ tab +:+ "1.500000" +:+ tab +:+ "0.250000";
     "seq42" +:+ tab +:+ "2.000000" +:+ tab +:+ "-0.125000"]
  /\ format_float "4f" (3 # 2) = "1.500000"
  /\ format_float ".4f" (3 # 2) = "1.5000".
Proof. repeat split; vm_compute; reflexivity. Qed.

(** ** Reasoning about runs *)

Section Runs.
Context (ext : Externals).

Lemma bind_run {A B} (m : M A) (f : A -> M B) h :
  bind m f h
  = match m h with
    | (Ok a, e1) => (fst (f a (h ++ e1)), e1 ++ snd (f a (h ++ e1)))
    | (Raise e, e1) => (Raise e, e1)
    end%list.
Proof.
  unfold bind. destruct (m h) as [[a | e] e1]; [ | reflexivity].
  destruct (f a (h ++ e1)%list); reflexivity.
Qed.

Lemma emits_ret {A} P (a : A) : emits P (ret a).
Proof. intros h. constructor. Qed.

Lemma emits_raise {A} P e : emits P (@raise A e).
Proof. intros h. constructor. Qed.

Lemma emits_lift {A} P (r : result A) : emits P (lift r).
Proof. intros h. constructor. Qed.

Lemma emits_bind {A B} P (m : M A) (f : A -> M B) :
  emits P m -> (forall a, emits P (f a)) -> emits P (bind m f).
Proof.
  intros Hm Hf h. rewrite bind_run. specialize (Hm h).
  destruct (m h) as [[a | e] e1]; simpl in *; [ | exact Hm].
  apply Forall_app. split; [exact Hm | apply Hf].
Qed.

Lemma emits_act P outcome ev : P ev -> emits P (act outcome ev).
Proof.
  intros Hev h. unfold act. destruct (outcome h); simpl; repeat constructor.
  exact Hev.
Qed.

Lemma emits_print P line fo : P (EvPrint fo line) -> emits P (print ext line fo).
Proof. apply emits_act. Qed.

Lemma emits_engine_call P c : P (EvCall c) -> emits P (engine_call ext c).
Proof.
  intros Hev h. unfold engine_call.
  destruct (eng_setup ext _); simpl; repeat constructor; exact Hev.
Qed.

Lemma emits_engine_iter {A} P (answer : list call -> stream A) c :
  P (EvCall c) -> emits P (engine_iter answer c).
Proof. intros Hev h. simpl. repeat constructor. exact Hev. Qed.

Lemma emits_close P fo : P (EvClose fo) -> emits P (close ext fo).
Proof.
  intros Hev h. unfold close.
  destruct (io_close ext h fo); simpl; repeat constructor; exact Hev.
Qed.

Lemma emits_try_pass P (m : M unit) : emits P m -> emits P (try_pass m).
Proof. intros Hm h. specialize (Hm h). unfold try_pass. destruct (m h). exact Hm. Qed.

Lemma emits_for_rows {A} P (body : nat -> A -> M unit) rows :
  (forall i x, emits P (body i x)) -> forall i, emits P (for_rows body i rows).
Proof.
  intros Hbody. induction rows as [ | x rows IH]; intros i; simpl.
  - apply emits_ret.
  - apply emits_bind; [apply Hbody | intros _; apply IH].
Qed.

Lemma emits_enumerate {A} P (it : stream A) (body : nat -> A -> M unit) :
  (forall i x, emits P (body i x)) -> emits P (enumerate it body).
Proof.
  intros Hbody. unfold enumerate. apply emits_bind.
  - apply emits_for_rows, Hbody.
  - intros _. destruct (snd it); [apply emits_raise | apply emits_ret].
Qed.

Lemma emits_for_each {A} P (xs : list A) (body : A -> M unit) :
  (forall x, emits P (body x)) -> emits P (for_each xs body).
Proof. intros Hbody. apply emits_for_rows. intros _. exact Hbody. Qed.

Lemma emits_list_getitem {A} P (xs : list A) i : emits P (list_getitem xs i).
Proof.
  unfold list_getitem. destruct (xs !! i); [apply emits_ret | apply emits_raise].
Qed.

Lemma emits_collect {A B} P (it : stream A) (f : A -> B) : emits P (collect it f).
Proof. unfold collect. destruct (snd it); [apply emits_raise | apply emits_ret]. Qed.

Lemma emits_motif_ids P : emits P (motif_ids ext).
Proof. intros h. constructor. Qed.

End Runs.

Section Calls.
Context (ext : Externals).

Lemma calls_of_app (a b : list event) :
  calls_of (a ++ b) = (calls_of a ++ calls_of b)%list.
Proof. apply omap_app. Qed.

Lemma calls_of_silent (evs : list event) :
  Forall (fun ev => ~ is_call ev) evs -> calls_of evs = [].
Proof.
  induction 1 as [ | ev evs Hev _ IH]; [reflexivity | ].
  destruct ev; simpl in *; try exact IH. destruct Hev. exact I.
Qed.

Lemma calls_in_raise {A} (m : M A) (E : list call) :
  (forall h, is_Ok (fst (m h)) = false /\ calls_of (snd (m h)) = []) ->
  calls_in m E.
Proof.
  intros Hm h. destruct (Hm h) as [Hno Hnil]. rewrite Hnil, Hno.
  split; [apply prefix_nil | discriminate].
Qed.

Lemma calls_in_silent {A} (m : M A) :
  emits (fun ev => ~ is_call ev) m -> calls_in m [].
Proof.
  intros Hm h. rewrite (calls_of_silent _ (Hm h)).
  split; [apply prefix_nil | reflexivity].
Qed.

(** Sequencing, with what the first part returned known to the second. *)
Lemma calls_in_bind {A B} (m : M A) (f : A -> M B) (E1 E2 : list call) :
  calls_in m E1 ->
  (forall a h, fst (m h) = Ok a -> calls_in (f a) E2) ->
  calls_in (bind m f) (E1 ++ E2).
Proof.
  intros Hm Hf h. rewrite bind_run. destruct (Hm h) as [Hpre Hall].
  pose proof (Hf) as Hf'. specialize (fun a => Hf' a h).
  destruct (m h) as [[a | e] e1]; simpl in *.
  - destruct (Hf' a eq_refl (h ++ e1)%list) as [Hpre2 Hall2].
    rewrite calls_of_app, (Hall eq_refl). split.
    + apply prefix_app, Hpre2.
    + intros Hok. rewrite (Hall2 Hok). reflexivity.
  - split; [ | discriminate]. apply prefix_app_r, Hpre.
Qed.

Lemma calls_in_bind_silent {A B} (m : M A) (f : A -> M B) (E : list call) :
  emits (fun ev => ~ is_call ev) m ->
  (forall a h, fst (m h) = Ok a -> calls_in (f a) E) ->
  calls_in (bind m f) E.
Proof.
  intros Hm Hf. change E with ([] ++ E)%list.
  apply calls_in_bind; [apply calls_in_silent, Hm | exact Hf].
Qed.

Lemma calls_in_engine_call (c : call) : calls_in (engine_call ext c) [c].
Proof.
  intros h. unfold engine_call. destruct (eng_setup ext _); simpl.
  - split; [reflexivity | discriminate].
  - split; reflexivity.
Qed.

Lemma calls_in_engine_iter {A} (answer : list call -> stream A) (c : call) :
  calls_in (engine_iter answer c) [c].
Proof. intros h. simpl. split; reflexivity. Qed.

Lemma calls_in_bind_call {B} (c : call) (f : unit -> M B) (E : list call) :
  calls_in (f tt) E -> calls_in (bind (engine_call ext c) f) (c :: E).
Proof.
  intros Hf. change (c :: E) with ([c] ++ E)%list.
  apply calls_in_bind; [apply calls_in_engine_call | ].
  intros [] _ _. exact Hf.
Qed.

Lemma calls_in_bind_iter {A B} (answer : list call -> stream A) (c : call)
    (f : stream A -> M B) (E : list call) :
  (forall it, calls_in (f it) E) ->
  calls_in (bind (engine_iter answer c) f) (c :: E).
Proof.
  intros Hf. change (c :: E) with ([c] ++ E)%list.
  apply calls_in_bind; [apply calls_in_engine_iter | ].
  intros it _ _. apply Hf.
Qed.

Lemma calls_in_lift_raise {A B} (e : exn) (f : A -> M B) (E : list call) :
  calls_in (bind (lift (Raise e)) f) E.
Proof. apply calls_in_raise. intros h. split; reflexivity. Qed.

Lemma calls_in_bind_lift {A B} (r : result A) (f : A -> M B) (E : list call) :
  (forall a, r = Ok a -> calls_in (f a) E) ->
  calls_in (bind (lift r) f) E.
Proof.
  intros Hf. destruct r as [a | e]; [ | apply calls_in_lift_raise].
  apply calls_in_bind_silent; [apply emits_lift | ].
  intros a' h [= <-]. apply Hf. reflexivity.
Qed.

End Calls.

(** ** The blocks of [scan_to_file] *)

Ltac emits_step :=
  first
    [ apply emits_ret | apply emits_raise | apply emits_lift
    | apply emits_list_getitem | apply emits_collect | apply emits_motif_ids
    | apply emits_enumerate; intros ? ?
    | apply emits_for_each; intros ?
    | apply emits_bind; [ | intros ? ]
    | apply emits_try_pass
    | apply emits_print | apply emits_act | apply emits_engine_call
    | apply emits_engine_iter | apply emits_close
    | match goal with
      | |- emits _ (if ?b then _ else _) => destruct b
      | |- emits _ (match ?x with _ => _ end) => destruct x
      end ].

Ltac emits_steps := repeat emits_step.

Section Blocks.
Context (ext : Externals).

Lemma emits_scan_to_file_sink P filepath_or_buffer :
  (forall dir, P (EvMakedirs dir)) -> (forall f, P (EvOpen f)) ->
  emits P (scan_to_file_sink ext filepath_or_buffer).
Proof. intros Hm Ho. unfold scan_to_file_sink. emits_steps; auto. Qed.

Lemma emits_scan_to_file_header P inputfile pfmfile fpr cutoff score_table
    bgfile genome zscore gcnorm fo :
  (forall line, P (EvPrint fo line)) ->
  emits P (scan_to_file_header ext inputfile pfmfile fpr cutoff score_table
             bgfile genome zscore gcnorm fo).
Proof. intros Hp. unfold scan_to_file_header. emits_steps; auto. Qed.

Lemma emits_scan_to_file_scanner P inputfile pfmfile fpr cutoff score_table
    bgfile genome ncpus gcnorm random_state progress :
  (forall c, P (EvCall c)) ->
  emits P (scan_to_file_scanner ext inputfile pfmfile fpr cutoff score_table
             bgfile genome ncpus gcnorm random_state progress).
Proof. intros Hc. unfold scan_to_file_scanner. emits_steps; auto. Qed.

Lemma emits__scan_table P fa motifs nreport scan_rc yield_ :
  (forall line, emits P (yield_ line)) -> (forall c, P (EvCall c)) ->
  emits P (_scan_table ext fa motifs nreport scan_rc yield_).
Proof. intros Hy Hc. unfold _scan_table. emits_steps; auto. Qed.

Lemma emits__scan_score_table P fa motifs scan_rc zscore gcnorm yield_ :
  (forall line, emits P (yield_ line)) -> (forall c, P (EvCall c)) ->
  emits P (_scan_score_table ext fa motifs scan_rc zscore gcnorm yield_).
Proof. intros Hy Hc. unfold _scan_score_table. emits_steps; auto. Qed.

Lemma emits__scan_normal P fa motifs nreport scan_rc bed zscore gcnorm yield_ :
  (forall line, emits P (yield_ line)) -> (forall c, P (EvCall c)) ->
  emits P (_scan_normal ext fa motifs nreport scan_rc bed zscore gcnorm yield_).
Proof. intros Hy Hc. unfold _scan_normal. emits_steps; auto. Qed.

Lemma emits_scan_to_file_lines P pfmfile fa nreport bed scan_rc table
    score_table zscore gcnorm fo :
  (forall line, P (EvPrint fo line)) -> (forall c, P (EvCall c)) ->
  emits P (scan_to_file_lines ext pfmfile fa nreport bed scan_rc table
             score_table zscore gcnorm fo).
Proof.
  intros Hp Hc. unfold scan_to_file_lines.
  apply emits_bind; [apply emits_lift | intros motifs].
  destruct table; [ | destruct score_table].
  - apply emits__scan_table; [intros line; apply emits_print, Hp | exact Hc].
  - apply emits__scan_score_table; [intros line; apply emits_print, Hp | exact Hc].
  - apply emits__scan_normal; [intros line; apply emits_print, Hp | exact Hc].
Qed.

(** Each generator makes its one call on the engine. *)
Lemma calls_in__scan_table fa motifs nreport scan_rc yield_ :
  (forall line, emits (fun ev => ~ is_call ev) (yield_ line)) ->
  calls_in (_scan_table ext fa motifs nreport scan_rc yield_)
    [count (SrcFasta fa) (Some nreport) (Some scan_rc)].
Proof.
  intros Hy. unfold _scan_table.
  apply calls_in_bind_silent; [apply Hy | intros _ _ _].
  apply calls_in_bind_iter. intros it. apply calls_in_silent.
  emits_steps; apply Hy.
Qed.

Lemma calls_in__scan_score_table fa motifs scan_rc zscore gcnorm yield_ :
  (forall line, emits (fun ev => ~ is_call ev) (yield_ line)) ->
  calls_in (_scan_score_table ext fa motifs scan_rc zscore gcnorm yield_)
    [best_score (SrcFasta fa) (Some scan_rc) zscore gcnorm].
Proof.
  intros Hy. unfold _scan_score_table.
  apply calls_in_bind_silent; [apply Hy | intros _ _ _].
  apply calls_in_bind_iter. intros it. apply calls_in_silent.
  emits_steps; apply Hy.
Qed.

Lemma calls_in__scan_normal fa motifs nreport scan_rc bed zscore gcnorm yield_ :
  (forall line, emits (fun ev => ~ is_call ev) (yield_ line)) ->
  calls_in (_scan_normal ext fa motifs nreport scan_rc bed zscore gcnorm yield_)
    [scan (SrcFasta fa) nreport scan_rc zscore gcnorm].
Proof.
  intros Hy. unfold _scan_normal.
  apply calls_in_bind_iter. intros it. apply calls_in_silent.
  emits_steps; apply Hy.
Qed.

Lemma print_silent line fo : emits (fun ev => ~ is_call ev) (print ext line fo).
Proof. apply emits_print. simpl. tauto. Qed.

Lemma calls_in_scan_to_file_lines pfmfile fa nreport bed scan_rc table
    score_table zscore gcnorm fo :
  calls_in (scan_to_file_lines ext pfmfile fa nreport bed scan_rc table
              score_table zscore gcnorm fo)
    [if table then count (SrcFasta fa) (Some nreport) (Some scan_rc)
     else if score_table then
       best_score (SrcFasta fa) (Some scan_rc) zscore gcnorm
     else scan (SrcFasta fa) nreport scan_rc zscore gcnorm].
Proof.
  unfold scan_to_file_lines. apply calls_in_bind_lift. intros motifs _.
  destruct table; [ | destruct score_table].
  - apply calls_in__scan_table. intros line. apply print_silent.
  - apply calls_in__scan_score_table. intros line. apply print_silent.
  - apply calls_in__scan_normal. intros line. apply print_silent.
Qed.

(** The calls of the configuration block. *)
Lemma calls_in_scan_to_file_scanner inputfile pfmfile fpr cutoff score_table
    bgfile genome ncpus gcnorm random_state progress fa0 :
  let fa := fasta_or fa0 (as_fasta ext (SrcFile inputfile) genome) in
  calls_in (scan_to_file_scanner ext inputfile pfmfile fpr cutoff score_table
              bgfile genome ncpus gcnorm random_state progress)
    ([Scanner_new ncpus random_state progress; set_motifs pfmfile;
      set_genome genome]
     ++ (if truthy_str genome then
           [set_background None genome (fa_median_length fa) gcnorm]
         else if truthy_str bgfile then
           [set_background bgfile None (fa_median_length fa) false]
         else [])
     ++ (if score_table then [] else [set_threshold fpr cutoff])).
Proof.
  intros fa. unfold scan_to_file_scanner. cbn [app].
  do 3 apply calls_in_bind_call.
  apply calls_in_bind_lift. intros fa' Hfa.
  subst fa. rewrite Hfa. cbn [fasta_or].
  destruct (truthy_str genome); [ | destruct (truthy_str bgfile)];
    destruct score_table; cbn [app negb];
    repeat first
      [ apply calls_in_bind_call
      | apply calls_in_bind_silent; [apply emits_ret | intros _ _ _] ];
    apply calls_in_silent, emits_ret.
Qed.

Lemma returns_bind {A B} (m : M A) (f : A -> M B) (Q : B -> Prop) :
  (forall a h, fst (m h) = Ok a -> returns_only (f a) Q) ->
  returns_only (bind m f) Q.
Proof.
  intros Hf h b. rewrite bind_run. specialize (fun a => Hf a h).
  destruct (m h) as [[a | e] e1]; simpl in *; [ | discriminate].
  apply (Hf a eq_refl).
Qed.

Lemma returns_ret {A} (a : A) (Q : A -> Prop) : Q a -> returns_only (ret a) Q.
Proof. intros Ha h b [= <-]. exact Ha. Qed.

Lemma scan_to_file_scanner_returns inputfile pfmfile fpr cutoff score_table
    bgfile genome ncpus gcnorm random_state progress :
  returns_only
    (scan_to_file_scanner ext inputfile pfmfile fpr cutoff score_table
       bgfile genome ncpus gcnorm random_state progress)
    (fun fa => as_fasta ext (SrcFile inputfile) genome = Ok fa).
Proof.
  unfold scan_to_file_scanner.
  do 3 (apply returns_bind; intros _ _ _).
  apply returns_bind. intros fa h Hfa.
  do 2 (apply returns_bind; intros _ _ _).
  apply returns_ret. exact Hfa.
Qed.

End Blocks.

(** ** [scan_to_file] as a whole *)

Section ScanToFile.
Context (ext : Externals).

Lemma emits_bind_ret {A B} P (m : M A) (f : A -> M B) :
  emits P m -> (forall a h, fst (m h) = Ok a -> emits P (f a)) ->
  emits P (bind m f).
Proof.
  intros Hm Hf h. rewrite bind_run. specialize (Hm h).
  specialize (fun a => Hf a h).
  destruct (m h) as [[a | e] e1]; simpl in *; [ | exact Hm].
  apply Forall_app. split; [exact Hm | apply (Hf a eq_refl)].
Qed.

Lemma calls_in_then_silent {A B} (m : M A) (f : A -> M B) (E : list call) :
  calls_in m E -> (forall a, emits (fun ev => ~ is_call ev) (f a)) ->
  calls_in (bind m f) E.
Proof.
  intros Hm Hf. rewrite <- (app_nil_r E).
  apply calls_in_bind; [exact Hm | ]. intros a _ _. apply calls_in_silent, Hf.
Qed.

Lemma scan_to_file_sink_returns filepath_or_buffer :
  returns_only (scan_to_file_sink ext filepath_or_buffer)
    (fun opened =>
       opened = match filepath_or_buffer with
                | DestNone => (Stdout, false)
                | DestBuffer handle => (Stream handle, false)
                | DestPath path =>
                    (OpenedFile (os_path_expanduser ext path), true)
                end).
Proof.
  unfold scan_to_file_sink. destruct filepath_or_buffer.
  - apply returns_ret. reflexivity.
  - apply returns_ret. reflexivity.
  - do 2 (apply returns_bind; intros _ _ _). apply returns_ret. reflexivity.
Qed.

Lemma emits_scan_to_file_close P fo should_close :
  (should_close = true -> P (EvClose fo)) ->
  emits P (scan_to_file_close ext fo should_close).
Proof.
  intros Hc. unfold scan_to_file_close. destruct should_close.
  - apply emits_try_pass, emits_close, Hc. reflexivity.
  - apply emits_ret.
Qed.

(** The calls on the engine, for a motif source that resolves to [pf]. *)
Lemma scan_to_file_calls_in inputfile pfmfile filepath_or_buffer nreport fpr
    cutoff bed scan_rc table score_table bgfile genome ncpus zscore gcnorm
    random_state progress pf fa0 :
  check_motifs (MotifConfig_new ext) (os_path_exists ext) pfmfile = Ok pf ->
  calls_in
    (scan_to_file ext inputfile pfmfile filepath_or_buffer nreport fpr cutoff
       bed scan_rc table score_table bgfile genome ncpus zscore gcnorm
       random_state progress)
    (scan_to_file_calls ext pf
       (fasta_or fa0 (as_fasta ext (SrcFile inputfile) genome))
       nreport fpr cutoff scan_rc table score_table bgfile genome ncpus
       zscore gcnorm random_state progress).
Proof.
  intros Hpf. unfold scan_to_file. rewrite Hpf.
  apply calls_in_bind_lift. intros pf' [= <-].
  apply calls_in_bind_silent.
  { apply emits_scan_to_file_sink; simpl; tauto. }
  intros opened _ _. cbv zeta.
  apply calls_in_bind_silent.
  { apply emits_scan_to_file_header. simpl. tauto. }
  intros _ _ _. unfold scan_to_file_calls.
  apply calls_in_bind.
  { apply calls_in_scan_to_file_scanner. }
  intros fa h Hfa. apply scan_to_file_scanner_returns in Hfa.
  rewrite Hfa. cbn [fasta_or].
  apply calls_in_then_silent.
  { apply calls_in_scan_to_file_lines. }
  intros _. apply emits_scan_to_file_close. simpl. tauto.
Qed.

(** When the motif source is refused nothing else happens. *)
Lemma scan_to_file_refused inputfile pfmfile filepath_or_buffer nreport fpr
    cutoff bed scan_rc table score_table bgfile genome ncpus zscore gcnorm
    random_state progress e h :
  check_motifs (MotifConfig_new ext) (os_path_exists ext) pfmfile = Raise e ->
  scan_to_file ext inputfile pfmfile filepath_or_buffer nreport fpr cutoff
    bed scan_rc table score_table bgfile genome ncpus zscore gcnorm
    random_state progress h = (Raise e, []).
Proof. intros Hpf. unfold scan_to_file. rewrite Hpf. reflexivity. Qed.

(** A run that returns resolved the motifs and read the sequences. *)
Lemma scan_to_file_returns inputfile pfmfile filepath_or_buffer nreport fpr
    cutoff bed scan_rc table score_table bgfile genome ncpus zscore gcnorm
    random_state progress h :
  is_Ok (fst (scan_to_file ext inputfile pfmfile filepath_or_buffer nreport
                fpr cutoff bed scan_rc table score_table bgfile genome ncpus
                zscore gcnorm random_state progress h)) = true ->
  exists pf fa,
    check_motifs (MotifConfig_new ext) (os_path_exists ext) pfmfile = Ok pf
    /\ as_fasta ext (SrcFile inputfile) genome = Ok fa.
Proof.
  unfold scan_to_file.
  destruct (check_motifs _ _ pfmfile) as [pf | e]; [ | discriminate].
  intros Hok. exists pf.
  destruct (as_fasta ext (SrcFile inputfile) genome) as [fa | e] eqn:Hfa;
    [exists fa; split; reflexivity | exfalso].
  revert Hok. rewrite bind_run. cbn [lift]. rewrite bind_run.
  destruct (scan_to_file_sink ext filepath_or_buffer _) as [[opened | ?] ?];
    [ | discriminate].
  cbv zeta. cbn [fst snd]. rewrite bind_run.
  destruct (scan_to_file_header _ _ _ _ _ _ _ _ _ _ _ _) as [[? | ?] ?];
    [ | discriminate].
  cbn [fst snd]. rewrite bind_run.
  destruct (scan_to_file_scanner _ _ _ _ _ _ _ _ _ _ _ _ _) as [[fa | ?] ?] eqn:Hs;
    [ | discriminate].
  assert (Hr : as_fasta ext (SrcFile inputfile) genome = Ok fa).
  { eapply scan_to_file_scanner_returns. rewrite Hs. reflexivity. }
  congruence.
Qed.

End ScanToFile.

(** ** Closing the sink *)

Section Closing.
Context (ext : Externals).

Lemma closes_last_bind {A B} fo (m : M A) (f : A -> M B) :
  emits (fun ev => ~ is_close ev) m ->
  (forall a h, fst (m h) = Ok a -> closes_last fo (f a)) ->
  closes_last fo (bind m f).
Proof.
  intros Hm Hf h. rewrite bind_run. specialize (Hm h).
  specialize (fun a => Hf a h).
  destruct (m h) as [[a | e] e1]; simpl in *; [ | exact Hm].
  specialize (Hf a eq_refl (h ++ e1)%list).
  destruct (fst (f a (h ++ e1)%list)).
  - destruct Hf as (evs & -> & Hevs). exists (e1 ++ evs)%list.
    split; [apply app_assoc | ]. apply Forall_app. split; assumption.
  - apply Forall_app. split; assumption.
Qed.

Lemma closes_last_scan_to_file_close fo :
  closes_last fo (scan_to_file_close ext fo true).
Proof.
  intros h. unfold scan_to_file_close, try_pass, close.
  destruct (io_close ext h fo); simpl; exists []; split;
    reflexivity || constructor.
Qed.

Lemma scan_to_file_closes_last inputfile pfmfile path nreport fpr cutoff bed
    scan_rc table score_table bgfile genome ncpus zscore gcnorm random_state
    progress :
  closes_last (OpenedFile (os_path_expanduser ext path))
    (scan_to_file ext inputfile pfmfile (DestPath path) nreport fpr cutoff
       bed scan_rc table score_table bgfile genome ncpus zscore gcnorm
       random_state progress).
Proof.
  unfold scan_to_file.
  apply closes_last_bind; [apply emits_lift | intros pf _ _].
  apply closes_last_bind.
  { apply emits_scan_to_file_sink; simpl; tauto. }
  intros opened h Hopened. apply scan_to_file_sink_returns in Hopened.
  subst opened. cbv zeta. cbn [fst snd].
  apply closes_last_bind.
  { apply emits_scan_to_file_header. simpl. tauto. }
  intros _ _ _. apply closes_last_bind.
  { apply emits_scan_to_file_scanner. simpl. tauto. }
  intros fa _ _. apply closes_last_bind.
  { apply emits_scan_to_file_lines; simpl; tauto. }
  intros _ _ _. apply closes_last_scan_to_file_close.
Qed.

Lemma scan_to_file_never_closes inputfile pfmfile filepath_or_buffer nreport
    fpr cutoff bed scan_rc table score_table bgfile genome ncpus zscore
    gcnorm random_state progress :
  (forall path, filepath_or_buffer <> DestPath path) ->
  emits (fun ev => ~ is_close ev)
    (scan_to_file ext inputfile pfmfile filepath_or_buffer nreport fpr cutoff
       bed scan_rc table score_table bgfile genome ncpus zscore gcnorm
       random_state progress).
Proof.
  intros Hdest. unfold scan_to_file.
  apply emits_bind; [apply emits_lift | intros pf].
  apply emits_bind_ret.
  { apply emits_scan_to_file_sink; simpl; tauto. }
  intros opened h Hopened. apply scan_to_file_sink_returns in Hopened.
  cbv zeta. apply emits_bind.
  { apply emits_scan_to_file_header. simpl. tauto. }
  intros _. apply emits_bind.
  { apply emits_scan_to_file_scanner. simpl. tauto. }
  intros fa. apply emits_bind.
  { apply emits_scan_to_file_lines; simpl; tauto. }
  intros _. apply emits_scan_to_file_close. intros Hclose.
  subst opened. destruct filepath_or_buffer as [ | handle | path];
    simpl in Hclose; try discriminate. destruct (Hdest path eq_refl).
Qed.

End Closing.

Lemma not_close_not_elem (evs : list event) (fo : sink) :
  Forall (fun ev => ~ is_close ev) evs -> EvClose fo ∉ evs.
Proof.
  intros Hall Hin. rewrite Forall_forall in Hall. apply (Hall _ Hin). exact I.
Qed.

(** C7, refuted as stated: the engine refuses the threshold after the output
    file was opened; the run ends with that exception and the file is never
    closed. *)
Lemma scan_to_file_leaves_file_open :
  let run :=
    scan_to_file (demo_world refuse_threshold None) "in.fa" PyNone
      (DestPath "out/x.txt") 1 (Some (1 # 100)) (Some (9 # 10)) false true
      false false None (Some "hg38") None true true None None [] in
  fst run = Raise (ValueError "Need either fpr or threshold.")
  /\ ~ closes_what_it_opened (snd run).
Proof.
  split; [reflexivity | ]. intros Hclaim.
  specialize (Hclaim "out/x.txt").
  assert (Hopen : EvOpen "out/x.txt" ∈
                  snd (scan_to_file (demo_world refuse_threshold None) "in.fa"
                         PyNone (DestPath "out/x.txt") 1 (Some (1 # 100))
                         (Some (9 # 10)) false true false false None
                         (Some "hg38") None true true None None [])).
  { vm_compute. apply list_elem_of_further, list_elem_of_here. }
  specialize (Hclaim Hopen). revert Hclaim. apply not_close_not_elem.
  vm_compute. repeat constructor; tauto.
Qed.

(** C7, amended.  A path: the file the run opened is closed last and only
    then when the run returns, whatever the close does, and is not closed
    when the run raises.  No path: the sink is never closed. *)
Theorem scan_to_file_close_discipline (ext : Externals) (inputfile : string)
    (pfmfile : pyobj) (filepath_or_buffer : dest) (nreport : Z)
    (fpr cutoff : option Q) (bed scan_rc table score_table : bool)
    (bgfile genome : option string) (ncpus : option Z)
    (zscore gcnorm : bool) (random_state : option rng)
    (progress : option bool) (h : list event) :
  let run :=
    scan_to_file ext inputfile pfmfile filepath_or_buffer nreport fpr cutoff
      bed scan_rc table score_table bgfile genome ncpus zscore gcnorm
      random_state progress h in
  match filepath_or_buffer with
  | DestPath path =>
      match fst run with
      | Ok _ =>
          exists evs,
            snd run
            = (evs ++ [EvClose (OpenedFile (os_path_expanduser ext path))])%list
            /\ Forall (fun ev => ~ is_close ev) evs
      | Raise _ => Forall (fun ev => ~ is_close ev) (snd run)
      end
  | DestNone | DestBuffer _ => Forall (fun ev => ~ is_close ev) (snd run)
  end.
Proof.
  intros run. subst run. destruct filepath_or_buffer as [ | handle | path].
  - apply scan_to_file_never_closes. intros path. discriminate.
  - apply scan_to_file_never_closes. intros path. discriminate.
  - apply scan_to_file_closes_last.
Qed.

(** A close that fails, in a run that returns all the same. *)
Example scan_to_file_swallows_close_error :
  let run :=
    scan_to_file (demo_world (fun _ => None) (Some (OSError "disk full")))
      "in.fa" PyNone (DestPath "out/x.txt") 1 (Some (1 # 100)) None true true
      false false None (Some "hg38") None true true None None [] in
  fst run = Ok tt /\ last (snd run) = Some (EvClose (OpenedFile "out/x.txt")).
Proof. split; reflexivity. Qed.

(** ** Background and threshold in [scan_to_file] *)

Section ScanToFileCalls.
Context (ext : Externals).

(** The calls of any run are among those of a run that completes. *)
Lemma scan_to_file_calls_prefix inputfile pfmfile filepath_or_buffer nreport
    fpr cutoff bed scan_rc table score_table bgfile genome ncpus zscore gcnorm
    random_state progress h :
  let run :=
    scan_to_file ext inputfile pfmfile filepath_or_buffer nreport fpr cutoff
      bed scan_rc table score_table bgfile genome ncpus zscore gcnorm
      random_state progress h in
  exists pf,
    let expected :=
      scan_to_file_calls ext pf
        (fasta_or no_fasta (as_fasta ext (SrcFile inputfile) genome))
        nreport fpr cutoff scan_rc table score_table bgfile genome ncpus
        zscore gcnorm random_state progress in
    calls_of (snd run) `prefix_of` expected
    /\ (is_Ok (fst run) = true -> calls_of (snd run) = expected).
Proof.
  intros run. subst run.
  destruct (check_motifs (MotifConfig_new ext) (os_path_exists ext) pfmfile)
    as [pf | e] eqn:Hpf.
  - exists pf. apply scan_to_file_calls_in. exact Hpf.
  - exists PyNone. rewrite (scan_to_file_refused ext _ _ _ _ _ _ _ _ _ _ _ _ _ _ _ _ _ e h Hpf).
    split; [apply prefix_nil | discriminate].
Qed.

Lemma elem_of_prefix {A} (x : A) (l1 l2 : list A) :
  l1 `prefix_of` l2 -> x ∈ l1 -> x ∈ l2.
Proof. intros [k ->] Hin. apply elem_of_app. left. exact Hin. Qed.

End ScanToFileCalls.

Ltac elem_cases H :=
  repeat (rewrite elem_of_app in H || rewrite elem_of_cons in H
          || rewrite elem_of_nil in H);
  repeat match type of H with
         | _ \/ _ => destruct H as [H | H]
         end;
  try discriminate H; try contradiction.

(** C10.  With no genome (none, or an empty name): when a background file
    is given, every background the run configures is that file with no
    genome, the median length of the input and GC normalization off,
    whatever [gcnorm] is, and a run that completes has configured it; when
    none is given either, the run configures no background at all. *)
Theorem scan_to_file_background (ext : Externals) (inputfile : string)
    (pfmfile : pyobj) (filepath_or_buffer : dest) (nreport : Z)
    (fpr cutoff : option Q) (bed scan_rc table score_table : bool)
    (bgfile genome : option string) (ncpus : option Z)
    (zscore gcnorm : bool) (random_state : option rng)
    (progress : option bool) (h : list event) :
  truthy_str genome = false ->
  let run :=
    scan_to_file ext inputfile pfmfile filepath_or_buffer nreport fpr cutoff
      bed scan_rc table score_table bgfile genome ncpus zscore gcnorm
      random_state progress h in
  (truthy_str bgfile = true ->
   (forall fname g size gc,
       set_background fname g size gc ∈ calls_of (snd run) ->
       fname = bgfile /\ g = None /\ gc = false
       /\ forall fa, as_fasta ext (SrcFile inputfile) genome = Ok fa ->
                     size = fa_median_length fa)
   /\ (is_Ok (fst run) = true ->
       exists size, set_background bgfile None size false ∈ calls_of (snd run)))
  /\ (truthy_str bgfile = false ->
      forall fname g size gc,
        set_background fname g size gc ∉ calls_of (snd run)).
Proof.
  intros Hgenome run.
  destruct (scan_to_file_calls_prefix ext inputfile pfmfile filepath_or_buffer
              nreport fpr cutoff bed scan_rc table score_table bgfile genome
              ncpus zscore gcnorm random_state progress h)
    as (pf & Hpre & Hall).
  fold run in Hpre, Hall.
  unfold scan_to_file_calls, scan_to_file_setup_calls,
    scan_to_file_result_call in Hpre, Hall.
  rewrite Hgenome in Hpre, Hall.
  split; intros Hbg; rewrite Hbg in Hpre, Hall.
  - split.
    + intros fname g size gc Hin.
      apply (elem_of_prefix _ _ _ Hpre) in Hin.
      destruct score_table, table; elem_cases Hin;
        injection Hin as -> -> -> ->; repeat split;
        intros fa ->; reflexivity.
    + intros Hok. rewrite (Hall Hok). eexists.
      apply elem_of_app. left. apply elem_of_app. right.
      apply elem_of_app. left. apply list_elem_of_here.
  - intros fname g size gc Hin.
    apply (elem_of_prefix _ _ _ Hpre) in Hin.
    destruct score_table, table; elem_cases Hin.
Qed.

(** C10 in the demo world: a background file and no genome, with
    [gcnorm = True]. *)
Lemma scan_to_file_background_witness :
  let run :=
    scan_to_file demo_ext "in.fa" PyNone DestNone 1 (Some (1 # 100)) None
      false true false false (Some "bg.fa") None None true true None None [] in
  fst run = Ok tt
  /\ set_background (Some "bg.fa") None 18 false ∈ calls_of (snd run)
  /\ forall fname g size gc,
       set_background fname g size gc ∈ calls_of (snd run) -> gc = false.
Proof.
  split; [reflexivity | split].
  - vm_compute. do 3 apply list_elem_of_further. apply list_elem_of_here.
  - intros fname g size gc Hin.
    destruct (scan_to_file_background demo_ext "in.fa" PyNone DestNone 1
                (Some (1 # 100)) None false true false false (Some "bg.fa")
                None None true true None None [] eq_refl) as [Hbg _].
    destruct (Hbg eq_refl) as [Honly _].
    destruct (Honly fname g size gc Hin) as (_ & _ & Hgc & _). exact Hgc.
Defined.

(** ** The calls of the other two entry operations *)

Section OtherCalls.
Context (ext : Externals).

Lemma calls_in_scan_regionfile_to_table np_random input_table genome scoring
    pfmfile ncpus zscore gc random_state progress pf idx size :
  check_motifs (MotifConfig_new ext) (os_path_exists ext) pfmfile = Ok pf ->
  read_regions ext input_table = Ok idx ->
  background_size ext np_random random_state idx genome = Ok size ->
  calls_in
    (scan_regionfile_to_table ext np_random input_table genome scoring
       pfmfile ncpus zscore gc random_state progress)
    (scan_regionfile_to_table_calls ext pf idx size genome scoring ncpus
       zscore gc (snd (check_regions ext np_random random_state idx))
       progress).
Proof.
  intros Hpf Hidx Hsize. unfold scan_regionfile_to_table.
  rewrite Hpf. apply calls_in_bind_lift. intros ? [= <-].
  rewrite Hidx. apply calls_in_bind_lift. intros ? [= <-].
  cbv zeta. rewrite Hsize. apply calls_in_bind_lift. intros ? [= <-].
  unfold scan_regionfile_to_table_calls. cbn [app].
  do 4 apply calls_in_bind_call.
  apply calls_in_then_silent.
  - destruct (String.eqb scoring "count").
    + apply calls_in_bind_call.
      change [count (SrcRegions idx) None None]
        with ([count (SrcRegions idx) None None] ++ [])%list.
      apply calls_in_bind; [apply calls_in_engine_iter | ].
      intros it _ _. apply calls_in_silent, emits_collect.
    + change [best_score (SrcRegions idx) None zscore gc]
        with ([best_score (SrcRegions idx) None zscore gc] ++ [])%list.
      apply calls_in_bind; [apply calls_in_engine_iter | ].
      intros it _ _. apply calls_in_silent, emits_collect.
  - intros scores. apply emits_bind; [apply emits_motif_ids | intros names].
    apply emits_lift.
Qed.

(** Without motifs, regions or a size, no engine is made. *)
Lemma scan_regionfile_to_table_early np_random input_table genome scoring
    pfmfile ncpus zscore gc random_state progress h :
  (forall pf idx size,
      check_motifs (MotifConfig_new ext) (os_path_exists ext) pfmfile = Ok pf ->
      read_regions ext input_table = Ok idx ->
      background_size ext np_random random_state idx genome = Ok size ->
      False) ->
  exists e,
    scan_regionfile_to_table ext np_random input_table genome scoring
      pfmfile ncpus zscore gc random_state progress h = (Raise e, []).
Proof.
  intros Hno. unfold scan_regionfile_to_table.
  destruct (check_motifs _ _ pfmfile) as [pf | e]; [ | exists e; reflexivity].
  destruct (read_regions ext input_table) as [idx | e] eqn:Hidx;
    [ | exists e; reflexivity].
  destruct (background_size ext np_random random_state idx genome)
    as [size | e] eqn:Hsize.
  - destruct (Hno pf idx size eq_refl eq_refl Hsize).
  - exists e. do 3 (rewrite bind_run; cbn [lift fst snd]).
    rewrite Hsize. reflexivity.
Qed.

Lemma calls_in_scan_to_best_match fname pfmfile ncpus genome score zscore gc
    random_state progress pf :
  check_motifs (MotifConfig_new ext) (os_path_exists ext) pfmfile = Ok pf ->
  calls_in
    (scan_to_best_match ext fname pfmfile ncpus genome score zscore gc
       random_state progress)
    (scan_to_best_match_calls pf fname ncpus genome score zscore gc
       random_state progress).
Proof.
  intros Hpf. unfold scan_to_best_match. rewrite Hpf.
  apply calls_in_bind_lift. intros ? [= <-].
  unfold scan_to_best_match_calls.
  do 4 apply calls_in_bind_call.
  apply calls_in_bind_lift. intros motifs _. cbv zeta.
  apply calls_in_then_silent.
  - destruct score.
    + change [best_score fname None zscore gc]
        with ([best_score fname None zscore gc] ++ [])%list.
      apply calls_in_bind; [apply calls_in_engine_iter | ].
      intros it _ _. apply calls_in_silent, emits_ret.
    + change [best_match fname zscore gc]
        with ([best_match fname zscore gc] ++ [])%list.
      apply calls_in_bind; [apply calls_in_engine_iter | ].
      intros it _ _. apply calls_in_silent, emits_ret.
  - intros it. apply emits_bind; [apply emits_collect | intros rows].
    apply emits_ret.
Qed.

Lemma scan_to_best_match_refused fname pfmfile ncpus genome score zscore gc
    random_state progress e h :
  check_motifs (MotifConfig_new ext) (os_path_exists ext) pfmfile = Raise e ->
  scan_to_best_match ext fname pfmfile ncpus genome score zscore gc
    random_state progress h = (Raise e, []).
Proof. intros Hpf. unfold scan_to_best_match. rewrite Hpf. reflexivity. Qed.

End OtherCalls.

(** ** The order of the calls on the engine *)

Lemma Sorted_prefix {A} (R : relation A) (l1 l2 : list A) :
  l1 `prefix_of` l2 -> Sorted R l2 -> Sorted R l1.
Proof.
  intros [k ->]. induction l1 as [ | x l1 IH]; intros Hs; [constructor | ].
  simpl in Hs. apply Sorted_inv in Hs as [Hs Hhd].
  constructor; [apply IH, Hs | ].
  destruct l1; [constructor | ]. inversion Hhd; subst. constructor. assumption.
Qed.

Lemma in_fixed_order_weaken (cs : list call) :
  in_fixed_order cs -> in_fixed_order_so_far cs.
Proof. intros [Hone Hs]. split; [rewrite Hone; constructor | exact Hs]. Qed.

Lemma in_fixed_order_prefix (cs1 cs2 : list call) :
  cs1 `prefix_of` cs2 -> in_fixed_order_so_far cs2 ->
  in_fixed_order_so_far cs1.
Proof.
  intros Hpre [Hone Hs]. split.
  - destruct Hpre as [k ->]. rewrite filter_app, length_app in Hone. lia.
  - apply (Sorted_prefix le (map phase cs1) (map phase cs2)); [ | exact Hs].
    destruct Hpre as [k ->]. exists (map phase k). apply map_app.
Qed.

Ltac sorted_phases :=
  split; [reflexivity | cbn; repeat (constructor; try lia)].

Lemma scan_to_file_calls_in_order ext pf fa nreport fpr cutoff scan_rc table
    score_table bgfile genome ncpus zscore gcnorm random_state progress :
  in_fixed_order
    (scan_to_file_calls ext pf fa nreport fpr cutoff scan_rc table
       score_table bgfile genome ncpus zscore gcnorm random_state progress).
Proof.
  unfold scan_to_file_calls, scan_to_file_setup_calls,
    scan_to_file_result_call.
  destruct (truthy_str genome), (truthy_str bgfile), score_table, table;
    sorted_phases.
Qed.

Lemma scan_regionfile_to_table_calls_in_order ext pf regions size genome
    scoring ncpus zscore gc random_state progress :
  in_fixed_order
    (scan_regionfile_to_table_calls ext pf regions size genome scoring ncpus
       zscore gc random_state progress).
Proof.
  unfold scan_regionfile_to_table_calls.
  destruct (String.eqb scoring "count"); sorted_phases.
Qed.

(** C9, refuted as stated: [scan_to_best_match] completes in the demo world
    and has set the genome before the motifs. *)
Lemma scan_to_best_match_sets_genome_first :
  let run :=
    scan_to_best_match demo_ext (SrcFile "in.fa") PyNone None (Some "hg38")
      false true true None None [] in
  is_Ok (fst run) = true
  /\ calls_of (snd run)
     = [Scanner_new None None None; set_genome (Some "hg38");
        set_motifs (PyStr "/motifs/default.pfm");
        set_threshold None (Some 0%Q);
        best_match (SrcFile "in.fa") true true]
  /\ ~ in_fixed_order (calls_of (snd run)).
Proof.
  split; [reflexivity | split; [reflexivity | ]].
  intros [_ Hs]. vm_compute in Hs.
  apply Sorted_inv in Hs as [Hs _]. apply Sorted_inv in Hs as [_ Hhd].
  inversion Hhd; subst. lia.
Qed.

(** C9, amended.  Every run of [scan_regionfile_to_table] and of
    [scan_to_file] makes at most one engine and calls it in the order
    motifs, genome and background, threshold, scanning; a run that completes
    has made exactly one.  Every run of [scan_to_best_match] makes its calls
    in the order: the engine, the genome, the motifs, the threshold zero, the
    scan; a run that completes has made them all. *)
Theorem engine_calls_in_order (ext : Externals) (h : list event) :
  (forall np_random input_table genome scoring pfmfile ncpus zscore gc
          random_state progress,
      let run :=
        scan_regionfile_to_table ext np_random input_table genome scoring
          pfmfile ncpus zscore gc random_state progress h in
      in_fixed_order_so_far (calls_of (snd run))
      /\ (is_Ok (fst run) = true -> in_fixed_order (calls_of (snd run))))
  /\ (forall inputfile pfmfile filepath_or_buffer nreport fpr cutoff bed
             scan_rc table score_table bgfile genome ncpus zscore gcnorm
             random_state progress,
         let run :=
           scan_to_file ext inputfile pfmfile filepath_or_buffer nreport fpr
             cutoff bed scan_rc table score_table bgfile genome ncpus zscore
             gcnorm random_state progress h in
         in_fixed_order_so_far (calls_of (snd run))
         /\ (is_Ok (fst run) = true -> in_fixed_order (calls_of (snd run))))
  /\ (forall fname pfmfile ncpus genome score zscore gc random_state progress,
         let run :=
           scan_to_best_match ext fname pfmfile ncpus genome score zscore gc
             random_state progress h in
         exists pf,
           let expected :=
             [Scanner_new ncpus random_state progress; set_genome genome;
              set_motifs pf; set_threshold None (Some 0%Q);
              if score then best_score fname None zscore gc
              else best_match fname zscore gc] in
           calls_of (snd run) `prefix_of` expected
           /\ (is_Ok (fst run) = true -> calls_of (snd run) = expected)).
Proof.
  split; [ | split].
  - intros np_random input_table genome scoring pfmfile ncpus zscore gc
      random_state progress run. subst run.
    destruct (check_motifs (MotifConfig_new ext) (os_path_exists ext) pfmfile)
      as [pf | e1] eqn:Hpf;
      [destruct (read_regions ext input_table) as [idx | e2] eqn:Hidx;
       [destruct (background_size ext np_random random_state idx genome)
          as [size | e3] eqn:Hsize | ] | ].
    1: { destruct (calls_in_scan_regionfile_to_table ext np_random input_table
                     genome scoring pfmfile ncpus zscore gc random_state
                     progress pf idx size Hpf Hidx Hsize h) as [Hpre Hall].
         split.
         - eapply in_fixed_order_prefix; [exact Hpre | ].
           apply in_fixed_order_weaken,
             scan_regionfile_to_table_calls_in_order.
         - intros Hok. rewrite (Hall Hok).
           apply scan_regionfile_to_table_calls_in_order. }
    all: destruct (scan_regionfile_to_table_early ext np_random input_table
                     genome scoring pfmfile ncpus zscore gc random_state
                     progress h) as [e He];
      [intros pf' idx' size' Hpf' Hidx' Hsize'; congruence | ];
      rewrite He; (split; [split; [simpl; lia | constructor] | discriminate]).
  - intros inputfile pfmfile filepath_or_buffer nreport fpr cutoff bed
      scan_rc table score_table bgfile genome ncpus zscore gcnorm
      random_state progress run. subst run.
    destruct (scan_to_file_calls_prefix ext inputfile pfmfile
                filepath_or_buffer nreport fpr cutoff bed scan_rc table
                score_table bgfile genome ncpus zscore gcnorm random_state
                progress h) as (pf & Hpre & Hall).
    split.
    + eapply in_fixed_order_prefix; [exact Hpre | ].
      apply in_fixed_order_weaken, scan_to_file_calls_in_order.
    + intros Hok. rewrite (Hall Hok). apply scan_to_file_calls_in_order.
  - intros fname pfmfile ncpus genome score zscore gc random_state progress
      run. subst run.
    destruct (check_motifs (MotifConfig_new ext) (os_path_exists ext) pfmfile)
      as [pf | e] eqn:Hpf.
    + exists pf.
      apply (calls_in_scan_to_best_match ext fname pfmfile ncpus genome score
               zscore gc random_state progress pf Hpf h).
    + exists PyNone.
      rewrite (scan_to_best_match_refused ext fname pfmfile ncpus genome
                 score zscore gc random_state progress e h Hpf).
      split; [apply prefix_nil | discriminate].
Qed.

(** ** The threshold in count mode *)

(** C5, refuted as stated: [scan_to_file] with [table=True] and a cutoff of
    0.9 hands the cutoff to the engine. *)
Lemma scan_to_file_table_passes_cutoff :
  let run :=
    scan_to_file demo_ext "in.fa" PyNone DestNone 1 (Some (1 # 100))
      (Some (9 # 10)) false true true false None (Some "hg38") None true true
      None None [] in
  fst run = Ok tt
  /\ set_threshold (Some (1 # 100)) (Some (9 # 10)) ∈ calls_of (snd run)
  /\ ~ threshold_from_fpr_only (calls_of (snd run)).
Proof.
  assert (Hin : set_threshold (Some (1 # 100)) (Some (9 # 10)) ∈
                calls_of (snd (scan_to_file demo_ext "in.fa" PyNone DestNone 1
                                 (Some (1 # 100)) (Some (9 # 10)) false true
                                 true false None (Some "hg38") None true true
                                 None None []))).
  { vm_compute. do 4 apply list_elem_of_further. apply list_elem_of_here. }
  split; [reflexivity | split; [exact Hin | ]].
  intros Hclaim. specialize (Hclaim _ _ Hin). discriminate Hclaim.
Qed.

(** C5, amended.  In [scan_regionfile_to_table] with [scoring = "count"]
    every threshold the run sets is the default false-positive rate with no
    cutoff, and a run that completes has set it.  In [scan_to_file] every
    threshold the run sets carries the false-positive rate (the default one
    when neither it nor a cutoff was given) together with the cutoff as it
    was given, in table mode as in any other; a run that completes outside
    score-table mode has set it. *)
Theorem count_mode_thresholds (ext : Externals) (h : list event) :
  (forall np_random input_table genome pfmfile ncpus zscore gc random_state
          progress,
      let run :=
        scan_regionfile_to_table ext np_random input_table genome "count"
          pfmfile ncpus zscore gc random_state progress h in
      (forall fpr threshold,
          set_threshold fpr threshold ∈ calls_of (snd run) ->
          fpr = Some (FPR ext) /\ threshold = None)
      /\ (is_Ok (fst run) = true ->
          set_threshold (Some (FPR ext)) None ∈ calls_of (snd run)))
  /\ (forall inputfile pfmfile filepath_or_buffer nreport fpr cutoff bed
             scan_rc table score_table bgfile genome ncpus zscore gcnorm
             random_state progress,
         let run :=
           scan_to_file ext inputfile pfmfile filepath_or_buffer nreport fpr
             cutoff bed scan_rc table score_table bgfile genome ncpus zscore
             gcnorm random_state progress h in
         (forall fpr' threshold,
             set_threshold fpr' threshold ∈ calls_of (snd run) ->
             fpr' = default_fpr ext fpr cutoff /\ threshold = cutoff)
         /\ (is_Ok (fst run) = true -> score_table = false ->
             set_threshold (default_fpr ext fpr cutoff) cutoff
               ∈ calls_of (snd run))).
Proof.
  split.
  - intros np_random input_table genome pfmfile ncpus zscore gc random_state
      progress run. subst run.
    destruct (check_motifs (MotifConfig_new ext) (os_path_exists ext) pfmfile)
      as [pf | e1] eqn:Hpf;
      [destruct (read_regions ext input_table) as [idx | e2] eqn:Hidx;
       [destruct (background_size ext np_random random_state idx genome)
          as [size | e3] eqn:Hsize | ] | ].
    1: { destruct (calls_in_scan_regionfile_to_table ext np_random input_table
                     genome "count" pfmfile ncpus zscore gc random_state
                     progress pf idx size Hpf Hidx Hsize h) as [Hpre Hall].
         unfold scan_regionfile_to_table_calls in Hpre, Hall.
         cbn [String.eqb Ascii.eqb Bool.eqb] in Hpre, Hall.
         split.
         - intros fpr threshold Hin.
           apply (elem_of_prefix _ _ _ Hpre) in Hin. elem_cases Hin.
           injection Hin as -> ->. split; reflexivity.
         - intros Hok. rewrite (Hall Hok).
           apply elem_of_app. right. apply list_elem_of_here. }
    all: destruct (scan_regionfile_to_table_early ext np_random input_table
                     genome "count" pfmfile ncpus zscore gc random_state
                     progress h) as [e He];
      [intros pf' idx' size' Hpf' Hidx' Hsize'; congruence | ];
      rewrite He; (split; [intros ? ? Hin; inversion Hin | discriminate]).
  - intros inputfile pfmfile filepath_or_buffer nreport fpr cutoff bed
      scan_rc table score_table bgfile genome ncpus zscore gcnorm
      random_state progress run. subst run.
    destruct (scan_to_file_calls_prefix ext inputfile pfmfile
                filepath_or_buffer nreport fpr cutoff bed scan_rc table
                score_table bgfile genome ncpus zscore gcnorm random_state
                progress h) as (pf & Hpre & Hall).
    unfold scan_to_file_calls, scan_to_file_setup_calls,
      scan_to_file_result_call in Hpre, Hall.
    split.
    + intros fpr' threshold Hin.
      apply (elem_of_prefix _ _ _ Hpre) in Hin.
      destruct (truthy_str genome), (truthy_str bgfile), score_table, table;
        elem_cases Hin; injection Hin as -> ->; split; reflexivity.
    + intros Hok ->. rewrite (Hall Hok).
      apply elem_of_app. left. apply elem_of_app. right.
      apply elem_of_app. right. apply list_elem_of_here.
Qed.

(** ** The header and the threshold in score-table mode *)

(** In score-table mode the header has no false-positive-rate line, whatever
    [fpr] and [cutoff] are. *)
Lemma score_table_header_no_fpr_line ext inputfile pfmfile fpr cutoff bgfile
    genome zscore gcnorm fo :
  emits no_fpr_line
    (scan_to_file_header ext inputfile pfmfile fpr cutoff true bgfile genome
       zscore gcnorm fo).
Proof.
  unfold scan_to_file_header. rewrite andb_false_r.
  emits_steps; reflexivity.
Qed.

(** In score-table mode no run sets a threshold on the engine. *)
Lemma score_table_sets_no_threshold ext inputfile pfmfile filepath_or_buffer
    nreport fpr cutoff bed scan_rc table bgfile genome ncpus zscore gcnorm
    random_state progress h fpr' threshold :
  set_threshold fpr' threshold
    ∉ calls_of (snd (scan_to_file ext inputfile pfmfile filepath_or_buffer
                       nreport fpr cutoff bed scan_rc table true bgfile
                       genome ncpus zscore gcnorm random_state progress h)).
Proof.
  intros Hin.
  destruct (scan_to_file_calls_prefix ext inputfile pfmfile
              filepath_or_buffer nreport fpr cutoff bed scan_rc table true
              bgfile genome ncpus zscore gcnorm random_state progress h)
    as (pf & Hpre & _).
  apply (elem_of_prefix _ _ _ Hpre) in Hin.
  unfold scan_to_file_calls, scan_to_file_setup_calls,
    scan_to_file_result_call in Hin.
  destruct (truthy_str genome), (truthy_str bgfile), table; elem_cases Hin.
Qed.

(** Outside score-table mode, with neither rate nor cutoff given, the
    threshold a run sets is the default false-positive rate. *)
Lemma threshold_falls_back_to_default ext inputfile pfmfile
    filepath_or_buffer nreport bed scan_rc table bgfile genome ncpus zscore
    gcnorm random_state progress h :
  let run :=
    scan_to_file ext inputfile pfmfile filepath_or_buffer nreport None None
      bed scan_rc table false bgfile genome ncpus zscore gcnorm random_state
      progress h in
  (forall fpr' threshold,
      set_threshold fpr' threshold ∈ calls_of (snd run) ->
      fpr' = Some (FPR ext) /\ threshold = None)
  /\ (is_Ok (fst run) = true ->
      set_threshold (Some (FPR ext)) None ∈ calls_of (snd run)).
Proof.
  intros run. subst run.
  destruct (scan_to_file_calls_prefix ext inputfile pfmfile
              filepath_or_buffer nreport None None bed scan_rc table false
              bgfile genome ncpus zscore gcnorm random_state progress h)
    as (pf & Hpre & Hall).
  unfold scan_to_file_calls, scan_to_file_setup_calls,
    scan_to_file_result_call in Hpre, Hall.
  cbn [default_fpr] in Hpre, Hall.
  split.
  - intros fpr' threshold Hin.
    apply (elem_of_prefix _ _ _ Hpre) in Hin.
    destruct (truthy_str genome), (truthy_str bgfile), table;
      elem_cases Hin; injection Hin as -> ->; split; reflexivity.
  - intros Hok. rewrite (Hall Hok).
    apply elem_of_app. left. apply elem_of_app. right.
    apply elem_of_app. right. apply list_elem_of_here.
Qed.

(** C1.  A run in score-table mode with a cutoff of 0.9 in the demo world:
    it completes, sets no threshold on the engine and prints no
    false-positive-rate line, but its header has the explicit-threshold
    line. *)
Theorem score_table_header_has_threshold_line :
  let run :=
    scan_to_file demo_ext "in.fa" PyNone DestNone 1 (Some (1 # 100))
      (Some (9 # 10)) false true false true None (Some "hg38") None true true
      None None [] in
  fst run = Ok tt
  /\ take 5 (lines_of (snd run))
     = ["# GimmeMotifs version 0.18.0"; "# Input: in.fa";
        "# Motifs: /motifs/default.pfm"; "# Threshold: 0.9";
        "# Scoring: GC frequency normalized z-score"]
  /\ existsb is_threshold_line (lines_of (snd run)) = true
  /\ existsb is_fpr_line (lines_of (snd run)) = false
  /\ calls_of (snd run)
     = [Scanner_new None None None; set_motifs (PyStr "/motifs/default.pfm");
        set_genome (Some "hg38");
        set_background None (Some "hg38") 18 true;
        best_score (SrcFasta demo_fasta) (Some true) true true].
Proof. repeat split; vm_compute; reflexivity. Qed.

(** ** The background-size estimate *)

Lemma omap_lookup_all {A} (a : list A) (positions : list nat) :
  Forall (fun i => i < length a)%nat positions ->
  Forall2 (fun i x => a !! i = Some x) positions
    (omap (fun i => a !! i) positions).
Proof.
  induction 1 as [ | i positions Hi _ IH]; [constructor | ].
  cbn [omap list_omap]. destruct (lookup_lt_is_Some_2 a i Hi) as [x Hx].
  rewrite Hx. constructor; [exact Hx | exact IH].
Qed.

Lemma random_choice_sample {A} ext st (a : list A) (size : nat) :
  permutes ext -> (size <= length a)%nat ->
  exists sample,
    let positions := take size (fst (np_permutation ext st (length a))) in
    random_choice ext st a size
    = (Ok sample, snd (np_permutation ext st (length a)))
    /\ length sample = size /\ length positions = size /\ NoDup positions
    /\ Forall2 (fun i x => a !! i = Some x) positions sample.
Proof.
  intros Hperm Hsize. unfold random_choice.
  destruct (Nat.ltb_spec (length a) size) as [ | _]; [lia | ].
  specialize (Hperm st (length a)).
  destruct (np_permutation ext st (length a)) as [perm st'].
  cbn [fst snd] in *. eexists. cbv zeta.
  split; [reflexivity | ].
  assert (Hlen : length (take size perm) = size).
  { apply length_take_le. rewrite Hperm, length_seq. exact Hsize. }
  assert (Hall : Forall2 (fun i x => a !! i = Some x) (take size perm)
                   (omap (fun i => a !! i) (take size perm))).
  { apply omap_lookup_all, Forall_take. apply Forall_forall. intros i Hi.
    rewrite Hperm in Hi. apply elem_of_seq in Hi. lia. }
  split; [ | split; [exact Hlen | split; [ | exact Hall]]].
  - rewrite <- (Forall2_length _ _ _ Hall). exact Hlen.
  - apply (sublist_NoDup (take size perm) perm); [ | apply sublist_take].
    rewrite Hperm. apply NoDup_seq.
Qed.

Lemma int_of_float_int (z : Z) : int_of_float (inject_Z z) = z.
Proof. unfold int_of_float. simpl. apply Z.quot_1_r. Qed.

Lemma int_of_float_half (a b : nat) :
  int_of_float ((Z.of_nat a + Z.of_nat b) # 2)
  = ((Z.of_nat a + Z.of_nat b) / 2)%Z.
Proof. unfold int_of_float. simpl. apply Z.quot_div_nonneg; lia. Qed.

(** The estimate is the middle of the sorted lengths, or the mean of the
    two middle ones with the fraction dropped. *)
Lemma median_size_middle (seqs : list string) (z : Z) :
  median_size seqs = Ok z ->
  let n := length seqs in
  exists sorted,
    Sorted le sorted /\ sorted ≡ₚ map String.length seqs
    /\ if Nat.odd n then
         exists x, sorted !! (n / 2)%nat = Some x /\ z = Z.of_nat x
       else
         exists a b,
           sorted !! (n / 2 - 1)%nat = Some a /\ sorted !! (n / 2)%nat = Some b
           /\ z = ((Z.of_nat a + Z.of_nat b) / 2)%Z.
Proof.
  intros Hz n. exists (merge_sort le (map String.length seqs)).
  split; [apply (Sorted_merge_sort le) | split; [apply merge_sort_Permutation | ]].
  revert Hz. unfold median_size, np_median. rewrite length_map. fold n.
  destruct (n =? 0)%nat; [discriminate | ].
  destruct (Nat.odd n).
  - destruct (merge_sort le (map String.length seqs) !! (n / 2)%nat) as [x | ];
      [ | discriminate].
    cbn [fmap option_fmap option_map]. rewrite int_of_float_int.
    intros [= <-]. exists x. split; reflexivity.
  - destruct (merge_sort le (map String.length seqs) !! (n / 2 - 1)%nat) as [a | ];
      [ | discriminate].
    destruct (merge_sort le (map String.length seqs) !! (n / 2)%nat) as [b | ];
      [ | discriminate].
    rewrite int_of_float_half. intros [= <-]. exists a, b. repeat split.
Qed.

(** There is an estimate as soon as there is a sequence. *)
Lemma median_size_total (seqs : list string) :
  seqs <> [] -> exists z, median_size seqs = Ok z.
Proof.
  intros Hne. unfold median_size, np_median. rewrite length_map.
  assert (Hn : (0 < length seqs)%nat) by (destruct seqs; simpl; [congruence | lia]).
  assert (Hlen : length (merge_sort le (map String.length seqs)) = length seqs).
  { rewrite merge_sort_Permutation. apply length_map. }
  destruct (Nat.eqb_spec (length seqs) 0) as [ | _]; [lia | ].
  assert (Hmid : (length seqs / 2 < length seqs)%nat)
    by (apply Nat.div_lt; lia).
  destruct (lookup_lt_is_Some_2 (merge_sort le (map String.length seqs))
              (length seqs / 2)%nat) as [b Hb]; [lia | ].
  destruct (lookup_lt_is_Some_2 (merge_sort le (map String.length seqs))
              (length seqs / 2 - 1)%nat) as [a Ha]; [lia | ].
  rewrite Ha, Hb. destruct (Nat.odd (length seqs)); eexists; reflexivity.
Qed.

Lemma scan_regionfile_to_table_returns ext np_random input_table genome
    scoring pfmfile ncpus zscore gc random_state progress h :
  is_Ok (fst (scan_regionfile_to_table ext np_random input_table genome
                scoring pfmfile ncpus zscore gc random_state progress h))
  = true ->
  exists pf idx size,
    check_motifs (MotifConfig_new ext) (os_path_exists ext) pfmfile = Ok pf
    /\ read_regions ext input_table = Ok idx
    /\ background_size ext np_random random_state idx genome = Ok size.
Proof.
  intros Hok.
  destruct (check_motifs (MotifConfig_new ext) (os_path_exists ext) pfmfile)
    as [pf | e1] eqn:Hpf;
    [destruct (read_regions ext input_table) as [idx | e2] eqn:Hidx;
     [destruct (background_size ext np_random random_state idx genome)
        as [size | e3] eqn:Hsize | ] | ].
  1: { exists pf, idx, size. repeat split. exact Hsize. }
  all: destruct (scan_regionfile_to_table_early ext np_random input_table
                   genome scoring pfmfile ncpus zscore gc random_state
                   progress h) as [e He];
    [intros pf' idx' size' Hpf' Hidx' Hsize'; congruence | ];
    rewrite He in Hok; discriminate Hok.
Qed.

(** C3.  Given numpy's contract for permutations: fewer than 1000 regions
    are all used, and no generator is touched; of 1000 or more, exactly 1000
    are drawn, at 1000 distinct positions that the given random source
    chooses; the estimate is the median of the lengths of the sequences of
    the sample, with the fraction dropped, and exists when there is a
    sequence; with the same regions and the same state of the random source
    given, the sample, the state the source is left in and the estimate are
    the same whatever the rest of the world; and the estimate is the size
    [scan_regionfile_to_table] hands to the background of the engine. *)
Theorem background_size_estimate (ext : Externals) (np_random : rng)
    (random_state : option rng) (regions : list string)
    (genome : option string) :
  permutes ext ->
  ((length regions < 1000)%nat ->
   check_regions ext np_random random_state regions
   = (Ok regions, np_random, random_state))
  /\ ((1000 <= length regions)%nat ->
      exists sample,
        let positions :=
          take 1000 (fst (np_permutation ext
                            (drawn_from np_random random_state)
                            (length regions))) in
        fst (fst (check_regions ext np_random random_state regions))
        = Ok sample
        /\ length sample = 1000%nat /\ length positions = 1000%nat
        /\ NoDup positions
        /\ Forall2 (fun i x => regions !! i = Some x) positions sample)
  /\ (forall sample fa,
         fst (fst (check_regions ext np_random random_state regions))
         = Ok sample ->
         as_fasta ext (SrcRegions sample) genome = Ok fa ->
         background_size ext np_random random_state regions genome
         = median_size (fa_seqs fa)
         /\ (fa_seqs fa <> [] -> exists z, median_size (fa_seqs fa) = Ok z)
         /\ forall z,
              median_size (fa_seqs fa) = Ok z ->
              let n := length (fa_seqs fa) in
              exists sorted,
                Sorted le sorted
                /\ sorted ≡ₚ map String.length (fa_seqs fa)
                /\ if Nat.odd n then
                     exists x, sorted !! (n / 2)%nat = Some x /\ z = Z.of_nat x
                   else
                     exists a b,
                       sorted !! (n / 2 - 1)%nat = Some a
                       /\ sorted !! (n / 2)%nat = Some b
                       /\ z = ((Z.of_nat a + Z.of_nat b) / 2)%Z)
  /\ (forall np_random' st,
         fst (fst (check_regions ext np_random (Some st) regions))
         = fst (fst (check_regions ext np_random' (Some st) regions))
         /\ snd (check_regions ext np_random (Some st) regions)
            = snd (check_regions ext np_random' (Some st) regions)
         /\ background_size ext np_random (Some st) regions genome
            = background_size ext np_random' (Some st) regions genome)
  /\ (forall input_table scoring pfmfile ncpus zscore gc progress h,
         let run :=
           scan_regionfile_to_table ext np_random input_table genome scoring
             pfmfile ncpus zscore gc random_state progress h in
         is_Ok (fst run) = true ->
         exists idx size,
           read_regions ext input_table = Ok idx
           /\ background_size ext np_random random_state idx genome = Ok size
           /\ set_background None None (inject_Z size) gc
                ∈ calls_of (snd run)).
Proof.
  intros Hperm. split; [ | split; [ | split; [ | split]]].
  - intros Hfew. unfold check_regions.
    destruct (Nat.leb_spec 1000 (length regions)) as [ | _]; [lia | reflexivity].
  - intros Hmany. unfold check_regions.
    destruct (Nat.leb_spec 1000 (length regions)) as [_ | ]; [ | lia].
    destruct random_state as [st | ]; cbn [drawn_from default].
    + destruct (random_choice_sample ext st regions 1000 Hperm Hmany)
        as (sample & Hrun & Hrest).
      exists sample. cbv zeta in *. rewrite Hrun. split; [reflexivity | exact Hrest].
    + destruct (random_choice_sample ext np_random regions 1000 Hperm Hmany)
        as (sample & Hrun & Hrest).
      exists sample. cbv zeta in *. rewrite Hrun. split; [reflexivity | exact Hrest].
  - intros sample fa Hsample Hfa. split; [ | split].
    + unfold background_size. rewrite Hsample, Hfa. reflexivity.
    + apply median_size_total.
    + apply median_size_middle.
  - intros np_random' st.
    assert (Hsame : fst (fst (check_regions ext np_random (Some st) regions))
                    = fst (fst (check_regions ext np_random' (Some st) regions))
                    /\ snd (check_regions ext np_random (Some st) regions)
                       = snd (check_regions ext np_random' (Some st) regions)).
    { unfold check_regions. destruct (1000 <=? length regions)%nat.
      - destruct (random_choice ext st regions 1000). split; reflexivity.
      - split; reflexivity. }
    destruct Hsame as [Hsample Hstate]. split; [exact Hsample | split; [exact Hstate | ]].
    unfold background_size. rewrite Hsample. reflexivity.
  - intros input_table scoring pfmfile ncpus zscore gc progress h run Hok.
    subst run.
    destruct (scan_regionfile_to_table_returns _ _ _ _ _ _ _ _ _ _ _ _ Hok)
      as (pf & idx & size & Hpf & Hidx & Hsize).
    exists idx, size. split; [exact Hidx | split; [exact Hsize | ]].
    destruct (calls_in_scan_regionfile_to_table ext np_random input_table
                genome scoring pfmfile ncpus zscore gc random_state progress
                pf idx size Hpf Hidx Hsize h) as [_ Hall].
    rewrite (Hall Hok). unfold scan_regionfile_to_table_calls.
    apply elem_of_app. left. do 3 apply list_elem_of_further.
    apply list_elem_of_here.
Qed.

Lemma demo_permutes setup closing : permutes (demo_world setup closing).
Proof. intros st n. simpl. symmetry. apply Permutation_rev. Qed.

(** C3 in the demo world: of 1200 regions, 1000 are drawn, and the estimate
    is the length of their sequences. *)
Lemma background_size_estimate_witness :
  (exists sample,
      fst (fst (check_regions demo_ext 0%Z (Some 7%Z) many_regions)) = Ok sample
      /\ length sample = 1000%nat)
  /\ background_size demo_ext 0%Z (Some 7%Z) many_regions (Some "hg38") = Ok 8%Z.
Proof.
  destruct (background_size_estimate demo_ext 0%Z (Some 7%Z) many_regions
              (Some "hg38") (demo_permutes _ _))
    as (_ & Hmany & _ & _ & _).
  destruct Hmany as (sample & Hsample & Hlen & _).
  { unfold many_regions. rewrite length_replicate. lia. }
  split.
  - exists sample. split; [exact Hsample | exact Hlen].
  - vm_compute. reflexivity.
Defined.

(** ** The table of [scan_regionfile_to_table] *)

Section Table.
Context (ext : Externals).

Lemma returns_at_bind {A B} (m : M A) (f : A -> M B) h Q :
  (forall a, fst (m h) = Ok a -> returns_at (f a) (h ++ snd (m h))%list Q) ->
  returns_at (bind m f) h Q.
Proof.
  intros Hf b. rewrite bind_run.
  destruct (m h) as [[a | e] e1]; cbn [fst snd] in *; [ | discriminate].
  intros Hb. rewrite app_assoc. apply (Hf a eq_refl b Hb).
Qed.

Lemma pd_DataFrame_shape data index columns dt df :
  pd_DataFrame ext data index columns dt = Ok df ->
  df_index df = index /\ df_columns df = columns /\ df_dtype df = dt
  /\ length (df_values df) = length index
  /\ Forall (fun row => length row = length columns) (df_values df).
Proof.
  unfold pd_DataFrame.
  destruct (Nat.eqb_spec (length data) (length index)) as [Hrows | ];
    [ | discriminate].
  destruct (forallb _ data) eqn:Hcols; [ | discriminate].
  cbn [andb]. intros [= <-]. cbn.
  repeat split; [rewrite length_map; exact Hrows | ].
  apply Forall_map. rewrite forallb_forall in Hcols.
  apply Forall_forall. intros row Hrow. rewrite length_map.
  apply Nat.eqb_eq, Hcols. apply list_elem_of_In, Hrow.
Qed.

Lemma pd_DataFrame_total data index columns dt :
  length data = length index ->
  Forall (fun row => length row = length columns) data ->
  exists df, pd_DataFrame ext data index columns dt = Ok df.
Proof.
  intros Hrows Hcols. unfold pd_DataFrame.
  rewrite (proj2 (Nat.eqb_eq _ _) Hrows).
  assert (Hall : forallb (fun row => (length row =? length columns)%nat) data
                 = true).
  { apply forallb_forall. intros row Hrow. apply Nat.eqb_eq.
    rewrite Forall_forall in Hcols. apply Hcols, list_elem_of_In, Hrow. }
  rewrite Hall. eexists. reflexivity.
Qed.

(** The table a run returns. *)
Lemma scan_regionfile_to_table_table np_random input_table genome scoring
    pfmfile ncpus zscore gc random_state progress h :
  returns_at
    (scan_regionfile_to_table ext np_random input_table genome scoring
       pfmfile ncpus zscore gc random_state progress) h
    (fun hf df =>
       exists idx,
         read_regions ext input_table = Ok idx
         /\ df_index df = idx
         /\ df_columns df = eng_motif_ids ext (calls_of hf)
         /\ df_dtype df = table_dtype scoring
         /\ length (df_values df) = length idx
         /\ Forall (fun row => length row = length (df_columns df))
              (df_values df)).
Proof.
  unfold scan_regionfile_to_table.
  apply returns_at_bind. intros pf _.
  apply returns_at_bind. intros idx Hidx. cbn [lift fst] in Hidx.
  apply returns_at_bind. intros size _. cbv zeta.
  do 4 (apply returns_at_bind; intros [] _).
  apply returns_at_bind. intros scores _.
  apply returns_at_bind. intros names Hnames.
  intros df Hdf. cbn [lift fst] in Hdf.
  apply pd_DataFrame_shape in Hdf as (Hi & Hc & Hd & Hrows & Hcols).
  exists idx. rewrite Hc.
  split; [exact Hidx | split; [exact Hi | split]].
  - cbn [motif_ids lift fst snd] in *. rewrite !app_nil_r in Hnames. rewrite !app_nil_r.
    injection Hnames as <-. reflexivity.
  - split; [exact Hd | split; [exact Hrows | exact Hcols]].
Qed.

Lemma bind_ok {A B} (m : M A) (f : A -> M B) h a e1 :
  m h = (Ok a, e1) ->
  bind m f h = (fst (f a (h ++ e1)), e1 ++ snd (f a (h ++ e1)))%list.
Proof. intros Hm. rewrite bind_run, Hm. reflexivity. Qed.

Lemma engine_call_ok c h :
  (forall cs, eng_setup ext cs = None) ->
  engine_call ext c h = (Ok tt, [EvCall c]).
Proof. intros Hsetup. unfold engine_call. rewrite Hsetup. reflexivity. Qed.

(** The scores of a run in which the engine answers as agreed. *)
Lemma collect_scores {A} (answer : list call -> stream (list A))
    (wrap : A -> cell) (c : call) (idx : list string) h :
  answers_shaped ext idx answer ->
  exists scores,
    bind (engine_iter answer c) (fun it => collect it (map wrap)) h
    = (Ok scores, [EvCall c])
    /\ length scores = length idx
    /\ Forall (fun row =>
                 length row
                 = length (eng_motif_ids ext (calls_of h ++ [c])))
         scores.
Proof.
  intros Hshape. destruct (Hshape (calls_of h ++ [c])%list) as (Hend & Hrows & Hcols).
  exists (map (map wrap) (fst (answer (calls_of h ++ [c])%list))).
  split; [ | split].
  - rewrite bind_run. cbn [engine_iter fst snd]. unfold collect.
    rewrite Hend. reflexivity.
  - rewrite length_map. exact Hrows.
  - apply Forall_map. eapply Forall_impl; [exact Hcols | ].
    intros row Hrow. cbn. rewrite length_map. exact Hrow.
Qed.

(** Lines 105-123 in such a run. *)
Lemma scores_of_run scoring idx zscore gc h :
  (forall cs, eng_setup ext cs = None) ->
  (if String.eqb scoring "count" then answers_shaped ext idx (eng_count ext)
   else answers_shaped ext idx (eng_best_score ext)) ->
  exists scores evs,
    (if String.eqb scoring "count" then
       engine_call ext (set_threshold (Some (FPR ext)) None) >>
       let* it :=
         engine_iter (eng_count ext) (count (SrcRegions idx) None None) in
       collect it (map CInt)
     else
       let* it :=
         engine_iter (eng_best_score ext)
           (best_score (SrcRegions idx) None zscore gc) in
       collect it (map CFloat)) h
    = (Ok scores, evs)
    /\ length scores = length idx
    /\ Forall (fun row =>
                 length row
                 = length (eng_motif_ids ext (calls_of (h ++ evs))))
         scores.
Proof.
  intros Hsetup Hshape. destruct (String.eqb scoring "count").
  - erewrite bind_ok by (apply engine_call_ok, Hsetup).
    destruct (collect_scores (eng_count ext) CInt
                (count (SrcRegions idx) None None) idx
                (h ++ [EvCall (set_threshold (Some (FPR ext)) None)])
                Hshape) as (scores & Hrun & Hrows & Hcols).
    rewrite Hrun. eexists _, _. cbn [fst snd].
    split; [reflexivity | split; [exact Hrows | ]].
    rewrite app_assoc, calls_of_app. exact Hcols.
  - destruct (collect_scores (eng_best_score ext) CFloat
                (best_score (SrcRegions idx) None zscore gc) idx h Hshape)
      as (scores & Hrun & Hrows & Hcols).
    rewrite Hrun. eexists _, _.
    split; [reflexivity | split; [exact Hrows | ]].
    rewrite calls_of_app. exact Hcols.
Qed.

Lemma scan_regionfile_to_table_total np_random input_table genome scoring
    pfmfile ncpus zscore gc random_state progress h pf idx size :
  check_motifs (MotifConfig_new ext) (os_path_exists ext) pfmfile = Ok pf ->
  read_regions ext input_table = Ok idx ->
  background_size ext np_random random_state idx genome = Ok size ->
  (forall cs, eng_setup ext cs = None) ->
  (if String.eqb scoring "count" then answers_shaped ext idx (eng_count ext)
   else answers_shaped ext idx (eng_best_score ext)) ->
  is_Ok (fst (scan_regionfile_to_table ext np_random input_table genome
                scoring pfmfile ncpus zscore gc random_state progress h))
  = true.
Proof.
  intros Hpf Hidx Hsize Hsetup Hshape. unfold scan_regionfile_to_table.
  rewrite Hpf. erewrite bind_ok by reflexivity.
  rewrite Hidx. erewrite bind_ok by reflexivity.
  cbv zeta. rewrite Hsize. erewrite bind_ok by reflexivity.
  do 4 (erewrite bind_ok by (apply engine_call_ok, Hsetup)).
  cbn [fst snd]. rewrite !app_nil_r.
  match goal with
  | |- context [bind _ _ ?hh] =>
      destruct (scores_of_run scoring idx zscore gc hh Hsetup Hshape)
        as (scores & evs & Hrun & Hrows & Hcols)
  end.
  erewrite bind_ok by exact Hrun.
  erewrite bind_ok by reflexivity. cbn [lift fst snd]. rewrite ?app_nil_r.
  destruct (pd_DataFrame_total scores idx _
              (if String.eqb scoring "count" then dtype_int else dtype_float16)
              Hrows Hcols) as [df ->].
  reflexivity.
Qed.

End Table.

(** C6.  A table [scan_regionfile_to_table] returns has the regions of the
    file as its index, in their order, and the motif identifiers the engine
    has resolved as its columns, in their order, with one row per region
    and one cell per motif in each; its value type is integer for
    [scoring = "count"] and the 16-bit float for [scoring = "score"].  And
    the function does return a table when the motifs resolve, the regions
    are read, there is a size estimate, and the engine accepts its
    configuration and answers with one row per region and one value per
    motif. *)
Theorem table_shape_and_dtype (ext : Externals) (np_random : rng)
    (input_table : string) (genome : option string) (scoring : string)
    (pfmfile : pyobj) (ncpus : option Z) (zscore gc : bool)
    (random_state : option rng) (progress : option bool) (h : list event) :
  let run :=
    scan_regionfile_to_table ext np_random input_table genome scoring
      pfmfile ncpus zscore gc random_state progress h in
  (forall df,
      fst run = Ok df ->
      exists idx,
        read_regions ext input_table = Ok idx
        /\ df_index df = idx
        /\ df_columns df = eng_motif_ids ext (calls_of (h ++ snd run))
        /\ length (df_values df) = length idx
        /\ Forall (fun row => length row = length (df_columns df))
             (df_values df)
        /\ (scoring = "count" -> df_dtype df = dtype_int)
        /\ (scoring = "score" -> df_dtype df = dtype_float16))
  /\ (forall pf idx size,
         check_motifs (MotifConfig_new ext) (os_path_exists ext) pfmfile
         = Ok pf ->
         read_regions ext input_table = Ok idx ->
         background_size ext np_random random_state idx genome = Ok size ->
         (forall cs, eng_setup ext cs = None) ->
         (if String.eqb scoring "count"
          then answers_shaped ext idx (eng_count ext)
          else answers_shaped ext idx (eng_best_score ext)) ->
         exists df, fst run = Ok df).
Proof.
  intros run. split.
  - intros df Hdf.
    destruct (scan_regionfile_to_table_table ext np_random input_table genome
                scoring pfmfile ncpus zscore gc random_state progress h df Hdf)
      as (idx & Hidx & Hi & Hc & Hd & Hrows & Hcols).
    exists idx. repeat split; try assumption.
    + intros ->. exact Hd.
    + intros ->. exact Hd.
  - intros pf idx size Hpf Hidx Hsize Hsetup Hshape.
    pose proof (scan_regionfile_to_table_total ext np_random input_table
                  genome scoring pfmfile ncpus zscore gc random_state
                  progress h pf idx size Hpf Hidx Hsize Hsetup Hshape) as Hok.
    fold run in Hok. destruct (fst run) as [df | e]; [ | discriminate].
    exists df. reflexivity.
Qed.

Lemma demo_answers_shaped {A} (rows : list (list A)) :
  length rows = 2%nat -> Forall (fun row => length row = 2%nat) rows ->
  answers_shaped demo_ext ["chr1:0-8"; "chr1:20-28"] (fun _ => (rows, None)).
Proof. intros Hrows Hcols cs. repeat split; assumption. Qed.

(** C6 in the demo world: two regions, two motifs, counts and scores. *)
Lemma table_shape_and_dtype_witness :
  (exists df,
      fst (scan_regionfile_to_table demo_ext 0%Z "regions.txt" (Some "hg38")
             "count" PyNone None true true None None []) = Ok df
      /\ df_index df = ["chr1:0-8"; "chr1:20-28"]
      /\ df_columns df = ["MA0001"; "MA0002"]
      /\ df_dtype df = dtype_int)
  /\ (exists df,
         fst (scan_regionfile_to_table demo_ext 0%Z "regions.txt"
                (Some "hg38") "score" PyNone None true true None None [])
         = Ok df
         /\ df_dtype df = dtype_float16).
Proof.
  split.
  - destruct (table_shape_and_dtype demo_ext 0%Z "regions.txt" (Some "hg38")
                "count" PyNone None true true None None []) as [Hshape Htotal].
    destruct (Htotal (PyStr "/motifs/default.pfm")
                ["chr1:0-8"; "chr1:20-28"] 8%Z eq_refl eq_refl eq_refl
                (fun _ => eq_refl)) as [df Hdf].
    { apply demo_answers_shaped; [reflexivity | repeat constructor]. }
    exists df. split; [exact Hdf | ].
    destruct (Hshape df Hdf) as (idx & Hidx & Hi & Hc & _ & _ & Hd & _).
    injection Hidx as <-. repeat split; [exact Hi | exact Hc | exact (Hd eq_refl)].
  - destruct (table_shape_and_dtype demo_ext 0%Z "regions.txt" (Some "hg38")
                "score" PyNone None true true None None []) as [Hshape Htotal].
    destruct (Htotal (PyStr "/motifs/default.pfm")
                ["chr1:0-8"; "chr1:20-28"] 8%Z eq_refl eq_refl eq_refl
                (fun _ => eq_refl)) as [df Hdf].
    { apply demo_answers_shaped; [reflexivity | repeat constructor]. }
    exists df. split; [exact Hdf | ].
    destruct (Hshape df Hdf) as (idx & _ & _ & _ & _ & _ & _ & Hd).
    exact (Hd eq_refl).
Defined.

(** * Further properties of the code *)

(** ** What the locus pattern can find *)

Lemma star_cls_sound {R} (cls : ascii -> bool) (s : string)
    (k : string -> option R) (r : R) :
  star_cls cls s k = Some r ->
  exists run rest,
    s = run +:+ rest /\ all_chars cls run = true /\ k rest = Some r.
Proof.
  induction s as [ | c s IH]; simpl.
  - intros Hk. exists EmptyString, EmptyString. repeat split. exact Hk.
  - destruct (cls c) eqn:Hc.
    + destruct (star_cls cls s k) as [r' | ] eqn:Hstar.
      * intros [= <-]. destruct (IH eq_refl) as (run & rest & -> & Hrun & Hk).
        exists (String c run), rest. simpl. rewrite Hc, Hrun. repeat split.
        exact Hk.
      * intros Hk. exists EmptyString, (String c s). repeat split. exact Hk.
    + intros Hk. exists EmptyString, (String c s). repeat split. exact Hk.
Qed.

Lemma rmatch_group_plus_sound {R} (cls : ascii -> bool) (s : string)
    (caps : list string) (k : string -> list string -> option R) (r : R) :
  rmatch (RGroup (RPlus cls)) s caps k = Some r ->
  exists run rest,
    s = run +:+ rest /\ run <> EmptyString /\ all_chars cls run = true
    /\ k rest (caps ++ [run])%list = Some r.
Proof.
  cbn [rmatch]. destruct s as [ | c s]; [discriminate | ].
  destruct (cls c) eqn:Hc; [ | discriminate].
  intros Hstar. apply star_cls_sound in Hstar as (run & rest & -> & Hrun & Hk).
  exists (String c run), rest. rewrite <- string_app_cons in Hk.
  rewrite consumed_app in Hk. simpl. rewrite Hc, Hrun.
  repeat split; [discriminate | exact Hk].
Qed.

Lemma rmatch_char_sound {R} (c : ascii) (s : string) (caps : list string)
    (k : string -> list string -> option R) (r : R) :
  rmatch (RChar c) s caps k = Some r ->
  exists s', s = String c s' /\ k s' caps = Some r.
Proof.
  cbn [rmatch]. destruct s as [ | c' s']; [discriminate | ].
  destruct (Ascii.eqb_spec c c') as [<- | ]; [ | discriminate].
  intros Hk. exists s'. split; [reflexivity | exact Hk].
Qed.

Lemma rmatch_seq_p_sound (s : string) (m : list string) :
  rmatch seq_p s [] (fun _ caps => Some caps) = Some m ->
  exists contig start end_ post,
    s = contig +:+ ":" +:+ start +:+ "-" +:+ end_ +:+ post
    /\ m = [contig; start; end_] /\ locus_shaped contig start end_.
Proof.
  unfold seq_p. rewrite rmatch_seq. intros H.
  apply rmatch_group_plus_sound in H as (contig & r1 & -> & Hc & Hcs & H).
  rewrite rmatch_seq in H.
  apply rmatch_char_sound in H as (r2 & -> & H).
  rewrite rmatch_seq in H.
  apply rmatch_group_plus_sound in H as (start & r3 & -> & Hs & Hss & H).
  rewrite rmatch_seq in H.
  apply rmatch_char_sound in H as (r4 & -> & H).
  apply rmatch_group_plus_sound in H as (end_ & post & -> & He & Hes & H).
  injection H as <-.
  exists contig, start, end_, post. repeat split; assumption.
Qed.

(** X1.  Whenever the pattern is found in an identifier, the identifier
    contains [contig:start-end] with a contig free of blanks and colons and
    two non-empty runs of digits, and the groups are these three parts: the
    [int(m.group(2))] of [_format_line] is always given decimal digits. *)
Theorem seq_p_search_sound (seq_id : string) (m : list string) :
  re_search seq_p seq_id = Some m ->
  exists pre contig start end_ post,
    seq_id = pre +:+ contig +:+ ":" +:+ start +:+ "-" +:+ end_ +:+ post
    /\ m = [contig; start; end_]
    /\ group m 1 = contig /\ group m 2 = start
    /\ locus_shaped contig start end_.
Proof.
  induction seq_id as [ | c s IH]; cbn [re_search].
  - destruct (rmatch seq_p EmptyString [] _) as [caps | ] eqn:Hm; [ | discriminate].
    intros [= <-]. apply rmatch_seq_p_sound in Hm
      as (contig & start & end_ & post & Hs & -> & Hshape).
    exists EmptyString, contig, start, end_, post. repeat split; try apply Hshape.
    exact Hs.
  - destruct (rmatch seq_p (String c s) [] _) as [caps | ] eqn:Hm.
    + intros [= <-]. apply rmatch_seq_p_sound in Hm
        as (contig & start & end_ & post & Hs & -> & Hshape).
      exists EmptyString, contig, start, end_, post.
      repeat split; try apply Hshape. exact Hs.
    + intros Hrest. destruct (IH Hrest)
        as (pre & contig & start & end_ & post & -> & -> & Hg1 & Hg2 & Hshape).
      exists (String c pre), contig, start, end_, post.
      repeat split; try apply Hshape.
Qed.

Lemma seq_p_search_sound_witness :
  exists pre contig start end_ post,
    "peak7 chr2:150-300 x" = pre +:+ contig +:+ ":" +:+ start +:+ "-" +:+ end_ +:+ post
    /\ [contig; start; end_] = ["chr2"; "150"; "300"].
Proof.
  destruct (seq_p_search_sound "peak7 chr2:150-300 x" ["chr2"; "150"; "300"]
              eq_refl)
    as (pre & contig & start & end_ & post & Hs & Hm & _).
  exists pre, contig, start, end_, post. split; [exact Hs | symmetry; exact Hm].
Defined.

(** ** Strands, instances and resolved motif sources *)

(** X2.  [_format_line] produces a line exactly for the strands +1 and -1;
    for any other strand it raises [KeyError] with that strand, in BED and
    in annotation mode alike, whatever the identifier looks like. *)
Theorem format_line_strand (ext : Externals) (seq seq_id : string)
    (motif : Motif) (score : Q) (pos strand : Z) (bed : bool) :
  (is_Ok (_format_line ext seq seq_id motif score pos strand bed) = true
   <-> strand = 1%Z \/ strand = (-1)%Z)
  /\ (strand <> 1%Z -> strand <> (-1)%Z ->
      _format_line ext seq seq_id motif score pos strand bed
      = Raise (KeyError strand)).
Proof.
  assert (Hbad : strand <> 1%Z -> strand <> (-1)%Z ->
                 strandmap strand = Raise (KeyError strand)).
  { intros H1 H2. unfold strandmap.
    destruct (Z.eqb_spec strand (-1)%Z); [contradiction | ].
    destruct (Z.eqb_spec strand 1%Z); [contradiction | reflexivity]. }
  assert (Hraise : strand <> 1%Z -> strand <> (-1)%Z ->
                   _format_line ext seq seq_id motif score pos strand bed
                   = Raise (KeyError strand)).
  { intros H1 H2. unfold _format_line. rewrite (Hbad H1 H2).
    destruct bed; [destruct (re_search seq_p seq_id) | ]; reflexivity. }
  split; [split | exact Hraise].
  - intros Hok. destruct (Z.eq_dec strand 1%Z) as [ | H1]; [left; assumption | ].
    destruct (Z.eq_dec strand (-1)%Z) as [ | H2]; [right; assumption | ].
    rewrite (Hraise H1 H2) in Hok. discriminate Hok.
  - intros Hvalid. unfold _format_line. rewrite (strandmap_valid _ Hvalid).
    destruct bed; [destruct (re_search seq_p seq_id) | ]; reflexivity.
Qed.

Lemma length_substring (s : string) : forall a m,
  String.length (substring a m s) = Nat.min m (String.length s - a).
Proof.
  induction s as [ | c s IH]; intros a m.
  - destruct a, m; reflexivity.
  - destruct a as [ | a].
    + destruct m as [ | m]; [reflexivity | ]. simpl. rewrite (IH 0%nat m).
      rewrite Nat.sub_0_r. reflexivity.
    + simpl. apply IH.
Qed.

(** X3.  The motif instance of an annotation line never has more characters
    than the motif, and has exactly as many when the match lies within the
    sequence. *)
Theorem motif_instance_length (seq : string) (pos : Z) (len : nat) :
  (0 <= pos)%Z ->
  (String.length (py_slice seq pos (pos + Z.of_nat len)) <= len)%nat
  /\ ((pos + Z.of_nat len <= Z.of_nat (String.length seq))%Z ->
      String.length (py_slice seq pos (pos + Z.of_nat len)) = len).
Proof.
  intros Hpos. rewrite (py_slice_from_pos seq pos len Hpos), length_substring.
  split; [lia | intros Hin; lia].
Qed.

Lemma motif_instance_length_witness :
  String.length (py_slice "ACGTACGTACGTACGTACGT" 5 (5 + Z.of_nat 8)) = 8%nat.
Proof.
  destruct (motif_instance_length "ACGTACGTACGTACGTACGT" 5 8 ltac:(lia))
    as [_ Hexact].
  apply Hexact. simpl. lia.
Defined.

(** X4.  What [check_motifs] returns is the list it was given or a path that
    exists, and checking it again returns it unchanged: the entry
    operations can hand a resolved source to one another. *)
Theorem check_motifs_resolved (config : MotifConfig)
    (path_exists : string -> bool) (x r : pyobj) :
  check_motifs config path_exists x = Ok r ->
  ((exists m0 rest, x = PyList (m0 :: rest) /\ r = x
                    /\ hasattr m0 "to_ppm" = true)
   \/ (exists path, r = PyStr path /\ path_exists path = true
                    /\ (x = PyStr path
                        \/ x = PyNone
                           /\ exists db,
                                get_default_params config !! "motif_db" = Some db
                                /\ path = path_join (get_motif_dir config) db)))
  /\ check_motifs config path_exists r = Ok r.
Proof.
  intros Hrun.
  assert (Hshape :
            (exists m0 rest, x = PyList (m0 :: rest) /\ r = x
                             /\ hasattr m0 "to_ppm" = true)
            \/ (exists path, r = PyStr path /\ path_exists path = true
                             /\ (x = PyStr path
                                 \/ x = PyNone
                                    /\ exists db,
                                         get_default_params config !! "motif_db"
                                         = Some db
                                         /\ path = path_join (get_motif_dir config) db))).
  { destruct x as [ | s | items | m | attrs]; simpl in Hrun.
    - destruct (get_default_params config !! "motif_db") as [db | ] eqn:Hdb;
        [ | discriminate].
      destruct (path_exists _) eqn:Hex; simpl in Hrun; [ | discriminate].
      injection Hrun as <-. right. eexists. split; [reflexivity | ].
      split; [exact Hex | right]. split; [reflexivity | ].
      exists db. split; reflexivity.
    - destruct (path_exists s) eqn:Hex; simpl in Hrun; [ | discriminate].
      injection Hrun as <-. right. exists s. repeat split; [exact Hex | left; reflexivity].
    - destruct items as [ | m0 rest]; [discriminate | ].
      destruct (hasattr m0 "to_ppm") eqn:Hattr; simpl in Hrun; [ | discriminate].
      injection Hrun as <-. left. exists m0, rest. repeat split. exact Hattr.
    - discriminate.
    - discriminate. }
  split; [exact Hshape | ].
  destruct Hshape as [(m0 & rest & -> & -> & Hattr) | (path & -> & Hex & _)].
  - apply check_motifs_list_ok, Hattr.
  - simpl. rewrite Hex. reflexivity.
Qed.

Lemma check_motifs_resolved_witness :
  check_motifs demo_config (fun p => String.eqb p "/motifs/default.pfm")
    (PyStr "/motifs/default.pfm")
  = Ok (PyStr "/motifs/default.pfm").
Proof.
  apply (check_motifs_resolved demo_config
           (fun p => String.eqb p "/motifs/default.pfm") PyNone
           (PyStr "/motifs/default.pfm") eq_refl).
Defined.

(** ** The rows the table generators yield *)

Section Rows.
Context (ext : Externals).
Hypothesis Hprint : prints_always ext.

Lemma print_ok line fo h : print ext line fo h = (Ok tt, [EvPrint fo line]).
Proof. unfold print, act. rewrite Hprint. reflexivity. Qed.

Lemma for_rows_table {A} (fo : sink) (ids : list string)
    (render : A -> list string) (rows : list A) :
  forall i h,
    for_rows (fun i x =>
                let* id := list_getitem ids i in
                print ext (id +:+ tab +:+ join tab (render x)) fo) i rows h
    = (if (length (drop i ids) <? length rows)%nat
       then Raise (IndexError "list index out of range") else Ok tt,
       map (EvPrint fo)
         (zip_with (fun id x => table_line id (render x)) (drop i ids) rows)).
Proof.
  induction rows as [ | x rows IH]; intros i h.
  - cbn [for_rows ret length]. rewrite Nat.ltb_irrefl || idtac.
    destruct (drop i ids); reflexivity.
  - cbn [for_rows]. rewrite bind_run. unfold list_getitem at 1.
    destruct (ids !! i) as [id | ] eqn:Hid.
    + rewrite (drop_S _ _ _ Hid). rewrite bind_run. cbn [ret fst snd].
      rewrite print_ok. cbn [fst snd]. rewrite IH. cbn [fst snd app].
      cbn [zip_with map length]. reflexivity.
    + rewrite bind_run. cbn [raise].
      rewrite (drop_ge ids i) by (apply lookup_ge_None; exact Hid).
      reflexivity.
Qed.

Lemma enumerate_table {A} (fo : sink) (ids : list string)
    (render : A -> list string) (it : stream A) h :
  enumerate it (fun i x =>
                  let* id := list_getitem ids i in
                  print ext (id +:+ tab +:+ join tab (render x)) fo) h
  = (rows_outcome ids it,
     map (EvPrint fo)
       (zip_with (fun id x => table_line id (render x)) ids (fst it))).
Proof.
  unfold enumerate, rows_outcome. rewrite bind_run, for_rows_table.
  rewrite drop_0. destruct (length ids <? length (fst it))%nat; [reflexivity | ].
  destruct (snd it); cbn; rewrite app_nil_r; reflexivity.
Qed.

End Rows.

Lemma lines_of_prints (fo : sink) (lines : list string) :
  lines_of (map (EvPrint fo) lines) = lines.
Proof. induction lines as [ | l lines IH]; [reflexivity | ]. cbn. f_equal. exact IH. Qed.

Lemma calls_of_print (h : list event) (fo : sink) (line : string) :
  calls_of (h ++ [EvPrint fo line]) = calls_of h.
Proof. rewrite calls_of_app. cbn. apply app_nil_r. Qed.

(** X5.  On a sink that takes every line, [_scan_table] and
    [_scan_score_table] write the header row and then one row per row of
    the engine, each starting with the identifier at the same position, up
    to the shorter of the two; they raise [IndexError] when the engine has
    more rows than there are identifiers, and otherwise end as the engine's
    iterator ends, with the rows before its exception already written. *)
Theorem table_rows_written (ext : Externals) (fa : Fasta)
    (motifs : list Motif) (nreport : Z) (scan_rc zscore gcnorm : bool)
    (fo : sink) (h : list event) :
  prints_always ext ->
  (let it :=
     eng_count ext
       (calls_of h ++ [count (SrcFasta fa) (Some nreport) (Some scan_rc)]) in
   let run :=
     _scan_table ext fa motifs nreport scan_rc
       (fun line => print ext line fo) h in
   fst run = rows_outcome (fa_ids fa) it
   /\ lines_of (snd run)
      = table_header motifs
        :: zip_with (fun id counts => table_line id (map str_int counts))
             (fa_ids fa) (fst it))
  /\ (let it :=
        eng_best_score ext
          (calls_of h
           ++ [best_score (SrcFasta fa) (Some scan_rc) zscore gcnorm]) in
      let run :=
        _scan_score_table ext fa motifs scan_rc zscore gcnorm
          (fun line => print ext line fo) h in
      fst run = rows_outcome (fa_ids fa) it
      /\ lines_of (snd run)
         = table_header motifs
           :: zip_with
                (fun id scores => table_line id (map (format_float "4f") scores))
                (fa_ids fa) (fst it)).
Proof.
  intros Hprint. split; cbv zeta.
  - unfold _scan_table. rewrite bind_run, (print_ok ext Hprint).
    cbn [fst snd]. rewrite bind_run. cbn [engine_iter fst snd].
    rewrite calls_of_print.
    rewrite (enumerate_table ext Hprint fo (fa_ids fa) (map str_int)).
    cbn [fst snd]. split; [reflexivity | ].
    cbn [app lines_of omap list_omap]. unfold table_header. f_equal.
    apply lines_of_prints.
  - unfold _scan_score_table. rewrite bind_run, (print_ok ext Hprint).
    cbn [fst snd]. rewrite bind_run. cbn [engine_iter fst snd].
    rewrite calls_of_print.
    rewrite (enumerate_table ext Hprint fo (fa_ids fa) (map (format_float "4f"))).
    cbn [fst snd]. split; [reflexivity | ].
    cbn [app lines_of omap list_omap]. unfold table_header. f_equal.
    apply lines_of_prints.
Qed.

(** X5 in the demo world, and with one identifier for the two rows of the
    engine: the first row is written, then the index error. *)
Lemma table_rows_written_witness :
  (let run :=
     _scan_table demo_ext demo_fasta [motif_a; motif_b] 1 true
       (fun line => print demo_ext line Stdout) [] in
   fst run = Ok tt /\ length (lines_of (snd run)) = 3%nat)
  /\ (let run :=
        _scan_table demo_ext one_seq_fasta [motif_a; motif_b] 1 true
          (fun line => print demo_ext line Stdout) [] in
      fst run = Raise (IndexError "list index out of range")
      /\ lines_of (snd run)
         = [table_header [motif_a; motif_b];
            table_line "seq42" ["1"; "0"]]).
Proof.
  split.
  - destruct (table_rows_written demo_ext demo_fasta [motif_a; motif_b] 1
                true true true Stdout [] (fun _ _ _ => eq_refl))
      as [[Hrun Hlines] _].
    cbv zeta. rewrite Hrun, Hlines. split; reflexivity.
  - destruct (table_rows_written demo_ext one_seq_fasta [motif_a; motif_b] 1
                true true true Stdout [] (fun _ _ _ => eq_refl))
      as [[Hrun Hlines] _].
    cbv zeta. rewrite Hrun, Hlines. split; reflexivity.
Defined.

(** ** Where [scan_to_file] writes *)

(** X6.  Whatever happens in a run of [scan_to_file], every line goes to
    the one sink of the destination, the only directory made and the only
    file opened or closed are those of a path destination, and with
    standard output or a stream handed in the run touches no file at all;
    and when the motif source is refused, the run does nothing, not even
    opening the output file. *)
Theorem scan_to_file_stays_within_destination (ext : Externals)
    (inputfile : string) (pfmfile : pyobj) (filepath_or_buffer : dest)
    (nreport : Z) (fpr cutoff : option Q)
    (bed scan_rc table score_table : bool) (bgfile genome : option string)
    (ncpus : option Z) (zscore gcnorm : bool) (random_state : option rng)
    (progress : option bool) (h : list event) :
  let run :=
    scan_to_file ext inputfile pfmfile filepath_or_buffer nreport fpr cutoff
      bed scan_rc table score_table bgfile genome ncpus zscore gcnorm
      random_state progress h in
  Forall (within_destination ext filepath_or_buffer) (snd run)
  /\ (forall e,
         check_motifs (MotifConfig_new ext) (os_path_exists ext) pfmfile
         = Raise e ->
         run = (Raise e, [])).
Proof.
  intros run. subst run. split.
  - revert h. change (emits (within_destination ext filepath_or_buffer)
                        (scan_to_file ext inputfile pfmfile filepath_or_buffer
                           nreport fpr cutoff bed scan_rc table score_table
                           bgfile genome ncpus zscore gcnorm random_state
                           progress)).
    unfold scan_to_file.
    apply emits_bind; [apply emits_lift | intros pf].
    apply emits_bind_ret.
    { unfold scan_to_file_sink. destruct filepath_or_buffer as [ | hd | path].
      - apply emits_ret.
      - apply emits_ret.
      - emits_steps; simpl; exists path; split; reflexivity. }
    intros opened h Hopened. apply scan_to_file_sink_returns in Hopened.
    assert (Hfo : fst opened = sink_of ext filepath_or_buffer)
      by (subst opened; destruct filepath_or_buffer; reflexivity).
    cbv zeta. rewrite Hfo.
    apply emits_bind.
    { apply emits_scan_to_file_header. intros line. reflexivity. }
    intros _. apply emits_bind.
    { apply emits_scan_to_file_scanner. intros c. exact I. }
    intros fa. apply emits_bind.
    { apply emits_scan_to_file_lines; [intros line; reflexivity | intros c; exact I]. }
    intros _. apply emits_scan_to_file_close. intros Hclose.
    subst opened. destruct filepath_or_buffer as [ | hd | path];
      simpl in Hclose; try discriminate.
    simpl. exists path. split; reflexivity.
  - intros e He. apply scan_to_file_refused, He.
Qed.

(** ** Edge cases of [scan_regionfile_to_table] *)

(** X7.  A region file without regions: when the sequences of no regions
    are no sequences, [scan_regionfile_to_table] raises before it makes an
    engine, and the exception is the [ValueError] of converting the median
    of nothing to an integer unless [as_fasta] itself raised. *)
Theorem empty_region_file_raises (ext : Externals) (np_random : rng)
    (input_table : string) (genome : option string) (scoring : string)
    (pfmfile pf : pyobj) (ncpus : option Z) (zscore gc : bool)
    (random_state : option rng) (progress : option bool) (h : list event) :
  check_motifs (MotifConfig_new ext) (os_path_exists ext) pfmfile = Ok pf ->
  read_regions ext input_table = Ok [] ->
  (forall fa, as_fasta ext (SrcRegions []) genome = Ok fa -> fa_seqs fa = []) ->
  exists e,
    scan_regionfile_to_table ext np_random input_table genome scoring
      pfmfile ncpus zscore gc random_state progress h = (Raise e, [])
    /\ (is_Ok (as_fasta ext (SrcRegions []) genome) = true ->
        e = ValueError "cannot convert float NaN to integer").
Proof.
  intros Hpf Hidx Hempty.
  assert (Hsize : exists e,
             background_size ext np_random random_state [] genome = Raise e
             /\ (is_Ok (as_fasta ext (SrcRegions []) genome) = true ->
                 e = ValueError "cannot convert float NaN to integer")).
  { unfold background_size, check_regions. cbn [length Nat.leb fst].
    destruct (as_fasta ext (SrcRegions []) genome) as [fa | e] eqn:Hfa.
    - rewrite (Hempty fa eq_refl). eexists. split; reflexivity.
    - exists e. split; [reflexivity | discriminate]. }
  destruct Hsize as (e & Hsize & He). exists e. split; [ | exact He].
  unfold scan_regionfile_to_table.
  rewrite Hpf. erewrite bind_ok by reflexivity.
  rewrite Hidx. erewrite bind_ok by reflexivity.
  rewrite bind_run. cbn [lift fst snd]. rewrite Hsize. reflexivity.
Qed.

Lemma empty_region_file_raises_witness :
  scan_regionfile_to_table (with_regions demo_ext []) 0%Z "regions.txt"
    (Some "hg38") "count" PyNone None true true None None []
  = (Raise (ValueError "cannot convert float NaN to integer"), []).
Proof.
  destruct (empty_region_file_raises (with_regions demo_ext []) 0%Z
              "regions.txt" (Some "hg38") "count" PyNone
              (PyStr "/motifs/default.pfm") None true true None None []
              eq_refl eq_refl)
    as (e & Hrun & He).
  - intros fa [= <-]. reflexivity.
  - rewrite Hrun, (He eq_refl). reflexivity.
Defined.

(** X8.  [scan_regionfile_to_table] does not check [scoring]: any value
    other than ["count"] runs exactly as ["score"] does, best scores in a
    16-bit float table, with no threshold set. *)
Theorem scoring_other_than_count_is_score (ext : Externals) (np_random : rng)
    (input_table : string) (genome : option string) (scoring : string)
    (pfmfile : pyobj) (ncpus : option Z) (zscore gc : bool)
    (random_state : option rng) (progress : option bool) (h : list event) :
  scoring <> "count" ->
  scan_regionfile_to_table ext np_random input_table genome scoring pfmfile
    ncpus zscore gc random_state progress h
  = scan_regionfile_to_table ext np_random input_table genome "score" pfmfile
      ncpus zscore gc random_state progress h
  /\ (forall fpr threshold,
         set_threshold fpr threshold
           ∉ calls_of (snd (scan_regionfile_to_table ext np_random input_table
                              genome scoring pfmfile ncpus zscore gc
                              random_state progress h)))
  /\ (forall df,
         fst (scan_regionfile_to_table ext np_random input_table genome
                scoring pfmfile ncpus zscore gc random_state progress h)
         = Ok df ->
         df_dtype df = dtype_float16).
Proof.
  intros Hscoring.
  assert (Heqb : String.eqb scoring "count" = false)
    by (apply String.eqb_neq; exact Hscoring).
  split; [ | split].
  - unfold scan_regionfile_to_table. rewrite Heqb. reflexivity.
  - intros fpr threshold Hin.
    destruct (check_motifs (MotifConfig_new ext) (os_path_exists ext) pfmfile)
      as [pf | e1] eqn:Hpf;
      [destruct (read_regions ext input_table) as [idx | e2] eqn:Hidx;
       [destruct (background_size ext np_random random_state idx genome)
          as [size | e3] eqn:Hsize | ] | ].
    1: { destruct (calls_in_scan_regionfile_to_table ext np_random input_table
                     genome scoring pfmfile ncpus zscore gc random_state
                     progress pf idx size Hpf Hidx Hsize h) as [Hpre _].
         apply (elem_of_prefix _ _ _ Hpre) in Hin.
         unfold scan_regionfile_to_table_calls in Hin. rewrite Heqb in Hin.
         elem_cases Hin. }
    all: destruct (scan_regionfile_to_table_early ext np_random input_table
                     genome scoring pfmfile ncpus zscore gc random_state
                     progress h) as [e He];
      [intros pf' idx' size' Hpf' Hidx' Hsize'; congruence | ];
      rewrite He in Hin; inversion Hin.
  - intros df Hdf.
    destruct (scan_regionfile_to_table_table ext np_random input_table genome
                scoring pfmfile ncpus zscore gc random_state progress h df Hdf)
      as (idx & _ & _ & _ & Hd & _).
    rewrite Hd. unfold table_dtype. rewrite Heqb. reflexivity.
Qed.

Lemma scoring_other_than_count_is_score_witness :
  scan_regionfile_to_table demo_ext 0%Z "regions.txt" (Some "hg38") "counts"
    PyNone None true true None None []
  = scan_regionfile_to_table demo_ext 0%Z "regions.txt" (Some "hg38") "score"
      PyNone None true true None None [].
Proof.
  apply (scoring_other_than_count_is_score demo_ext 0%Z "regions.txt"
           (Some "hg38") "counts" PyNone None true true None None []).
  discriminate.
Defined.

(** ** The median of the lengths *)

Lemma median_size_permutation (seqs1 seqs2 : list string) :
  seqs1 ≡ₚ seqs2 -> median_size seqs1 = median_size seqs2.
Proof.
  intros Hperm. unfold median_size, np_median.
  assert (Hlens : map String.length seqs1 ≡ₚ map String.length seqs2)
    by (apply Permutation_map, Hperm).
  assert (Hsorted : merge_sort le (map String.length seqs1)
                    = merge_sort le (map String.length seqs2)).
  { apply (Sorted_unique le).
    - apply (Sorted_merge_sort le).
    - apply (Sorted_merge_sort le).
    - rewrite !merge_sort_Permutation. exact Hlens. }
  rewrite Hsorted, !length_map, (Permutation_length Hperm). reflexivity.
Qed.

Lemma median_size_bounds (seqs : list string) (lo hi : nat) (z : Z) :
  Forall (fun s => lo <= String.length s <= hi)%nat seqs ->
  median_size seqs = Ok z ->
  (Z.of_nat lo <= z <= Z.of_nat hi)%Z.
Proof.
  intros Hall Hz.
  destruct (median_size_middle seqs z Hz) as (sorted & _ & Hperm & Hmid).
  assert (Hin : forall i x, sorted !! i = Some x -> (lo <= x <= hi)%nat).
  { intros i x Hx. apply list_elem_of_lookup_2 in Hx. rewrite Hperm in Hx.
    apply list_elem_of_fmap in Hx as (s & -> & Hs).
    rewrite Forall_forall in Hall. apply Hall, Hs. }
  destruct (Nat.odd (length seqs)).
  - destruct Hmid as (x & Hx & ->). specialize (Hin _ _ Hx). lia.
  - destruct Hmid as (a & b & Ha & Hb & ->).
    pose proof (Hin _ _ Ha). pose proof (Hin _ _ Hb).
    split.
    + apply Z.div_le_lower_bound; lia.
    + apply Z.div_le_upper_bound; lia.
Qed.

(** X9.  The size estimate does not depend on the order of the sequences,
    lies between the shortest and the longest of them, and is their common
    length when they all have the same length. *)
Theorem median_size_order_and_range (seqs : list string) :
  (forall seqs', seqs ≡ₚ seqs' -> median_size seqs' = median_size seqs)
  /\ (forall lo hi z,
         Forall (fun s => lo <= String.length s <= hi)%nat seqs ->
         median_size seqs = Ok z ->
         (Z.of_nat lo <= z <= Z.of_nat hi)%Z)
  /\ (forall len,
         seqs <> [] ->
         Forall (fun s => String.length s = len) seqs ->
         median_size seqs = Ok (Z.of_nat len)).
Proof.
  split; [ | split].
  - intros seqs' Hperm. symmetry. apply median_size_permutation, Hperm.
  - apply median_size_bounds.
  - intros len Hne Hall.
    destruct (median_size_total seqs Hne) as [z Hz]. rewrite Hz. f_equal.
    assert (Hrange : (Z.of_nat len <= z <= Z.of_nat len)%Z).
    { apply (median_size_bounds seqs len len z); [ | exact Hz].
      eapply Forall_impl; [exact Hall | ]. intros s ->. lia. }
    lia.
Qed.

Example median_size_examples :
  median_size ["ACGT"; "AC"; "ACGTACGT"] = Ok 4%Z
  /\ median_size ["ACGT"; "AC"; "ACGTACGT"; "ACGTA"] = Ok 4%Z
  /\ median_size ["ACGTACGT"; "ACGTA"] = Ok 6%Z.
Proof. repeat split; vm_compute; reflexivity. Qed.

(** ** The dictionary of [scan_to_best_match] *)

Lemma engine_call_events (ext : Externals) (c : call) (h : list event) :
  snd (engine_call ext c h) = [EvCall c].
Proof. unfold engine_call. destruct (eng_setup ext _); reflexivity. Qed.

Lemma engine_call_step {B} (ext : Externals) (c : call) (k : M B)
    (h : list event) (b : B) :
  fst ((engine_call ext c >> k) h) = Ok b ->
  fst (k (h ++ [EvCall c])%list) = Ok b.
Proof.
  rewrite bind_run. pose proof (engine_call_events ext c h) as Hev.
  destruct (engine_call ext c h) as [[[] | e] ev]; cbn [fst snd] in *.
  - subst ev. trivial.
  - discriminate.
Qed.

Lemma scan_to_best_match_result (ext : Externals) (fname : seqsrc)
    (pfmfile : pyobj) (ncpus : option Z) (genome : option string)
    (score zscore gc : bool) (random_state : option rng)
    (progress : option bool) (h : list event)
    (result : gmap string (list best)) :
  fst (scan_to_best_match ext fname pfmfile ncpus genome score zscore gc
         random_state progress h) = Ok result ->
  exists pf motifs,
    check_motifs (MotifConfig_new ext) (os_path_exists ext) pfmfile = Ok pf
    /\ loaded_motifs ext pf = Ok motifs
    /\ result
       = foldl (fun acc scores => append_row acc motifs scores)
           (list_to_map (map (fun m => (motif_id m, [])) motifs))
           (best_rows ext
              (calls_of h
               ++ scan_to_best_match_calls pf fname ncpus genome score zscore
                    gc random_state progress) score).
Proof.
  unfold scan_to_best_match. intros Hrun.
  destruct (check_motifs (MotifConfig_new ext) (os_path_exists ext) pfmfile)
    as [pf | e] eqn:Hpf; [ | discriminate].
  exists pf. rewrite bind_run in Hrun. cbn [lift fst snd] in Hrun.
  do 4 apply engine_call_step in Hrun.
  rewrite bind_run in Hrun. cbn [lift fst snd] in Hrun.
  fold (loaded_motifs ext pf) in Hrun.
  destruct (loaded_motifs ext pf) as [motifs | e] eqn:Hmotifs;
    [ | discriminate].
  exists motifs. split; [reflexivity | split; [reflexivity | ]].
  cbv zeta in Hrun. cbn [fst snd] in Hrun.
  rewrite <- !app_assoc in Hrun. cbn [app] in Hrun.
  unfold best_rows, scan_to_best_match_calls.
  destruct score.
  - rewrite !bind_run in Hrun.
    cbn [engine_iter ret fst snd] in Hrun. unfold collect in Hrun.
    cbn [fst snd] in Hrun. rewrite calls_of_app in Hrun.
    cbn [calls_of omap] in Hrun. rewrite <- app_assoc in Hrun.
    cbn [app] in Hrun.
    destruct (snd (eng_best_score ext _)) eqn:Hend in Hrun;
      cbn in Hrun; [discriminate | ].
    injection Hrun as <-. rewrite map_id. reflexivity.
  - rewrite !bind_run in Hrun.
    cbn [engine_iter ret fst snd] in Hrun. unfold collect in Hrun.
    cbn [fst snd] in Hrun. rewrite calls_of_app in Hrun.
    cbn [calls_of omap] in Hrun. rewrite <- app_assoc in Hrun.
    cbn [app] in Hrun.
    destruct (snd (eng_best_match ext _)) eqn:Hend in Hrun;
      cbn in Hrun; [discriminate | ].
    injection Hrun as <-. rewrite map_id. reflexivity.
Qed.

Lemma append_row_dom (acc : gmap string (list best)) (motifs : list Motif)
    (scores : list best) :
  dom (append_row acc motifs scores) = dom acc.
Proof.
  unfold append_row. revert acc.
  induction (zip motifs scores) as [ | ms l IH]; intros acc; [reflexivity | ].
  cbn [foldl]. rewrite IH. apply dom_alter_L.
Qed.

Lemma append_row_other (acc : gmap string (list best)) (motifs : list Motif)
    (scores : list best) (id : string) :
  id ∉ map motif_id motifs ->
  append_row acc motifs scores !! id = acc !! id.
Proof.
  unfold append_row. revert acc scores.
  induction motifs as [ | m0 motifs IH]; intros acc scores Hid;
    [reflexivity | ].
  destruct scores as [ | v0 scores]; [reflexivity | ].
  cbn [zip zip_with foldl fst snd]. cbn [map] in Hid.
  apply not_elem_of_cons in Hid as [Hne Hid].
  rewrite IH by exact Hid. apply lookup_alter_ne. congruence.
Qed.

Lemma append_row_lookup (acc : gmap string (list best)) (motifs : list Motif)
    (scores : list best) (j : nat) (m : Motif) :
  NoDup (map motif_id motifs) ->
  motifs !! j = Some m ->
  append_row acc motifs scores !! motif_id m
  = (fun l => l ++ option_list (scores !! j))%list <$> acc !! motif_id m.
Proof.
  revert acc scores j.
  induction motifs as [ | m0 motifs IH]; intros acc scores j Hnd Hj;
    [discriminate | ].
  cbn [map] in Hnd. apply NoDup_cons in Hnd as [Hm0 Hnd].
  destruct scores as [ | v0 scores].
  - unfold append_row. cbn [zip zip_with foldl]. rewrite lookup_nil.
    cbn [option_list]. destruct (acc !! motif_id m) as [l | ]; cbn;
      [rewrite app_nil_r | ]; reflexivity.
  - change (append_row acc (m0 :: motifs) (v0 :: scores))
      with (append_row (alter (fun l => l ++ [v0])%list (motif_id m0) acc)
              motifs scores).
    destruct j as [ | j].
    + injection Hj as ->. rewrite append_row_other by exact Hm0.
      rewrite lookup_alter_eq. reflexivity.
    + cbn [lookup list_lookup] in Hj |- *.
      rewrite (IH _ scores j Hnd Hj). rewrite lookup_alter_ne; [reflexivity | ].
      intros Heq. apply Hm0. rewrite Heq.
      apply list_elem_of_fmap_2, (list_elem_of_lookup_2 _ j), Hj.
Qed.

Lemma append_rows_dom (acc : gmap string (list best)) (motifs : list Motif)
    (rows : list (list best)) :
  dom (foldl (fun acc scores => append_row acc motifs scores) acc rows)
  = dom acc.
Proof.
  revert acc. induction rows as [ | row rows IH]; intros acc; [reflexivity | ].
  cbn [foldl]. rewrite IH. apply append_row_dom.
Qed.

Lemma append_rows_lookup (acc : gmap string (list best)) (motifs : list Motif)
    (rows : list (list best)) (j : nat) (m : Motif) (l : list best) :
  NoDup (map motif_id motifs) ->
  motifs !! j = Some m ->
  acc !! motif_id m = Some l ->
  foldl (fun acc scores => append_row acc motifs scores) acc rows
    !! motif_id m
  = Some (l ++ column j rows)%list.
Proof.
  intros Hnd Hj. revert acc l.
  induction rows as [ | row rows IH]; intros acc l Hacc.
  - cbn. rewrite app_nil_r. exact Hacc.
  - cbn [foldl].
    rewrite (IH _ (l ++ option_list (row !! j))%list).
    + unfold column. cbn [omap list_omap]. rewrite <- app_assoc.
      destruct (row !! j); reflexivity.
    + rewrite (append_row_lookup acc motifs row j m Hnd Hj), Hacc.
      reflexivity.
Qed.

Lemma column_full {A} (j : nat) (rows : list (list A)) :
  Forall (fun row => j < length row)%nat rows ->
  length (column j rows) = length rows.
Proof.
  induction 1 as [ | row rows Hrow _ IH]; [reflexivity | ].
  unfold column. cbn [omap list_omap].
  destruct (lookup_lt_is_Some_2 row j Hrow) as [x ->].
  cbn [length]. f_equal. exact IH.
Qed.

(** X10.  The dictionary [scan_to_best_match] returns has exactly the
    identifiers of the motifs as keys.  When no two motifs share an
    identifier, the list under the identifier of motif [j] is column [j] of
    the rows of the engine, in the order of the rows, a row too short for
    the motif adding nothing; it has one entry for each row when every row
    has a score for every motif. *)
Theorem scan_to_best_match_columns (ext : Externals) (fname : seqsrc)
    (pfmfile : pyobj) (ncpus : option Z) (genome : option string)
    (score zscore gc : bool) (random_state : option rng)
    (progress : option bool) (h : list event)
    (result : gmap string (list best)) :
  fst (scan_to_best_match ext fname pfmfile ncpus genome score zscore gc
         random_state progress h) = Ok result ->
  exists pf motifs,
    check_motifs (MotifConfig_new ext) (os_path_exists ext) pfmfile = Ok pf
    /\ loaded_motifs ext pf = Ok motifs
    /\ dom result = list_to_set (map motif_id motifs)
    /\ let rows :=
         best_rows ext
           (calls_of h
            ++ scan_to_best_match_calls pf fname ncpus genome score zscore gc
                 random_state progress) score in
       NoDup (map motif_id motifs) ->
       forall j m,
         motifs !! j = Some m ->
         result !! motif_id m = Some (column j rows)
         /\ (Forall (fun row => length motifs <= length row)%nat rows ->
             length (column j rows) = length rows).
Proof.
  intros Hrun.
  destruct (scan_to_best_match_result ext fname pfmfile ncpus genome score
              zscore gc random_state progress h result Hrun)
    as (pf & motifs & Hpf & Hmotifs & ->).
  exists pf, motifs. split; [exact Hpf | split; [exact Hmotifs | split]].
  - rewrite append_rows_dom, dom_list_to_map_L. f_equal.
    rewrite <- list_fmap_compose. reflexivity.
  - intros rows Hnd j m Hj. split.
    + rewrite (append_rows_lookup _ motifs rows j m [] Hnd Hj); [reflexivity | ].
      apply elem_of_list_to_map_1.
      * rewrite <- list_fmap_compose. exact Hnd.
      * apply (list_elem_of_fmap_2 (fun m => (motif_id m, [])) motifs m).
        apply (list_elem_of_lookup_2 _ j), Hj.
    + intros Hwide. apply column_full.
      eapply Forall_impl; [exact Hwide | ]. intros row Hrow. cbv beta in Hrow.
      apply lookup_lt_Some in Hj. lia.
Qed.

Lemma scan_to_best_match_columns_witness :
  exists result,
    fst (scan_to_best_match demo_ext (SrcFile "in.fa") PyNone None
           (Some "hg38") true false false None None []) = Ok result
    /\ dom result = {[ "MA0001"; "MA0002" ]}
    /\ result !! "MA0001" = Some [BestScore (3 # 2); BestScore (2 # 1)]
    /\ result !! "MA0002" = Some [BestScore (1 # 4); BestScore ((-1) # 8)].
Proof.
  destruct (fst (scan_to_best_match demo_ext (SrcFile "in.fa") PyNone None
                   (Some "hg38") true false false None None []))
    as [result | e] eqn:Hrun; [ | vm_compute in Hrun; discriminate].
  exists result. split; [reflexivity | ].
  destruct (scan_to_best_match_columns demo_ext (SrcFile "in.fa") PyNone None
              (Some "hg38") true false false None None [] result Hrun)
    as (pf & motifs & Hpf & Hmotifs & Hdom & Hcol).
  vm_compute in Hpf. injection Hpf as <-.
  vm_compute in Hmotifs. injection Hmotifs as <-.
  assert (Hnd : NoDup (map motif_id [motif_a; motif_b])).
  { apply NoDup_cons. split; [ | apply NoDup_singleton].
    intros Hin. apply list_elem_of_singleton in Hin. discriminate. }
  split; [ | split].
  - rewrite Hdom. cbn. set_solver.
  - apply (Hcol Hnd 0%nat motif_a eq_refl).
  - apply (Hcol Hnd 1%nat motif_b eq_refl).
Defined.

(** ** The lines of [_scan_normal] *)

Lemma lines_of_app (a b : list event) :
  lines_of (a ++ b) = (lines_of a ++ lines_of b)%list.
Proof. apply omap_app. Qed.

(** A loop that completes has written what its rounds write, in order. *)
Lemma for_rows_lines {A} (body : nat -> A -> M unit)
    (expected : nat -> A -> list (result string)) :
  (forall i x h,
      fst (body i x h) = Ok tt ->
      Ok <$> lines_of (snd (body i x h)) = expected i x) ->
  forall rows i h,
    fst (for_rows body i rows h) = Ok tt ->
    Ok <$> lines_of (snd (for_rows body i rows h))
    = concat (imap (fun k => expected (i + k)%nat) rows).
Proof.
  intros Hbody rows.
  induction rows as [ | x rows IH]; intros i h Hrun; [reflexivity | ].
  cbn [for_rows] in Hrun |- *. rewrite bind_run in Hrun |- *.
  specialize (Hbody i x h).
  destruct (body i x h) as [[[] | e] ev]; cbn [fst snd] in *;
    [ | discriminate].
  rewrite lines_of_app, fmap_app, (IH _ _ Hrun), (Hbody eq_refl).
  rewrite imap_cons. cbn [concat]. rewrite Nat.add_0_r. do 2 f_equal.
  apply imap_ext. intros k y _. cbn. f_equal. lia.
Qed.

Lemma for_each_lines {A} (body : A -> M unit)
    (expected : A -> list (result string)) :
  (forall x h,
      fst (body x h) = Ok tt ->
      Ok <$> lines_of (snd (body x h)) = expected x) ->
  forall xs h,
    fst (for_each xs body h) = Ok tt ->
    Ok <$> lines_of (snd (for_each xs body h)) = flat_map expected xs.
Proof.
  intros Hbody xs h Hrun. unfold for_each in *.
  rewrite (for_rows_lines (fun _ => body) (fun _ => expected)
             (fun _ => Hbody) xs 0%nat h Hrun).
  rewrite flat_map_concat_map. f_equal.
  change (fun k : nat => expected) with (@const (A -> _) nat expected).
  apply imap_const.
Qed.

Lemma print_line (ext : Externals) (line : string) (fo : sink)
    (h : list event) :
  fst (print ext line fo h) = Ok tt ->
  lines_of (snd (print ext line fo h)) = [line].
Proof.
  unfold print, act. destruct (io_print ext h fo line); [discriminate | ].
  reflexivity.
Qed.

Lemma normal_row_lines (ext : Externals) (fa : Fasta) (motifs : list Motif)
    (bed : bool) (fo : sink) (i : nat) (row : list (list Match))
    (h : list event) :
  let body :=
    let* seq_id := list_getitem (fa_ids fa) i in
    let* seq := lift (fa_getitem fa seq_id) in
    for_each (zip motifs row) (fun mm =>
      for_each (snd mm) (fun hit =>
        let* line :=
          lift (_format_line ext seq seq_id (fst mm)
                  (fst (fst hit)) (snd (fst hit)) (snd hit) bed) in
        print ext line fo)) in
  fst (body h) = Ok tt ->
  Ok <$> lines_of (snd (body h)) = normal_lines ext fa motifs bed i row.
Proof.
  cbv zeta. unfold normal_lines, list_getitem.
  destruct (fa_ids fa !! i) as [seq_id | ]; [ | discriminate].
  rewrite bind_run. cbn [ret fst snd].
  rewrite bind_run. cbn [lift fst snd].
  destruct (fa_getitem fa seq_id) as [seq | e]; [ | discriminate].
  cbn [fst snd app]. intros Hrun.
  apply (for_each_lines
           (fun mm : Motif * list Match =>
              for_each (snd mm) (fun hit =>
                let* line :=
                  lift (_format_line ext seq seq_id (fst mm)
                          (fst (fst hit)) (snd (fst hit)) (snd hit) bed) in
                print ext line fo))); [ | exact Hrun].
  intros mm h1 Hmm.
  assert (Hhit : forall (hit : Match) h2,
             fst ((let* line :=
                     lift (_format_line ext seq seq_id (fst mm)
                             (fst (fst hit)) (snd (fst hit)) (snd hit) bed) in
                   print ext line fo) h2) = Ok tt ->
             Ok <$> lines_of
                      (snd ((let* line :=
                               lift (_format_line ext seq seq_id (fst mm)
                                       (fst (fst hit)) (snd (fst hit))
                                       (snd hit) bed) in
                             print ext line fo) h2))
             = [_format_line ext seq seq_id (fst mm)
                  (fst (fst hit)) (snd (fst hit)) (snd hit) bed]).
  { intros hit h2. rewrite bind_run. cbn [lift fst snd].
    destruct (_format_line ext seq seq_id (fst mm) (fst (fst hit))
                (snd (fst hit)) (snd hit) bed) as [line | e];
      [ | discriminate].
    cbn [fst snd app]. intros Hprint.
    rewrite (print_line _ _ _ _ Hprint). reflexivity. }
  etransitivity; [exact (for_each_lines _ _ Hhit (snd mm) h1 Hmm) | ].
  rewrite flat_map_concat_map. clear Hmm.
  induction (snd mm) as [ | hit hits IH]; [reflexivity | ].
  cbn. f_equal. exact IH.
Qed.

(** X11.  A run of [_scan_normal] that completes has written, for the rows
    of the engine in order, for the motifs paired with the matches of a row
    in order, one line for each match in order, each the line
    [_format_line] gives for the sequence of the row; the iterator of the
    engine has ended without an exception, every row had an identifier and
    a sequence, and every match a strand that is +1 or -1. *)
Theorem scan_normal_lines (ext : Externals) (fa : Fasta) (motifs : list Motif)
    (nreport : Z) (scan_rc bed zscore gcnorm : bool) (fo : sink)
    (h : list event) :
  let it :=
    eng_scan ext
      (calls_of h ++ [scan (SrcFasta fa) nreport scan_rc zscore gcnorm]) in
  let run :=
    _scan_normal ext fa motifs nreport scan_rc bed zscore gcnorm
      (fun line => print ext line fo) h in
  fst run = Ok tt ->
  snd it = None
  /\ Ok <$> lines_of (snd run)
     = concat (imap (normal_lines ext fa motifs bed) (fst it)).
Proof.
  cbv zeta. unfold _scan_normal. rewrite bind_run.
  cbn [engine_iter fst snd].
  set (it := eng_scan ext _). unfold enumerate. rewrite bind_run.
  set (body := fun (i : nat) (row : list (list Match)) => _).
  pose proof (for_rows_lines body (normal_lines ext fa motifs bed)
                (fun i x h' => normal_row_lines ext fa motifs bed fo i x h')
                (fst it) 0%nat (h ++ [EvCall (scan (SrcFasta fa) nreport scan_rc
                                                zscore gcnorm)])%list)
    as Hrows.
  destruct (for_rows body 0 (fst it) _) as [[[] | e] ev]; cbn [fst snd] in *;
    [ | discriminate].
  destruct (snd it) as [e | ]; cbn [raise ret fst snd]; [discriminate | ].
  intros _. split; [reflexivity | ].
  rewrite app_nil_r. cbn [app lines_of omap list_omap].
  fold (lines_of ev). rewrite (Hrows eq_refl). f_equal.
Qed.

Lemma scan_normal_lines_witness :
  let run :=
    _scan_normal demo_ext demo_fasta [motif_a; motif_b] 1 true true false
      false (fun line => print demo_ext line Stdout) [] in
  fst run = Ok tt
  /\ Ok <$> lines_of (snd run)
     = [Ok ("chr1" +:+ tab +:+ "1005" +:+ tab +:+ "1013" +:+ tab +:+ "MA0001"
            +:+ tab +:+ "1.5" +:+ tab +:+ "+");
        Ok ("seq42" +:+ tab +:+ "2" +:+ tab +:+ "6" +:+ tab +:+ "MA0002"
            +:+ tab +:+ "0.25" +:+ tab +:+ "-")].
Proof.
  cbv zeta.
  assert (Hrun : fst (_scan_normal demo_ext demo_fasta [motif_a; motif_b] 1
                        true true false false
                        (fun line => print demo_ext line Stdout) [])
                 = Ok tt) by (vm_compute; reflexivity).
  split; [exact Hrun | ].
  destruct (scan_normal_lines demo_ext demo_fasta [motif_a; motif_b] 1 true
              true false false Stdout [] Hrun) as [_ Hlines].
  rewrite Hlines. vm_compute. reflexivity.
Defined.
